(** * Daily upload reminder: a shallow embedding of [daily_reminder.py]
      and [email_utils.py], and the properties of the reconciliation run.

    The Python program polls a Drive folder, compares the owners of the
    files modified today with a roster read from a spreadsheet, and mails a
    reminder to every active participant without an upload.

    Conventions of the embedding.
    - A Python [str] is a [string]; the characters are bytes, and the case
      mapping [lower] acts on the ASCII letters.
    - Everything the program does to the outside (a log call, a spreadsheet
      read, a Drive [files().list(...).execute()], a [mail.send]) is an
      [event] appended to a trace; what the outside answers is read from an
      oracle record ([World] for one run, [Startup] for the constructor).
    - A Python function is a computation [M A]: it takes the trace so far
      and gives back either a value or the exception it raised, with the
      extended trace.  [try ... except] is pattern matching on the raised
      exception. *)

From Stdlib Require Import String Ascii List ZArith Lia Bool Arith PeanoNat.
From Stdlib Require Import DecimalString Sorted.
Import ListNotations.

Local Open Scope string_scope.
Local Open Scope list_scope.
Local Open Scope nat_scope.

(* ================================================================= *)
(** ** Python strings *)

Module Py.

(** An f-string: the concatenation of its pieces. *)
Definition fstr (parts : list string) : string := String.concat "" parts.

(** [str(n)] for a natural number. *)
Definition str_nat (n : nat) : string := NilZero.string_of_uint (Nat.to_uint n).

(** [c.lower()] on one character: the ASCII capitals 'A'..'Z' move to
    'a'..'z', every other byte stays. *)
Definition is_upper (c : ascii) : bool :=
  (65 <=? nat_of_ascii c) && (nat_of_ascii c <=? 90).

Definition lower_ascii (c : ascii) : ascii :=
  if is_upper c then ascii_of_nat (nat_of_ascii c + 32) else c.

(** [s.lower()] *)
Fixpoint lower (s : string) : string :=
  match s with
  | EmptyString => EmptyString
  | String c s' => String (lower_ascii c) (lower s')
  end.

(** The whitespace [str.strip()] removes, among the ASCII characters:
    tab, newline, vertical tab, form feed, carriage return, the four
    separators 0x1c..0x1f and the space. *)
Definition is_space (c : ascii) : bool :=
  let n := nat_of_ascii c in
  ((9 <=? n) && (n <=? 13)) || ((28 <=? n) && (n <=? 31)) || (n =? 32).

Fixpoint lstrip (s : string) : string :=
  match s with
  | EmptyString => EmptyString
  | String c s' => if is_space c then lstrip s' else s
  end.

(** [rstrip] keeps a character when it is not a space or when something
    is kept after it. *)
Fixpoint rstrip (s : string) : string :=
  match s with
  | EmptyString => EmptyString
  | String c s' =>
      match rstrip s' with
      | EmptyString => if is_space c then EmptyString else String c EmptyString
      | rest => String c rest
      end
  end.

(** [s.strip()] *)
Definition strip (s : string) : string := rstrip (lstrip s).

(** [s.split('\n')]: never empty, [''.split('\n') = ['']]. *)
Fixpoint split_lines (s : string) : list string :=
  match s with
  | EmptyString => [EmptyString]
  | String c s' =>
      if (nat_of_ascii c =? 10)%nat then EmptyString :: split_lines s'
      else match split_lines s' with
           | l :: ls => String c l :: ls
           | [] => [String c EmptyString]
           end
  end.

(** Truth value of an optional string ([None] and [''] are false). *)
Definition truthy (o : option string) : bool :=
  match o with
  | None => false
  | Some s => negb (String.eqb s "")
  end.

(** [int(s)] on a string: surrounding whitespace is dropped, one sign is
    allowed, then decimal digits with single underscores between digits.
    [None] stands for [ValueError]. *)
Definition digit_of (c : ascii) : option Z :=
  let n := nat_of_ascii c in
  if (48 <=? n) && (n <=? 57) then Some (Z.of_nat (n - 48)) else None.

Fixpoint int_digits (acc : Z) (after_digit : bool) (s : string) : option Z :=
  match s with
  | EmptyString => if after_digit then Some acc else None
  | String c s' =>
      match digit_of c with
      | Some d => int_digits (10 * acc + d) true s'
      | None =>
          if (nat_of_ascii c =? 95)%nat && after_digit then
            match s' with
            | String c' _ =>
                match digit_of c' with
                | Some _ => int_digits acc false s'
                | None => None
                end
            | EmptyString => None
            end
          else None
      end
  end.

Definition int (s : string) : option Z :=
  match strip s with
  | String "+" s' => int_digits 0 false s'
  | String "-" s' => option_map Z.opp (int_digits 0 false s')
  | s' => int_digits 0 false s'
  end.

End Py.

(** The spec's notion, stated on its own: two identities are equal up to
    case when they have the same length and agree position by position,
    either on the same character or on a capital and its small letter. *)
Definition cased_pair (c d : ascii) : Prop :=
  65 <= nat_of_ascii c <= 90 /\ nat_of_ascii d = nat_of_ascii c + 32.

Definition char_eq_ignore_case (c d : ascii) : Prop :=
  c = d \/ cased_pair c d \/ cased_pair d c.

Inductive eq_ignore_case : string -> string -> Prop :=
| eic_nil : eq_ignore_case EmptyString EmptyString
| eic_cons c d s t :
    char_eq_ignore_case c d -> eq_ignore_case s t ->
    eq_ignore_case (String c s) (String d t).

(* ================================================================= *)
(** ** Exceptions, events and the computation monad *)

(** The exceptions the program handles by name, and [OtherException] for
    any other subclass of [Exception]. *)
Inductive exn :=
| HttpError (msg : string)
| FileNotFoundError (msg : string)
| IndexError (msg : string)
| ValueError (msg : string)
| OtherException (msg : string).

(** [str(e)] *)
Definition exn_str (e : exn) : string :=
  match e with
  | HttpError m | FileNotFoundError m | IndexError m
  | ValueError m | OtherException m => m
  end.

Inductive result (A : Type) :=
| Ret (a : A)
| Raise (e : exn).
Arguments Ret {A} a.
Arguments Raise {A} e.

Inductive level := DEBUG | INFO | WARNING | ERROR.

(** [flask_mail.Message] *)
Record Message := mkMessage {
  subject : string;
  recipients : list string;
  body : string;
  sender : string
}.

(** A [Log] event is a call to the logger, whatever the level the logging
    configuration prints. *)
Inductive event :=
| Log (lvl : level) (msg : string)
    (* logger.debug / info / warning / error *)
| ReadExcel (path : string)
    (* pd.read_excel(path) *)
| FilesList (q : string) (fields : string)
    (* drive_service.files().list(q=q, fields=fields).execute() *)
| MailSend (msg : Message) (raised : option exn).
    (* mail_instance.send(msg), with what it raised *)

Definition trace := list event.

Definition M (A : Type) : Type := trace -> result A * trace.

Definition ret {A} (a : A) : M A := fun t => (Ret a, t).
Definition raise {A} (e : exn) : M A := fun t => (Raise e, t).
Definition bind {A B} (m : M A) (k : A -> M B) : M B :=
  fun t => match m t with
           | (Ret a, t') => k a t'
           | (Raise e, t') => (Raise e, t')
           end.
(** [try m except ...: h e] where the handler decides which exceptions it
    takes ([None]: not handled, the exception goes on). *)
Definition try_except {A} (m : M A) (h : exn -> option (M A)) : M A :=
  fun t => match m t with
           | (Ret a, t') => (Ret a, t')
           | (Raise e, t') =>
               match h e with
               | Some k => k t'
               | None => (Raise e, t')
               end
           end.
Definition emit (e : event) : M unit := fun t => (Ret tt, t ++ [e]).
Definition get_trace : M trace := fun t => (Ret t, t).
Definition lift {A} (r : result A) : M A := fun t => (r, t).

Notation "x <- m ;; k" := (bind m (fun x => k))
  (at level 61, m at next level, right associativity).
Notation "m ;;; k" := (bind m (fun _ => k))
  (at level 61, right associativity).

Definition logger (lvl : level) (msg : string) : M unit := emit (Log lvl msg).

(** [for x in xs: s = body x s], the loop variables threaded as [s]. *)
Fixpoint for_each {A S} (body : A -> S -> M S) (xs : list A) (s : S) : M S :=
  match xs with
  | [] => ret s
  | x :: xs' => s' <- body x s ;; for_each body xs' s'
  end.

(** Projections of a trace. *)
Definition sends (t : trace) : list (Message * option exn) :=
  flat_map (fun e => match e with MailSend m r => [(m, r)] | _ => [] end) t.

Definition drive_calls (t : trace) : list (string * string) :=
  flat_map (fun e => match e with FilesList q f => [(q, f)] | _ => [] end) t.

(* ================================================================= *)
(** ** Data model and the outside world *)

(** [datetime.now()] and the three [strftime] formats the program uses. *)
Record datetime := mkDatetime {
  year : nat; month : nat; day : nat;
  hour : nat; minute : nat; second : nat
}.

Definition pad2 (n : nat) : string :=
  if n <? 10 then Py.fstr ["0"; Py.str_nat n] else Py.str_nat n.

(** ['%Y-%m-%d'], the year printed as it is (four digits from 1000 on). *)
Definition strftime_Ymd (d : datetime) : string :=
  Py.fstr [Py.str_nat (year d); "-"; pad2 (month d); "-"; pad2 (day d)].
(** ['%d/%m'] *)
Definition strftime_dm (d : datetime) : string :=
  Py.fstr [pad2 (day d); "/"; pad2 (month d)].
(** ['%Y-%m-%d %H:%M:%S'] *)
Definition strftime_YmdHMS (d : datetime) : string :=
  Py.fstr [strftime_Ymd d; " "; pad2 (hour d); ":"; pad2 (minute d); ":";
           pad2 (second d)].

(** One row of the spreadsheet and the frame [pd.read_excel] returns.  The
    cells of the columns [email] and [name] are strings and those of
    [active] integers, as the roster interface has them; they are read only
    after the column check. *)
Record row := mkRow {
  row_email : string;
  row_name : string;
  row_active : Z
}.

Record DataFrame := mkDataFrame {
  columns : list string;
  rows : list row
}.

(** An element of [load_participants()]: a dict with the keys ['email'] and
    ['name']. *)
Record participant := mkParticipant {
  email : string;
  name : string
}.

(** The Drive file resource, with the fields the program reads; a key read
    with [.get] may be absent. *)
Record owner := mkOwner {
  emailAddress : option string
}.

Record file := mkFile {
  file_id : string;
  file_name : option string;
  owners : option (list owner)
}.

(** The dict one [execute()] returns. *)
Record page := mkPage {
  files : option (list file)
}.

(** What the service holds for one query: the page [execute()] returns and
    the pages that would follow it under a page token. *)
Record listing := mkListing {
  results_page : page;
  further_pages : list page
}.

Definition all_pages (l : listing) : list page := results_page l :: further_pages l.

(** [d.get('files', [])] and the like. *)
Definition get {A} (o : option A) (default : A) : A :=
  match o with Some a => a | None => default end.

(** [app.config] *)
Record Config := mkConfig {
  MAIL_SERVER : string;
  MAIL_PORT : Z;
  MAIL_USE_TLS : bool;
  MAIL_USERNAME : option string;
  MAIL_PASSWORD : option string;
  MAIL_DEFAULT_SENDER : string
}.

(** The object [ImprovedDailyReminderSystem]: [drive_service] is [true]
    once [build] has returned a service and [false] while it is [None]. *)
Record System := mkSystem {
  participants_file : string;
  token_file : string;
  drive_service : bool;
  app_config : Config
}.

(** The outside during one run.  The Drive and the mail oracle answer by
    the number of earlier calls of the same kind in the run, so the same
    request may be answered differently each time.  The clock is read as
    one value, [now], for the whole run. *)
Record World := mkWorld {
  now : datetime;
  read_excel : string -> result DataFrame;
  files_list : nat -> string -> string -> result listing;
  mail_send : nat -> Message -> option exn
}.

(** [pd.read_excel(path)] *)
Definition pd_read_excel (w : World) (path : string) : M DataFrame :=
  emit (ReadExcel path) ;;; lift (read_excel w path).

(** [drive_service.files().list(q=q, fields=fields).execute()]: no page
    token is ever passed, the answer is the first page. *)
Definition files_list_execute (w : World) (q fields : string) : M page :=
  t <- get_trace ;;
  emit (FilesList q fields) ;;;
  match files_list w (length (drive_calls t)) q fields with
  | Ret l => ret (results_page l)
  | Raise e => raise e
  end.

(** [mail_instance.send(msg)] *)
Definition mail_instance_send (w : World) (msg : Message) : M unit :=
  t <- get_trace ;;
  let r := mail_send w (length (sends t)) msg in
  emit (MailSend msg r) ;;;
  match r with
  | Some e => raise e
  | None => ret tt
  end.

(* ================================================================= *)
(** ** email_utils.py *)

Definition rule50 : string := "==================================================".
Definition rule70 : string :=
  "======================================================================".

Definition send_email (w : World) (current_app : Config)
    (recipient subject body : string) : M bool :=
  try_except
    (let msg := mkMessage subject [recipient] body
                  (MAIL_DEFAULT_SENDER current_app) in
     mail_instance_send w msg ;;;
     logger INFO (Py.fstr ["Email sent to "; recipient; ": "; subject]) ;;;
     ret true)
    (fun e => Some (
       logger ERROR (Py.fstr ["Failed to send email to "; recipient; ": ";
                              exn_str e]) ;;;
       logger INFO rule50 ;;;
       logger INFO "[EMAIL SEND FAILED]" ;;;
       logger INFO (Py.fstr ["TO: "; recipient]) ;;;
       logger INFO (Py.fstr ["SUBJECT: "; subject]) ;;;
       logger INFO (Py.fstr ["BODY: "; body]) ;;;
       logger INFO rule50 ;;;
       ret false)).

Definition reminder_subject (w : World) : string :=
  Py.fstr ["Diary Reminder - "; strftime_dm (now w)].

Definition reminder_body (participant_name : string) : string :=
  Py.fstr ["Dear "; participant_name; ",

Thanks for your response! Can you update the progress of your reading yesterday? We're really interested in your personal finding.

LateOwls"].

Definition send_reminder_email (w : World) (current_app : Config)
    (recipient participant_name : string) : M bool :=
  let current_date := strftime_dm (now w) in
  let subject := Py.fstr ["Diary Reminder - "; current_date] in
  let body := reminder_body participant_name in
  send_email w current_app recipient subject body.

(* ================================================================= *)
(** ** daily_reminder.py: the reconciliation run *)

Definition required_columns : list string := ["email"; "name"; "active"].

(** [all(col in df.columns for col in required_columns)] *)
Definition has_required_columns (df : DataFrame) : bool :=
  forallb (fun col => existsb (String.eqb col) (columns df)) required_columns.

(** [load_participants]: the Roster Loader. *)
Definition load_participants (w : World) (self : System) : M (list participant) :=
  try_except
    (df <- pd_read_excel w (participants_file self) ;;
     if negb (has_required_columns df)
     then
       logger ERROR "Excel file must have columns: ['email', 'name', 'active']" ;;;
       ret []
     else
       let active_participants :=
         filter (fun r => (row_active r =? 1)%Z) (rows df) in
       logger INFO (Py.fstr ["Loaded "; Py.str_nat (length active_participants);
                             " active participants from ";
                             Py.str_nat (length (rows df)); " total"]) ;;;
       ret (map (fun r => mkParticipant (row_email r) (row_name r))
              active_participants))
    (fun e =>
       match e with
       | FileNotFoundError _ =>
           Some (logger ERROR (Py.fstr ["Error: "; participants_file self;
                                        " not found!"]) ;;;
                 logger ERROR
                   "Please create the file using: python create_sample_excel.py" ;;;
                 ret [])
       | _ =>
           Some (logger ERROR (Py.fstr ["Error loading participants: ";
                                        exn_str e]) ;;;
                 ret [])
       end).

Definition folder_query (folder_name : string) : string :=
  Py.fstr ["name='"; folder_name;
           "' and mimeType='application/vnd.google-apps.folder' and trashed=false"].

Definition folder_fields : string := "files(id, name)".

(** [get_drive_folder_id]: folder resolution by display name. *)
Definition get_drive_folder_id (w : World) (folder_name : string)
    : M (option string) :=
  try_except
    (results <- files_list_execute w (folder_query folder_name) folder_fields ;;
     let items := get (files results) [] in
     match items with
     | item0 :: _ =>
         logger INFO (Py.fstr ["Found folder '"; folder_name; "' with ID: ";
                               file_id item0]) ;;;
         ret (Some (file_id item0))
     | [] =>
         logger ERROR (Py.fstr ["Folder '"; folder_name; "' not found"]) ;;;
         logger ERROR "Please ensure the folder exists and you have access to it" ;;;
         ret None
     end)
    (fun e =>
       match e with
       | HttpError _ =>
           Some (logger ERROR (Py.fstr ["An error occurred searching for folder: ";
                                        exn_str e]) ;;;
                 ret None)
       | _ => None
       end).

Definition uploads_query (folder_id today : string) : string :=
  Py.fstr ["parents in '"; folder_id; "' and modifiedTime >= '"; today;
           "T00:00:00' and trashed=false"].

Definition uploads_fields : string :=
  "files(id, name, owners, modifiedTime, createdTime)".

(** The test of the inner loop, and the two nested loops with their
    [return True] at the first owner that passes it. *)
Definition owner_matches (participant_email : string) (o : owner) : bool :=
  String.eqb (Py.lower (get (emailAddress o) "")) (Py.lower participant_email).

Definition uploaded_by (participant_email : string) (f : file) : bool :=
  existsb (owner_matches participant_email) (get (owners f) []).

Definition str_opt (o : option string) : string := get o "None".

(** [check_files_uploaded_today]: the Upload Checker. *)
Definition check_files_uploaded_today (w : World) (folder_id participant_email : string)
    : M bool :=
  let today := strftime_Ymd (now w) in
  try_except
    (results <- files_list_execute w (uploads_query folder_id today)
                  uploads_fields ;;
     let items := get (files results) [] in
     logger DEBUG (Py.fstr ["Found "; Py.str_nat (length items);
                            " files modified today in the folder"]) ;;;
     match find (uploaded_by participant_email) items with
     | Some f =>
         logger DEBUG (Py.fstr ["Found file by "; participant_email; ": ";
                                str_opt (file_name f)]) ;;;
         ret true
     | None => ret false
     end)
    (fun e =>
       match e with
       | HttpError _ =>
           Some (logger ERROR (Py.fstr ["An error occurred while checking files: ";
                                        exn_str e]) ;;;
                 ret false)
       | _ => None
       end).

(** The loop variables of [run_daily_check], and what a run leaves: the
    function returns [None] from every exit; [Aborted] and [Completed] tell
    the early returns from the normal end, and [Completed] carries the three
    figures the last log lines print. *)
Record counters := mkCounters {
  reminders_sent : nat;
  upload_count : nat
}.

Record RunSummary := mkRunSummary {
  participants_with_uploads : nat;      (* upload_count *)
  reminder_emails_sent : nat;           (* reminders_sent *)
  total_participants_checked : nat      (* len(participants) *)
}.

Inductive run_outcome :=
| Aborted
| Completed (summary : RunSummary).

Definition mark_mail : string := "ðŸ“§".
Definition mark_ok : string := "âœ…".
Definition mark_bullet : string := "â€¢".

(** The body of [for participant in participants]. *)
Definition check_participant (w : World) (self : System) (folder_id : string)
    (p : participant) (c : counters) : M counters :=
  let email := email p in
  let name := name p in
  uploaded_today <- check_files_uploaded_today w folder_id email ;;
  if negb uploaded_today then
    logger INFO (Py.fstr [mark_mail; " No upload found for "; name; " ("; email;
                          ") - sending reminder"]) ;;;
    sent <- send_reminder_email w (app_config self) email name ;;
    if sent then ret (mkCounters (reminders_sent c + 1) (upload_count c))
    else ret c
  else
    logger INFO (Py.fstr [mark_ok; " "; name; " ("; email; ") has uploaded today"]) ;;;
    ret (mkCounters (reminders_sent c) (upload_count c + 1)).

(** [run_daily_check]: the Reconciliation Engine. *)
Definition run_daily_check (w : World) (self : System) (folder_name : string)
    : M run_outcome :=
  logger INFO rule70 ;;;
  logger INFO (Py.fstr ["Running daily reminder check at ";
                        strftime_YmdHMS (now w)]) ;;;
  logger INFO rule70 ;;;
  if negb (drive_service self) then
    logger ERROR "Google Drive service not initialized. Exiting." ;;;
    ret Aborted
  else if negb (Py.truthy (MAIL_USERNAME (app_config self))) then
    logger ERROR "Email configuration not complete. Exiting." ;;;
    ret Aborted
  else
    participants <- load_participants w self ;;
    match participants with
    | [] =>
        logger WARNING "No active participants found." ;;;
        ret Aborted
    | _ :: _ =>
        logger INFO (Py.fstr ["Checking "; Py.str_nat (length participants);
                              " active participants"]) ;;;
        folder_id <- get_drive_folder_id w folder_name ;;
        if negb (Py.truthy folder_id) then
          logger ERROR (Py.fstr ["Could not find folder '"; folder_name;
                                 "'. Exiting."]) ;;;
          ret Aborted
        else
          let folder_id := get folder_id "" in
          logger INFO (Py.fstr ["Monitoring uploads in folder: "; folder_name]) ;;;
          c <- for_each (check_participant w self folder_id) participants
                 (mkCounters 0 0) ;;
          logger INFO rule70 ;;;
          logger INFO "Daily check completed!" ;;;
          logger INFO (Py.fstr ["  "; mark_bullet; " Participants with uploads: ";
                                Py.str_nat (upload_count c)]) ;;;
          logger INFO (Py.fstr ["  "; mark_bullet; " Reminder emails sent: ";
                                Py.str_nat (reminders_sent c)]) ;;;
          logger INFO (Py.fstr ["  "; mark_bullet; " Total participants checked: ";
                                Py.str_nat (length participants)]) ;;;
          logger INFO rule70 ;;;
          ret (Completed (mkRunSummary (upload_count c) (reminders_sent c)
                            (length participants)))
    end.

(* ================================================================= *)
(** ** daily_reminder.py: the scheduler loop *)

(** What one turn of [while True: schedule.run_pending(); time.sleep(60)]
    meets: no job due, the daily job due (with the outside of that run), or
    a [KeyboardInterrupt]. *)
Inductive poll :=
| NotDue
| Due (w : World)
| Interrupt.

(** Where the loop stands once the polls given to it are used up. *)
Inductive scheduler_state :=
| Polling      (* still inside [while True] *)
| Stopped.     (* left through [except KeyboardInterrupt] *)

(** A run counts its Drive and mail calls from its own beginning: it works
    on a trace of its own, which is then appended to the process trace. *)
Definition in_fresh_trace {A} (m : M A) : M A :=
  fun t => let (r, t') := m [] in (r, t ++ t').

Fixpoint scheduler_loop (self : System) (folder_name : string)
    (polls : list poll) : M scheduler_state :=
  match polls with
  | [] => ret Polling
  | NotDue :: rest => scheduler_loop self folder_name rest
  | Due w :: rest =>
      in_fresh_trace (run_daily_check w self folder_name) ;;;
      scheduler_loop self folder_name rest
  | Interrupt :: _ =>
      logger INFO "
Daily reminder scheduler stopped by user" ;;;
      ret Stopped
  end.

Definition start_scheduler (self : System) (check_time folder_name : string)
    (polls : list poll) : M scheduler_state :=
  logger INFO (Py.fstr ["Daily check scheduled for: "; check_time]) ;;;
  logger INFO (Py.fstr ["Monitoring folder: "; folder_name]) ;;;
  logger INFO (Py.fstr ["Email sender: "; MAIL_DEFAULT_SENDER (app_config self)]) ;;;
  logger INFO rule50 ;;;
  logger INFO "Press Ctrl+C to stop the scheduler" ;;;
  scheduler_loop self folder_name polls.

(* ================================================================= *)
(** ** daily_reminder.py: construction of the system and [main] *)

(** [google.oauth2.credentials.Credentials], the three attributes read. *)
Record Credentials := mkCredentials {
  valid : bool;
  expired : bool;
  refresh_token : option string
}.

(** The outside at start-up. *)
Record Startup := mkStartup {
  environ : string -> option string;                       (* os.environ.get *)
  open_read : string -> result string;                     (* open(path).read() *)
  path_exists : string -> bool;                            (* os.path.exists *)
  from_authorized_user_file : string -> result Credentials;
  refresh : result unit;                                   (* creds.refresh(Request()) *)
  build : result unit                                      (* build('drive', 'v3', ...) *)
}.

(** [load_mail_config_from_file] writes into [app.config]: the user name is
    already stored when the second line turns out to be missing. *)
Definition load_mail_config_from_file (s : Startup) (cfg : Config) : M Config :=
  match open_read s "gmail_credentials.txt" with
  | Ret content =>
      let lines := Py.split_lines (Py.strip content) in
      match nth_error lines 0 with
      | Some l0 =>
          let cfg := mkConfig (MAIL_SERVER cfg) (MAIL_PORT cfg) (MAIL_USE_TLS cfg)
                       (Some (Py.strip l0)) (MAIL_PASSWORD cfg)
                       (MAIL_DEFAULT_SENDER cfg) in
          match nth_error lines 1 with
          | Some l1 =>
              let cfg := mkConfig (MAIL_SERVER cfg) (MAIL_PORT cfg)
                           (MAIL_USE_TLS cfg) (MAIL_USERNAME cfg)
                           (Some (Py.strip l1)) (MAIL_DEFAULT_SENDER cfg) in
              logger INFO "Email credentials loaded from file" ;;;
              ret cfg
          | None =>
              logger ERROR "Invalid format in gmail_credentials.txt" ;;;
              ret cfg
          end
      | None =>
          logger ERROR "Invalid format in gmail_credentials.txt" ;;;
          ret cfg
      end
  | Raise (FileNotFoundError _) =>
      logger ERROR "gmail_credentials.txt not found!" ;;;
      ret cfg
  | Raise (IndexError _) =>
      logger ERROR "Invalid format in gmail_credentials.txt" ;;;
      ret cfg
  | Raise e => raise e
  end.

(** [setup_flask_app] *)
Definition setup_flask_app (s : Startup) : M Config :=
  let mail_server := get (environ s "MAIL_SERVER") "smtp.gmail.com" in
  mail_port <- match environ s "MAIL_PORT" with
               | None => ret 587%Z
               | Some v =>
                   match Py.int v with
                   | Some n => ret n
                   | None => raise (ValueError (Py.fstr
                       ["invalid literal for int() with base 10: '"; v; "'"]))
                   end
               end ;;
  let mail_use_tls := String.eqb (get (environ s "MAIL_USE_TLS") "True") "True" in
  let cfg := mkConfig mail_server mail_port mail_use_tls
               (environ s "MAIL_USERNAME") (environ s "MAIL_PASSWORD")
               (get (environ s "MAIL_DEFAULT_SENDER")
                  "Survey Team <lateowl-survey@gmail.com>") in
  cfg <- (if negb (Py.truthy (MAIL_USERNAME cfg))
             || negb (Py.truthy (MAIL_PASSWORD cfg))
          then load_mail_config_from_file s cfg
          else ret cfg) ;;
  logger INFO "Flask app configured successfully" ;;;
  logger INFO (Py.fstr ["Email server: "; MAIL_SERVER cfg]) ;;;
  logger INFO (Py.fstr ["Email username: "; str_opt (MAIL_USERNAME cfg)]) ;;;
  ret cfg.

(** [setup_google_services]: the value is the new [self.drive_service]. *)
Definition setup_google_services (s : Startup) (token_file : string) : M bool :=
  creds <- (if path_exists s token_file
            then c <- lift (from_authorized_user_file s token_file) ;; ret (Some c)
            else ret None) ;;
  let build_service : M bool :=
    try_except
      (lift (build s) ;;;
       logger INFO "Google Drive service initialized successfully" ;;;
       ret true)
      (fun e =>
         match e with
         | HttpError _ =>
             Some (logger ERROR (Py.fstr
                     ["An error occurred setting up Google Drive: "; exn_str e]) ;;;
                   ret false)
         | _ => None
         end) in
  match creds with
  | Some c =>
      if valid c then build_service
      else if expired c && Py.truthy (refresh_token c) then
        lift (refresh s) ;;; build_service
      else
        logger ERROR
          "Please run the setup_oauth.py script first to authenticate with Google APIs" ;;;
        ret false
  | None =>
      logger ERROR
        "Please run the setup_oauth.py script first to authenticate with Google APIs" ;;;
      ret false
  end.

(** [ImprovedDailyReminderSystem.__init__] *)
Definition ImprovedDailyReminderSystem (s : Startup) : M System :=
  let participants_file := "participants.xlsx" in
  let token_file := "token.json" in
  cfg <- setup_flask_app s ;;
  drive <- setup_google_services s token_file ;;
  ret (mkSystem participants_file token_file drive cfg).

(** How the process stands after [main] has met the given polls: it has
    exited with a code, or it is still in the scheduler loop. *)
Inductive process :=
| Exited (code : Z)
| Scheduling.

(** [main]; leaving [main] normally ends the process with code 0. *)
Definition main (s : Startup) (polls : list poll) : process * trace :=
  let body : M scheduler_state :=
    reminder_system <- ImprovedDailyReminderSystem s ;;
    let check_time := "01:00" in
    let folder_name := "Survey Uploads" in
    start_scheduler reminder_system check_time folder_name polls in
  match body [] with
  | (Ret Polling, t) => (Scheduling, t)
  | (Ret Stopped, t) => (Exited 0, t)
  | (Raise e, t) =>
      (Exited 1,
       t ++ [Log ERROR (Py.fstr ["Failed to start daily reminder system: ";
                                 exn_str e])])
  end.

(* ================================================================= *)
(** ** Reading a run: what the theorems speak about *)

(** The reminder composed for a participant. *)
Definition reminder_message (w : World) (cfg : Config) (p : participant) : Message :=
  mkMessage (reminder_subject w) [email p] (reminder_body (name p))
    (MAIL_DEFAULT_SENDER cfg).

(** The answer of the Drive to the uploads query when it is the [i]-th
    Drive call of the run. *)
Definition answer (w : World) (folder_id : string) (i : nat) : result listing :=
  files_list w i (uploads_query folder_id (strftime_Ymd (now w))) uploads_fields.

(** The upload records a listing call returned: the files of the page
    [execute()] gave back, none when the call raised. *)
Definition records_returned (r : result listing) : list file :=
  match r with
  | Ret l => get (files (results_page l)) []
  | Raise _ => []
  end.

(** All the upload records the service holds for the query, page after
    page. *)
Definition records_held (l : listing) : list file :=
  flat_map (fun pg => get (files pg) []) (all_pages l).

(** A record names the identity among its owners, up to case. *)
Definition owned_by (identity : string) (f : file) : Prop :=
  exists o, In o (get (owners f) []) /\
            eq_ignore_case (get (emailAddress o) "") identity.

Definition found (r : result listing) (identity : string) : bool :=
  existsb (uploaded_by identity) (records_returned r).

(** A listing call whose exception [check_files_uploaded_today] does not
    catch. *)
Definition uncaught (r : result listing) : bool :=
  match r with
  | Raise (HttpError _) => false
  | Raise _ => true
  | Ret _ => false
  end.

Definition delivered (s : Message * option exn) : bool :=
  match snd s with None => true | Some _ => false end.

(** The participants with the number of the Drive call that checks them,
    the first being call [d]. *)
Definition indexed (d : nat) (ps : list participant) : list (nat * participant) :=
  combine (seq d (length ps)) ps.

Definition not_found (w : World) (folder_id : string) (ip : nat * participant) : bool :=
  negb (found (answer w folder_id (fst ip)) (email (snd ip))).

Definition uploads_call (w : World) (folder_id : string) : string * string :=
  (uploads_query folder_id (strftime_Ymd (now w)), uploads_fields).

(** The rows the Roster Loader keeps. *)
Definition active_rows (df : DataFrame) : list row :=
  filter (fun r => (row_active r =? 1)%Z) (rows df).

Definition participant_of (r : row) : participant :=
  mkParticipant (row_email r) (row_name r).

Definition is_uploads_call (c : string * string) : bool :=
  String.eqb (snd c) uploads_fields.

(** The file-listing queries of a trace (the folder lookup is not one). *)
Definition listing_queries (t : trace) : list string :=
  map fst (filter is_uploads_call (drive_calls t)).

(** The events of a failed dispatch, after the [MailSend] itself. *)
Definition failure_log (recipient subject body : string) (e : exn) : trace :=
  [ Log ERROR (Py.fstr ["Failed to send email to "; recipient; ": "; exn_str e]);
    Log INFO rule50;
    Log INFO "[EMAIL SEND FAILED]";
    Log INFO (Py.fstr ["TO: "; recipient]);
    Log INFO (Py.fstr ["SUBJECT: "; subject]);
    Log INFO (Py.fstr ["BODY: "; body]);
    Log INFO rule50 ].

(** The events of one upload check, by the answer of the Drive. *)
Definition check_events (folder_id : string) (w : World) (participant_email : string)
    (r : result listing) : trace :=
  FilesList (uploads_query folder_id (strftime_Ymd (now w))) uploads_fields ::
  match r with
  | Ret l =>
      let items := get (files (results_page l)) [] in
      Log DEBUG (Py.fstr ["Found "; Py.str_nat (length items);
                          " files modified today in the folder"]) ::
      match find (uploaded_by participant_email) items with
      | Some f => [Log DEBUG (Py.fstr ["Found file by "; participant_email; ": ";
                                       str_opt (file_name f)])]
      | None => []
      end
  | Raise (HttpError m) =>
      [Log ERROR (Py.fstr ["An error occurred while checking files: "; m])]
  | Raise _ => []
  end.


(** The events of one dispatch of a reminder, by what [mail.send] raised. *)
Definition dispatch_events (w : World) (cfg : Config) (p : participant)
    (r : option exn) : trace :=
  let m := reminder_message w cfg p in
  match r with
  | None =>
      [MailSend m None;
       Log INFO (Py.fstr ["Email sent to "; email p; ": "; reminder_subject w])]
  | Some e =>
      MailSend m (Some e) ::
      failure_log (email p) (reminder_subject w) (reminder_body (name p)) e
  end.

Definition no_upload_line (p : participant) : event :=
  Log INFO (Py.fstr [mark_mail; " No upload found for "; name p; " ("; email p;
                     ") - sending reminder"]).

Definition has_uploaded_line (p : participant) : event :=
  Log INFO (Py.fstr [mark_ok; " "; name p; " ("; email p; ") has uploaded today"]).

Definition was_found (w : World) (folder_id : string) (ip : nat * participant) : bool :=
  found (answer w folder_id (fst ip)) (email (snd ip)).

(** The value of [load_participants], by what [pd.read_excel] gave. *)
Definition loaded (r : result DataFrame) : list participant :=
  match r with
  | Ret df =>
      if has_required_columns df then map participant_of (active_rows df) else []
  | Raise _ => []
  end.

(** The value of [get_drive_folder_id], by the answer of the Drive. *)
Definition resolve (r : result listing) : result (option string) :=
  match r with
  | Ret l =>
      match get (files (results_page l)) [] with
      | item0 :: _ => Ret (Some (file_id item0))
      | [] => Ret None
      end
  | Raise (HttpError _) => Ret None
  | Raise x => Raise x
  end.

(** The two guards at the head of [run_daily_check]. *)
Definition ready (self : System) : bool :=
  drive_service self && Py.truthy (MAIL_USERNAME (app_config self)).

Definition lookup (w : World) (folder_name : string) : result listing :=
  files_list w 0 (folder_query folder_name) folder_fields.

Definition folder_call (folder_name : string) : string * string :=
  (folder_query folder_name, folder_fields).

(** The identities reminded in a trace, one per dispatch. *)
Definition reminded_identities (t : trace) : list string :=
  flat_map (fun s => recipients (fst s)) (sends t).

(** The two classifications, read off what one turn of the loop does.
    Satisfied: the participant is counted among the uploads, the line
    saying so is written and nothing is sent.  Reminded: the participant
    is not counted among the uploads and one reminder addressed to them is
    handed to the mail service. *)
Definition classified_satisfied (p : participant) (c c' : counters)
    (t t' : trace) : Prop :=
  upload_count c' = upload_count c + 1 /\
  reminders_sent c' = reminders_sent c /\
  exists evs, t' = t ++ evs /\ sends evs = [] /\ In (has_uploaded_line p) evs.

Definition classified_reminded (w : World) (cfg : Config) (p : participant)
    (c c' : counters) (t t' : trace) : Prop :=
  upload_count c' = upload_count c /\
  exists evs r,
    t' = t ++ evs /\ sends evs = [(reminder_message w cfg p, r)] /\
    In (no_upload_line p) evs.

(** The set-up failures [setup_google_services] answers by a log line and
    a plain [return]: no token file; credentials that are neither valid nor
    refreshable; a service build that ends in [HttpError]. *)
Inductive credentials_unusable (s : Startup) (token_file : string) : Prop :=
| token_missing :
    path_exists s token_file = false ->
    credentials_unusable s token_file
| token_not_refreshable c :
    path_exists s token_file = true ->
    from_authorized_user_file s token_file = Ret c ->
    valid c = false ->
    expired c && Py.truthy (refresh_token c) = false ->
    credentials_unusable s token_file
| service_build_rejected c m :
    path_exists s token_file = true ->
    from_authorized_user_file s token_file = Ret c ->
    valid c = true \/
      (expired c && Py.truthy (refresh_token c) = true /\ refresh s = Ret tt) ->
    build s = Raise (HttpError m) ->
    credentials_unusable s token_file.

(** The set-up failures that leave [setup_google_services] as an
    exception: a token file that cannot be read, a refresh that fails, a
    service build that fails otherwise than by [HttpError]. *)
Inductive credentials_raise (s : Startup) (token_file : string) (e : exn) : Prop :=
| token_unreadable :
    path_exists s token_file = true ->
    from_authorized_user_file s token_file = Raise e ->
    credentials_raise s token_file e
| refresh_failed c :
    path_exists s token_file = true ->
    from_authorized_user_file s token_file = Ret c ->
    valid c = false ->
    expired c && Py.truthy (refresh_token c) = true ->
    refresh s = Raise e ->
    credentials_raise s token_file e
| service_build_failed c :
    path_exists s token_file = true ->
    from_authorized_user_file s token_file = Ret c ->
    valid c = true \/
      (expired c && Py.truthy (refresh_token c) = true /\ refresh s = Ret tt) ->
    build s = Raise e ->
    (forall m, e <> HttpError m) ->
    credentials_raise s token_file e.

Definition startup_error_line (e : exn) : event :=
  Log ERROR (Py.fstr ["Failed to start daily reminder system: "; exn_str e]).

(* ================================================================= *)
(** ** Concrete runs *)

Module Example.

Definition at_one : datetime := mkDatetime 2025 3 7 1 0 5.

Definition cfg : Config :=
  mkConfig "smtp.gmail.com" 587 true (Some "lateowl-survey@gmail.com")
    (Some "app-password") "Survey Team <lateowl-survey@gmail.com>".

Definition system : System := mkSystem "participants.xlsx" "token.json" true cfg.

(** The roster of the spec's example. *)
Definition roster : DataFrame :=
  mkDataFrame ["email"; "name"; "active"]
    [mkRow "a@x.com" "A" 1; mkRow "b@x.com" "B" 1; mkRow "c@x.com" "C" 0].

Definition only_b : DataFrame :=
  mkDataFrame ["email"; "name"; "active"] [mkRow "b@x.com" "B" 1].

Definition survey_folder : file := mkFile "F1" (Some "Survey Uploads") None.
Definition other_folder : file := mkFile "F2" (Some "Survey Uploads") None.

Definition diary_of_a : file :=
  mkFile "D1" (Some "diary.txt") (Some [mkOwner (Some "A@X.com")]).

Definition one_page (fs : list file) : result listing :=
  Ret (mkListing (mkPage (Some fs)) []).

(** A world from its parts: the frame read, the answer to the folder
    lookup, the answers to the uploads query and those of the mail
    service. *)
Definition world (excel : result DataFrame) (folders : result listing)
    (uploads : nat -> result listing) (mail : nat -> option exn) : World :=
  mkWorld at_one (fun _ => excel)
    (fun n _ fields =>
       if String.eqb fields folder_fields then folders else uploads n)
    (fun n _ => mail n).

(** The spec's example: A has uploaded, B has not, C is inactive. *)
Definition spec_example : World :=
  world (Ret roster) (one_page [survey_folder])
    (fun _ => one_page [diary_of_a]) (fun _ => None).

(** The same day with the mail service down. *)
Definition mail_down : World :=
  world (Ret roster) (one_page [survey_folder])
    (fun _ => one_page [diary_of_a])
    (fun _ => Some (OtherException "smtp down")).

Definition b_alone_mail_down : World :=
  world (Ret only_b) (one_page [survey_folder])
    (fun _ => one_page []) (fun _ => Some (OtherException "smtp down")).

Definition notes_of_z : file :=
  mkFile "N1" (Some "notes.txt") (Some [mkOwner (Some "z@x.com")]).

(** The upload of A sits on the second page of the result. *)
Definition two_pages : listing :=
  mkListing (mkPage (Some [notes_of_z])) [mkPage (Some [diary_of_a])].

Definition second_page : World :=
  world (Ret roster) (one_page [survey_folder])
    (fun _ => Ret two_pages) (fun _ => None).

(** The uploads query fails with an HTTP error. *)
Definition drive_failing : World :=
  world (Ret roster) (one_page [survey_folder])
    (fun _ => Raise (HttpError "503 backend error")) (fun _ => None).

(** No roster file. *)
Definition no_roster : World :=
  world (Raise (FileNotFoundError "participants.xlsx")) (one_page [survey_folder])
    (fun _ => one_page [diary_of_a]) (fun _ => None).

(** Two folders carry the monitored name. *)
Definition two_folders : World :=
  world (Ret roster) (one_page [survey_folder; other_folder])
    (fun _ => one_page [diary_of_a]) (fun _ => None).

(** No folder carries it. *)
Definition no_folder : World :=
  world (Ret roster) (one_page [])
    (fun _ => one_page [diary_of_a]) (fun _ => None).

(** Start-up without [token.json] and without mail credentials. *)
Definition nothing_set_up : Startup :=
  mkStartup (fun _ => None) (fun _ => Raise (FileNotFoundError "gmail_credentials.txt"))
    (fun _ => false) (fun _ => Raise (ValueError "no token")) (Ret tt) (Ret tt).

(** The configuration that start-up arrives at. *)
Definition no_mail_cfg : Config :=
  mkConfig "smtp.gmail.com" 587 true None None
    "Survey Team <lateowl-survey@gmail.com>".

(** Start-up with a [token.json] that cannot be parsed. *)
Definition broken_token : Startup :=
  mkStartup (fun _ => None) (fun _ => Raise (FileNotFoundError "gmail_credentials.txt"))
    (fun _ => true) (fun _ => Raise (ValueError "Invalid token file")) (Ret tt) (Ret tt).

Definition participant_a : participant := mkParticipant "a@x.com" "A".
Definition participant_b : participant := mkParticipant "b@x.com" "B".

End Example.

(* ================================================================= *)
(** ** Further concrete inputs *)

Module More.

(** A file nobody is named owner of, and one whose owner entry carries no
    address. *)
Definition orphan : file := mkFile "O1" (Some "orphan.txt") None.
Definition anonymous : file :=
  mkFile "O2" (Some "anonymous.txt") (Some [mkOwner None]).

Definition unowned_uploads : World :=
  Example.world (Ret Example.roster) (Example.one_page [Example.survey_folder])
    (fun _ => Example.one_page [orphan; anonymous]) (fun _ => None).

Definition busy_uploads : World :=
  Example.world (Ret Example.roster) (Example.one_page [Example.survey_folder])
    (fun _ => Example.one_page [Example.notes_of_z; orphan; Example.diary_of_a])
    (fun _ => None).

(** A system that lacks the mail user name, and one without Drive service. *)
Definition no_mail_user : System :=
  mkSystem "participants.xlsx" "token.json" true Example.no_mail_cfg.

Definition blank_mail_user : System :=
  mkSystem "participants.xlsx" "token.json" true
    (mkConfig "smtp.gmail.com" 587 true (Some "") (Some "secret")
       "Survey Team <lateowl-survey@gmail.com>").

(** The folder lookup breaks below HTTP. *)
Definition lookup_breaks : World :=
  Example.world (Ret Example.roster) (Raise (OtherException "timed out"))
    (fun _ => Example.one_page []) (fun _ => None).


(** B is listed twice as active. *)
Definition roster_with_repeat : DataFrame :=
  mkDataFrame ["email"; "name"; "active"]
    [mkRow "b@x.com" "B" 1; mkRow "a@x.com" "A" 1; mkRow "b@x.com" "Bee" 1].

Definition repeated_row : World :=
  Example.world (Ret roster_with_repeat) (Example.one_page [Example.survey_folder])
    (fun _ => Example.one_page [Example.diary_of_a]) (fun _ => None).

(** Start-up with everything in place: the mail credentials in the
    environment, a token file with valid credentials, a service that
    builds. *)
Definition all_set_up : Startup :=
  mkStartup
    (fun k => if String.eqb k "MAIL_USERNAME" then Some "lateowl-survey@gmail.com"
              else if String.eqb k "MAIL_PASSWORD" then Some "app-password"
              else None)
    (fun _ => Raise (FileNotFoundError "gmail_credentials.txt"))
    (fun _ => true)
    (fun _ => Ret (mkCredentials true false (Some "refresh-token")))
    (Ret tt) (Ret tt).

End More.

(* ================================================================= *)
(** ** Reading the polls of the scheduler *)

Definition is_interrupt (p : poll) : bool :=
  match p with Interrupt => true | _ => false end.

(** The polls that matter: the due ones up to the first interrupt. *)
Fixpoint effective (polls : list poll) : list poll :=
  match polls with
  | [] => []
  | NotDue :: rest => effective rest
  | Due w :: rest => Due w :: effective rest
  | Interrupt :: _ => [Interrupt]
  end.

(** A poll whose run, if it is due, returns (completed or aborted). *)
Definition returns (self : System) (folder_name : string) (p : poll) : Prop :=
  match p with
  | Due w => exists r t, run_daily_check w self folder_name [] = (Ret r, t)
  | _ => True
  end.

(* ================================================================= *)
(** ** Reading the credentials file and the set-up of the Drive *)

(** Strings without a line feed. *)
Fixpoint no_newline (s : string) : bool :=
  match s with
  | EmptyString => true
  | String c s' => negb (nat_of_ascii c =? 10) && no_newline s'
  end.

Definition line_feed : string := String (ascii_of_nat 10) EmptyString.

(** The start-ups from which [setup_google_services] returns with a Drive
    service. *)
Definition credentials_usable (s : Startup) (token_file : string) : Prop :=
  path_exists s token_file = true /\
  exists c,
    from_authorized_user_file s token_file = Ret c /\
    (valid c = true \/
     (expired c && Py.truthy (refresh_token c) = true /\ refresh s = Ret tt)) /\
    build s = Ret tt.

(** [app.config] after the credentials file has set the user name, and
    then the password. *)
Definition with_username (cfg : Config) (u : string) : Config :=
  mkConfig (MAIL_SERVER cfg) (MAIL_PORT cfg) (MAIL_USE_TLS cfg) (Some u)
    (MAIL_PASSWORD cfg) (MAIL_DEFAULT_SENDER cfg).

Definition with_password (cfg : Config) (p : string) : Config :=
  mkConfig (MAIL_SERVER cfg) (MAIL_PORT cfg) (MAIL_USE_TLS cfg)
    (MAIL_USERNAME cfg) (Some p) (MAIL_DEFAULT_SENDER cfg).

Definition carriage_return : string := String (ascii_of_nat 13) EmptyString.

(** The settings [setup_flask_app] takes from the environment, and the
    port it reads there. *)
Definition env_port (s : Startup) : result Z :=
  match environ s "MAIL_PORT" with
  | None => Ret 587%Z
  | Some v =>
      match Py.int v with
      | Some n => Ret n
      | None => Raise (ValueError (Py.fstr
                  ["invalid literal for int() with base 10: '"; v; "'"]))
      end
  end.

Definition env_config (s : Startup) (port : Z) : Config :=
  mkConfig (get (environ s "MAIL_SERVER") "smtp.gmail.com") port
    (String.eqb (get (environ s "MAIL_USE_TLS") "True") "True")
    (environ s "MAIL_USERNAME") (environ s "MAIL_PASSWORD")
    (get (environ s "MAIL_DEFAULT_SENDER")
       "Survey Team <lateowl-survey@gmail.com>").

Definition flask_lines (cfg : Config) : trace :=
  [ Log INFO "Flask app configured successfully";
    Log INFO (Py.fstr ["Email server: "; MAIL_SERVER cfg]);
    Log INFO (Py.fstr ["Email username: "; str_opt (MAIL_USERNAME cfg)]) ].

Module Files.

(** A credentials file written on a machine that ends lines with a
    carriage return and a line feed. *)
Definition two_lines : string :=
  (("lateowl-survey@gmail.com" ++ carriage_return) ++ line_feed ++
   ("" ++ "app-password") ++ carriage_return ++ line_feed)%string.

(** A third line, which nothing reads. *)
Definition three_lines : string :=
  (("lateowl-survey@gmail.com" ++ carriage_return) ++ line_feed ++
   "app-password" ++ line_feed ++ "# kept for the record")%string.

Definition with_file (content : string) : Startup :=
  mkStartup (fun _ => None) (fun _ => Ret content) (fun _ => true)
    (fun _ => Ret (mkCredentials true false None)) (Ret tt) (Ret tt).

Definition bad_port : Startup :=
  mkStartup (fun k => if String.eqb k "MAIL_PORT" then Some "smtp" else None)
    (fun _ => Ret two_lines) (fun _ => true)
    (fun _ => Ret (mkCredentials true false None)) (Ret tt) (Ret tt).

Definition tls_in_small_letters : Startup :=
  mkStartup (fun k => if String.eqb k "MAIL_USE_TLS" then Some "true" else None)
    (fun _ => Ret two_lines) (fun _ => true)
    (fun _ => Ret (mkCredentials true false None)) (Ret tt) (Ret tt).

(** Drive credentials in place, mail credentials nowhere. *)
Definition no_mail_credentials : Startup :=
  mkStartup (fun _ => None)
    (fun _ => Raise (FileNotFoundError "gmail_credentials.txt"))
    (fun _ => true) (fun _ => Ret (mkCredentials true false None))
    (Ret tt) (Ret tt).

(** Expired credentials with a refresh token, and a refresh that works. *)
Definition expired_token : Startup :=
  mkStartup (fun _ => None)
    (fun _ => Raise (FileNotFoundError "gmail_credentials.txt"))
    (fun _ => true)
    (fun _ => Ret (mkCredentials false true (Some "refresh-token")))
    (Ret tt) (Ret tt).

End Files.

(* ================================================================= *)
(** ** setup_oauth.py *)

Module OAuth.

(** What [setup_oauth] does to the outside. *)
Inductive oauth_event :=
| Print (line : string)
| RefreshToken
    (* creds.refresh(Request()) *)
| LoginFlow
    (* InstalledAppFlow.from_client_secrets_file(...).run_local_server(port=0) *)
| WriteToken (path content : string)
    (* open(token_file, 'w').write(creds.to_json()) *)
| BuildService (api version : string)
| DriveListOne
    (* drive_service.files().list(pageSize=1).execute() *)
| GmailProfile.
    (* gmail_service.users().getProfile(userId='me').execute() *)

(** The outside of [setup_oauth]. *)
Record OAuthWorld := mkOAuthWorld {
  exists_path : string -> bool;                      (* os.path.exists *)
  authorized_user_file : string -> result Credentials;
  refreshed : Credentials -> result Credentials;     (* the credentials after refresh *)
  client_secrets_file : string -> result unit;       (* from_client_secrets_file *)
  run_local_server : result Credentials;
  to_json : Credentials -> string;
  write_file : string -> string -> result unit;
  build_service : string -> result unit;             (* by API name *)
  list_one_file : result unit;
  get_profile : result (option string)               (* profile.get of 'emailAddress' *)
}.

Definition OM (A : Type) : Type :=
  list oauth_event -> result A * list oauth_event.

Definition oret {A} (a : A) : OM A := fun t => (Ret a, t).
Definition oraise {A} (e : exn) : OM A := fun t => (Raise e, t).
Definition obind {A B} (m : OM A) (k : A -> OM B) : OM B :=
  fun t => match m t with
           | (Ret a, t') => k a t'
           | (Raise e, t') => (Raise e, t')
           end.
(** An outside call: the event, then what the outside answers. *)
Definition act {A} (e : oauth_event) (r : result A) : OM A :=
  fun t => (r, t ++ [e]).
Definition print (line : string) : OM unit := act (Print line) (Ret tt).
(** [try m except Exception as e: h e] *)
Definition otry {A} (m : OM A) (h : exn -> OM A) : OM A :=
  fun t => match m t with
           | (Ret a, t') => (Ret a, t')
           | (Raise e, t') => h e t'
           end.

Notation "x <~ m ;; k" := (obind m (fun x => k))
  (at level 61, m at next level, right associativity).
Notation "m ~~> k" := (obind m (fun _ => k))
  (at level 61, right associativity).

Definition instructions (credentials_json : string) : list string :=
  [ Py.fstr ["Error: "; credentials_json; " not found!"];
    "
To set up OAuth authentication:";
    "1. Go to Google Cloud Console (https://console.cloud.google.com/)";
    "2. Create a new project or select an existing one";
    "3. Enable the Gmail API and Google Drive API";
    "4. Create credentials (OAuth 2.0 Client ID) for a desktop application";
    "5. Download the credentials JSON file and save it as 'credentials.json' in this folder" ].

Fixpoint print_all (lines : list string) : OM unit :=
  match lines with
  | [] => oret tt
  | l :: ls => print l ~~> print_all ls
  end.

(** The [try] block that tests the credentials. *)
Definition test_apis (w : OAuthWorld) : OM bool :=
  otry
    (act (BuildService "drive" "v3") (build_service w "drive") ~~>
     act (BuildService "gmail" "v1") (build_service w "gmail") ~~>
     act DriveListOne (list_one_file w) ~~>
     print "✓ Google Drive API access successful" ~~>
     profile <~ act GmailProfile (get_profile w) ;;
     match profile with
     | Some address =>
         print (Py.fstr ["✓ Gmail API access successful (Email: "; address; ")"]) ~~>
         print "
✓ OAuth setup completed successfully!" ~~>
         print "You can now run the daily_reminder.py script" ~~>
         oret true
     | None => oraise (OtherException "'emailAddress'")
     end)
    (fun error =>
       print (Py.fstr ["✗ Error testing APIs: "; exn_str error]) ~~>
       oret false).

(** [with open(token_file, 'w') as token: token.write(creds.to_json())] *)
Definition save_token (w : OAuthWorld) (token_file : string) (creds : Credentials)
    : OM unit :=
  act (WriteToken token_file (to_json w creds))
    (write_file w token_file (to_json w creds)).

(** [setup_oauth] *)
Definition setup_oauth (w : OAuthWorld) : OM bool :=
  let token_file := "token.json" in
  let credentials_json := "credentials.json" in
  creds <~ (if exists_path w token_file
            then c <~ (fun t => (authorized_user_file w token_file, t)) ;;
                 oret (Some c)
            else oret None) ;;
  let log_in : OM bool :=
    if negb (exists_path w credentials_json) then
      print_all (instructions credentials_json) ~~> oret false
    else
      (fun t => (client_secrets_file w credentials_json, t)) ~~>
      c <~ act LoginFlow (run_local_server w) ;;
      save_token w token_file c ~~>
      test_apis w in
  match creds with
  | Some c =>
      if valid c then test_apis w
      else if expired c && Py.truthy (refresh_token c) then
        c' <~ act RefreshToken (refreshed w c) ;;
        save_token w token_file c' ~~>
        test_apis w
      else log_in
  | None => log_in
  end.

(** All the calls of the API test answer. *)
Definition apis_answer (w : OAuthWorld) : Prop :=
  build_service w "drive" = Ret tt /\ build_service w "gmail" = Ret tt /\
  list_one_file w = Ret tt /\ exists address, get_profile w = Ret (Some address).

Definition is_print (e : oauth_event) : bool :=
  match e with Print _ => true | _ => false end.

(** The events that change or create credentials. *)
Definition touches_credentials (e : oauth_event) : bool :=
  match e with
  | RefreshToken | LoginFlow | WriteToken _ _ => true
  | _ => false
  end.

(** A first set-up: no token yet, the client secrets in place, a login
    that succeeds, and a Gmail API that is not enabled. *)
Definition gmail_disabled : OAuthWorld :=
  mkOAuthWorld
    (fun p => String.eqb p "credentials.json")
    (fun _ => Raise (FileNotFoundError "token.json"))
    (fun c => Ret c)
    (fun _ => Ret tt)
    (Ret (mkCredentials true false (Some "refresh-token")))
    (fun _ => "{token}")
    (fun _ _ => Ret tt)
    (fun _ => Ret tt)
    (Ret tt)
    (Raise (HttpError "403 Gmail API has not been used in project")).

(** Nothing in the folder. *)
Definition empty_folder : OAuthWorld :=
  mkOAuthWorld (fun _ => false)
    (fun _ => Raise (FileNotFoundError "token.json"))
    (fun c => Ret c) (fun _ => Raise (FileNotFoundError "credentials.json"))
    (Raise (OtherException "no browser")) (fun _ => "{token}")
    (fun _ _ => Ret tt) (fun _ => Ret tt) (Ret tt)
    (Ret (Some "me@gmail.com")).

(** A valid token from an earlier set-up. *)
Definition already_set_up : OAuthWorld :=
  mkOAuthWorld (fun _ => true)
    (fun _ => Ret (mkCredentials true false (Some "refresh-token")))
    (fun c => Ret c) (fun _ => Ret tt)
    (Ret (mkCredentials true false None)) (fun _ => "{token}")
    (fun _ _ => Ret tt) (fun _ => Ret tt) (Ret tt)
    (Ret (Some "me@gmail.com")).

(** Stored credentials that have expired, a refresh that works, and no
    [credentials.json]. *)
Definition expired_stored : OAuthWorld :=
  mkOAuthWorld (fun p => String.eqb p "token.json")
    (fun _ => Ret (mkCredentials false true (Some "refresh-token")))
    (fun c => Ret (mkCredentials true false (refresh_token c)))
    (fun _ => Raise (FileNotFoundError "credentials.json"))
    (Raise (OtherException "no browser")) (fun _ => "{refreshed}")
    (fun _ _ => Ret tt) (fun _ => Ret tt) (Ret tt)
    (Ret (Some "me@gmail.com")).

End OAuth.

(* ================================================================= *)
(** ** The program over Python's own string functions

    [Py.lower], [Py.strip] and [Py.int] above act on ASCII text.  Python's
    [str.lower], [str.strip] and [int] do more: [lower] maps the capitals
    of every alphabet, [strip] removes every Unicode white space, [int]
    reads the decimal digits of every script.  In this section the three
    functions are parameters of the program and nothing is assumed about
    them; [int] gives its value or the exception it raises.  The functions
    that call none of the three ([send_email], [load_participants],
    [get_drive_folder_id], [setup_google_services]) are the ones above. *)

Section PythonBuiltins.

Variable lower : string -> string.
Variable strip : string -> string.
Variable int : string -> result Z.

(** [owner.get('emailAddress', '').lower() == participant_email.lower()] *)
Definition owner_matches_with (participant_email : string) (o : owner) : bool :=
  String.eqb (lower (get (emailAddress o) "")) (lower participant_email).

Definition uploaded_by_with (participant_email : string) (f : file) : bool :=
  existsb (owner_matches_with participant_email) (get (owners f) []).

(** [check_files_uploaded_today] *)
Definition check_files_uploaded_today_with (w : World) (folder_id participant_email : string)
    : M bool :=
  let today := strftime_Ymd (now w) in
  try_except
    (results <- files_list_execute w (uploads_query folder_id today)
                  uploads_fields ;;
     let items := get (files results) [] in
     logger DEBUG (Py.fstr ["Found "; Py.str_nat (length items);
                            " files modified today in the folder"]) ;;;
     match find (uploaded_by_with participant_email) items with
     | Some f =>
         logger DEBUG (Py.fstr ["Found file by "; participant_email; ": ";
                                str_opt (file_name f)]) ;;;
         ret true
     | None => ret false
     end)
    (fun e =>
       match e with
       | HttpError _ =>
           Some (logger ERROR (Py.fstr ["An error occurred while checking files: ";
                                        exn_str e]) ;;;
                 ret false)
       | _ => None
       end).

(** The body of [for participant in participants]. *)
Definition check_participant_with (w : World) (self : System) (folder_id : string)
    (p : participant) (c : counters) : M counters :=
  let email := email p in
  let name := name p in
  uploaded_today <- check_files_uploaded_today_with w folder_id email ;;
  if negb uploaded_today then
    logger INFO (Py.fstr [mark_mail; " No upload found for "; name; " ("; email;
                          ") - sending reminder"]) ;;;
    sent <- send_reminder_email w (app_config self) email name ;;
    if sent then ret (mkCounters (reminders_sent c + 1) (upload_count c))
    else ret c
  else
    logger INFO (Py.fstr [mark_ok; " "; name; " ("; email; ") has uploaded today"]) ;;;
    ret (mkCounters (reminders_sent c) (upload_count c + 1)).

(** [run_daily_check] *)
Definition run_daily_check_with (w : World) (self : System) (folder_name : string)
    : M run_outcome :=
  logger INFO rule70 ;;;
  logger INFO (Py.fstr ["Running daily reminder check at ";
                        strftime_YmdHMS (now w)]) ;;;
  logger INFO rule70 ;;;
  if negb (drive_service self) then
    logger ERROR "Google Drive service not initialized. Exiting." ;;;
    ret Aborted
  else if negb (Py.truthy (MAIL_USERNAME (app_config self))) then
    logger ERROR "Email configuration not complete. Exiting." ;;;
    ret Aborted
  else
    participants <- load_participants w self ;;
    match participants with
    | [] =>
        logger WARNING "No active participants found." ;;;
        ret Aborted
    | _ :: _ =>
        logger INFO (Py.fstr ["Checking "; Py.str_nat (length participants);
                              " active participants"]) ;;;
        folder_id <- get_drive_folder_id w folder_name ;;
        if negb (Py.truthy folder_id) then
          logger ERROR (Py.fstr ["Could not find folder '"; folder_name;
                                 "'. Exiting."]) ;;;
          ret Aborted
        else
          let folder_id := get folder_id "" in
          logger INFO (Py.fstr ["Monitoring uploads in folder: "; folder_name]) ;;;
          c <- for_each (check_participant_with w self folder_id) participants
                 (mkCounters 0 0) ;;
          logger INFO rule70 ;;;
          logger INFO "Daily check completed!" ;;;
          logger INFO (Py.fstr ["  "; mark_bullet; " Participants with uploads: ";
                                Py.str_nat (upload_count c)]) ;;;
          logger INFO (Py.fstr ["  "; mark_bullet; " Reminder emails sent: ";
                                Py.str_nat (reminders_sent c)]) ;;;
          logger INFO (Py.fstr ["  "; mark_bullet; " Total participants checked: ";
                                Py.str_nat (length participants)]) ;;;
          logger INFO rule70 ;;;
          ret (Completed (mkRunSummary (upload_count c) (reminders_sent c)
                            (length participants)))
    end.

(** [while True: schedule.run_pending(); time.sleep(60)] *)
Fixpoint scheduler_loop_with (self : System) (folder_name : string)
    (polls : list poll) : M scheduler_state :=
  match polls with
  | [] => ret Polling
  | NotDue :: rest => scheduler_loop_with self folder_name rest
  | Due w :: rest =>
      in_fresh_trace (run_daily_check_with w self folder_name) ;;;
      scheduler_loop_with self folder_name rest
  | Interrupt :: _ =>
      logger INFO "
Daily reminder scheduler stopped by user" ;;;
      ret Stopped
  end.

(** [start_scheduler] *)
Definition start_scheduler_with (self : System) (check_time folder_name : string)
    (polls : list poll) : M scheduler_state :=
  logger INFO (Py.fstr ["Daily check scheduled for: "; check_time]) ;;;
  logger INFO (Py.fstr ["Monitoring folder: "; folder_name]) ;;;
  logger INFO (Py.fstr ["Email sender: "; MAIL_DEFAULT_SENDER (app_config self)]) ;;;
  logger INFO rule50 ;;;
  logger INFO "Press Ctrl+C to stop the scheduler" ;;;
  scheduler_loop_with self folder_name polls.

(** [load_mail_config_from_file] *)
Definition load_mail_config_from_file_with (s : Startup) (cfg : Config) : M Config :=
  match open_read s "gmail_credentials.txt" with
  | Ret content =>
      let lines := Py.split_lines (strip content) in
      match nth_error lines 0 with
      | Some l0 =>
          let cfg := mkConfig (MAIL_SERVER cfg) (MAIL_PORT cfg) (MAIL_USE_TLS cfg)
                       (Some (strip l0)) (MAIL_PASSWORD cfg)
                       (MAIL_DEFAULT_SENDER cfg) in
          match nth_error lines 1 with
          | Some l1 =>
              let cfg := mkConfig (MAIL_SERVER cfg) (MAIL_PORT cfg)
                           (MAIL_USE_TLS cfg) (MAIL_USERNAME cfg)
                           (Some (strip l1)) (MAIL_DEFAULT_SENDER cfg) in
              logger INFO "Email credentials loaded from file" ;;;
              ret cfg
          | None =>
              logger ERROR "Invalid format in gmail_credentials.txt" ;;;
              ret cfg
          end
      | None =>
          logger ERROR "Invalid format in gmail_credentials.txt" ;;;
          ret cfg
      end
  | Raise (FileNotFoundError _) =>
      logger ERROR "gmail_credentials.txt not found!" ;;;
      ret cfg
  | Raise (IndexError _) =>
      logger ERROR "Invalid format in gmail_credentials.txt" ;;;
      ret cfg
  | Raise e => raise e
  end.

(** [setup_flask_app]: [int(os.environ.get('MAIL_PORT', 587))] is 587 when
    the variable is unset and [int] of its value otherwise. *)
Definition setup_flask_app_with (s : Startup) : M Config :=
  let mail_server := get (environ s "MAIL_SERVER") "smtp.gmail.com" in
  mail_port <- match environ s "MAIL_PORT" with
               | None => ret 587%Z
               | Some v =>
                   lift (int v)
               end ;;
  let mail_use_tls := String.eqb (get (environ s "MAIL_USE_TLS") "True") "True" in
  let cfg := mkConfig mail_server mail_port mail_use_tls
               (environ s "MAIL_USERNAME") (environ s "MAIL_PASSWORD")
               (get (environ s "MAIL_DEFAULT_SENDER")
                  "Survey Team <lateowl-survey@gmail.com>") in
  cfg <- (if negb (Py.truthy (MAIL_USERNAME cfg))
             || negb (Py.truthy (MAIL_PASSWORD cfg))
          then load_mail_config_from_file_with s cfg
          else ret cfg) ;;
  logger INFO "Flask app configured successfully" ;;;
  logger INFO (Py.fstr ["Email server: "; MAIL_SERVER cfg]) ;;;
  logger INFO (Py.fstr ["Email username: "; str_opt (MAIL_USERNAME cfg)]) ;;;
  ret cfg.

(** [ImprovedDailyReminderSystem.__init__] *)
Definition ImprovedDailyReminderSystem_with (s : Startup) : M System :=
  let participants_file := "participants.xlsx" in
  let token_file := "token.json" in
  cfg <- setup_flask_app_with s ;;
  drive <- setup_google_services s token_file ;;
  ret (mkSystem participants_file token_file drive cfg).

(** [main] *)
Definition main_with (s : Startup) (polls : list poll) : process * trace :=
  let body : M scheduler_state :=
    reminder_system <- ImprovedDailyReminderSystem_with s ;;
    let check_time := "01:00" in
    let folder_name := "Survey Uploads" in
    start_scheduler_with reminder_system check_time folder_name polls in
  match body [] with
  | (Ret Polling, t) => (Scheduling, t)
  | (Ret Stopped, t) => (Exited 0, t)
  | (Raise e, t) =>
      (Exited 1,
       t ++ [Log ERROR (Py.fstr ["Failed to start daily reminder system: ";
                                 exn_str e])])
  end.

(** The readings of a run, over the same functions. *)
Definition found_with (r : result listing) (identity : string) : bool :=
  existsb (uploaded_by_with identity) (records_returned r).

Definition not_found_with (w : World) (folder_id : string) (ip : nat * participant) : bool :=
  negb (found_with (answer w folder_id (fst ip)) (email (snd ip))).

Definition was_found_with (w : World) (folder_id : string) (ip : nat * participant) : bool :=
  found_with (answer w folder_id (fst ip)) (email (snd ip)).

(** The events of one upload check, by the answer of the Drive. *)
Definition check_events_with (folder_id : string) (w : World) (participant_email : string)
    (r : result listing) : trace :=
  FilesList (uploads_query folder_id (strftime_Ymd (now w))) uploads_fields ::
  match r with
  | Ret l =>
      let items := get (files (results_page l)) [] in
      Log DEBUG (Py.fstr ["Found "; Py.str_nat (length items);
                          " files modified today in the folder"]) ::
      match find (uploaded_by_with participant_email) items with
      | Some f => [Log DEBUG (Py.fstr ["Found file by "; participant_email; ": ";
                                       str_opt (file_name f)])]
      | None => []
      end
  | Raise (HttpError m) =>
      [Log ERROR (Py.fstr ["An error occurred while checking files: "; m])]
  | Raise _ => []
  end.


(** A record names the identity among its owners: the two have the same
    lower-case form. *)
Definition owned_by_with (identity : string) (f : file) : Prop :=
  exists o, In o (get (owners f) []) /\
            lower (get (emailAddress o) "") = lower identity.

(** An upload record held by the service for the query, on whatever page,
    names the identity among its owners. *)
Definition has_upload_record (l : listing) (identity : string) : Prop :=
  exists f, In f (records_held l) /\ owned_by_with identity f.

(** The port [setup_flask_app] reads from the environment. *)
Definition env_port_with (s : Startup) : result Z :=
  match environ s "MAIL_PORT" with
  | None => Ret 587%Z
  | Some v => int v
  end.

End PythonBuiltins.

(** [int] as [Py.int] has it, with the [ValueError] it raises. *)
Definition int_or_raise (v : string) : result Z :=
  match Py.int v with
  | Some n => Ret n
  | None => Raise (ValueError (Py.fstr
              ["invalid literal for int() with base 10: '"; v; "'"]))
  end.

(* ================================================================= *)
(** ** Per-run errors and the state of the roster *)

(** The per-run errors: the roster source is missing, cannot be parsed or
    lacks a required field; no row of the roster is active; the service
    holds no folder of the monitored name, or the lookup of the folder
    fails with a service error. *)
Inductive per_run_error (w : World) (self : System) (folder_name : string) : Prop :=
| roster_source_missing m :
    read_excel w (participants_file self) = Raise (FileNotFoundError m) ->
    per_run_error w self folder_name
| roster_parse_error x :
    read_excel w (participants_file self) = Raise x ->
    per_run_error w self folder_name
| roster_field_missing df col :
    read_excel w (participants_file self) = Ret df ->
    In col ["email"; "name"; "active"] -> ~ In col (columns df) ->
    per_run_error w self folder_name
| no_active_participant df :
    read_excel w (participants_file self) = Ret df ->
    (forall r, In r (rows df) -> row_active r <> 1%Z) ->
    per_run_error w self folder_name
| folder_missing l :
    lookup w folder_name = Ret l -> records_held l = [] ->
    per_run_error w self folder_name
| folder_lookup_service_error m :
    lookup w folder_name = Raise (HttpError m) ->
    per_run_error w self folder_name.

(** The failures of the Roster Loader. *)
Definition roster_failure (w : World) (self : System) : Prop :=
  (exists x, read_excel w (participants_file self) = Raise x) \/
  (exists df col,
     read_excel w (participants_file self) = Ret df /\
     In col ["email"; "name"; "active"] /\ ~ In col (columns df)).

(** A roster that can be read, has the three fields and an active row. *)
Definition has_active_participant (w : World) (self : System) : Prop :=
  exists df row,
    read_excel w (participants_file self) = Ret df /\
    (forall col, In col ["email"; "name"; "active"] -> In col (columns df)) /\
    In row (rows df) /\ row_active row = 1%Z.

(** The answer to the listing query made for the active row at position
    [i] of the roster: a service error, or a result none of whose records
    names the identity when the result has a single page. *)
Definition no_upload_seen (lower : string -> string) (w : World)
    (folder_id : string) (i : nat) (identity : string) : Prop :=
  (exists m, answer w folder_id (1 + i) = Raise (HttpError m)) \/
  (exists l, answer w folder_id (1 + i) = Ret l /\
             (further_pages l = [] -> ~ has_upload_record lower l identity)).

(** One reminder of a run, read against the roster: it answers the active
    row at position [i]. *)
Definition reminder_for_row (lower : string -> string) (w : World) (self : System)
    (folder_name : string) (i : nat) (s : Message * option exn) : Prop :=
  exists df fid row,
    read_excel w (participants_file self) = Ret df /\
    resolve (lookup w folder_name) = Ret (Some fid) /\
    nth_error (active_rows df) i = Some row /\
    In row (rows df) /\ row_active row = 1%Z /\
    fst s = reminder_message w (app_config self) (participant_of row) /\
    no_upload_seen lower w fid i (row_email row).

(* ================================================================= *)
(** ** Further runs *)

Module Cases.

(** The listing call made for A fails with an HTTP error; the one made
    for B right after it returns the diary A uploaded that day. *)
Definition a_call_fails : World :=
  Example.world (Ret Example.roster) (Example.one_page [Example.survey_folder])
    (fun n => if n =? 1 then Raise (HttpError "503 backend error")
              else Example.one_page [Example.diary_of_a])
    (fun _ => None).

(** The first folder the service lists carries an empty identifier. *)
Definition blank_folder : file := mkFile "" (Some "Survey Uploads") None.

Definition blank_identifier : World :=
  Example.world (Ret Example.roster)
    (Example.one_page [blank_folder; Example.survey_folder])
    (fun _ => Example.one_page [Example.diary_of_a]) (fun _ => None).

(** A roster without the column [active]. *)
Definition no_active_column : World :=
  Example.world
    (Ret (mkDataFrame ["email"; "name"] [mkRow "a@x.com" "A" 1]))
    (Example.one_page [Example.survey_folder])
    (fun _ => Example.one_page [Example.diary_of_a]) (fun _ => None).

End Cases.
(* ================================================================= *)
(** ** Case-insensitive comparison *)

Section CaseInsensitive.

Lemma nat_of_lower_ascii c :
  nat_of_ascii (Py.lower_ascii c) =
  if Py.is_upper c then nat_of_ascii c + 32 else nat_of_ascii c.
Proof.
  unfold Py.lower_ascii.
  destruct (Py.is_upper c) eqn:U; [|reflexivity].
  apply nat_ascii_embedding.
  unfold Py.is_upper in U.
  apply andb_prop in U as [_ U]. apply Nat.leb_le in U. lia.
Qed.

Lemma is_upper_spec c :
  Py.is_upper c = true <-> 65 <= nat_of_ascii c <= 90.
Proof.
  unfold Py.is_upper. rewrite andb_true_iff, !Nat.leb_le. tauto.
Qed.

Lemma nat_of_ascii_inj c d : nat_of_ascii c = nat_of_ascii d -> c = d.
Proof.
  intros H. rewrite <- (ascii_nat_embedding c), <- (ascii_nat_embedding d).
  now rewrite H.
Qed.

Lemma lower_ascii_eq_iff c d :
  Py.lower_ascii c = Py.lower_ascii d <-> char_eq_ignore_case c d.
Proof.
  unfold char_eq_ignore_case, cased_pair. split.
  - intros H. apply (f_equal nat_of_ascii) in H.
    rewrite !nat_of_lower_ascii in H.
    destruct (Py.is_upper c) eqn:Uc, (Py.is_upper d) eqn:Ud.
    + left. apply nat_of_ascii_inj. lia.
    + right; left. apply is_upper_spec in Uc. lia.
    + right; right. apply is_upper_spec in Ud. lia.
    + left. now apply nat_of_ascii_inj.
  - intros [-> | [[Hc Hd] | [Hd Hc]]]; [reflexivity | |];
      apply nat_of_ascii_inj; rewrite !nat_of_lower_ascii.
    + assert (Uc : Py.is_upper c = true) by now apply is_upper_spec.
      assert (Ud : Py.is_upper d = false).
      { destruct (Py.is_upper d) eqn:E; [|reflexivity].
        apply is_upper_spec in E. lia. }
      rewrite Uc, Ud. lia.
    + assert (Ud : Py.is_upper d = true) by now apply is_upper_spec.
      assert (Uc : Py.is_upper c = false).
      { destruct (Py.is_upper c) eqn:E; [|reflexivity].
        apply is_upper_spec in E. lia. }
      rewrite Uc, Ud. lia.
Qed.

Lemma lower_eq_iff a b :
  Py.lower a = Py.lower b <-> eq_ignore_case a b.
Proof.
  split.
  - revert b. induction a as [|c a IH]; intros [|d b] H; simpl in H;
      try discriminate.
    + constructor.
    + injection H as Hc Hs. constructor.
      * now apply lower_ascii_eq_iff.
      * now apply IH.
  - induction 1 as [|c d s t Hc _ IH]; simpl.
    + reflexivity.
    + apply lower_ascii_eq_iff in Hc. now rewrite Hc, IH.
Qed.

Lemma owner_matches_iff e o :
  owner_matches e o = true <-> eq_ignore_case (get (emailAddress o) "") e.
Proof.
  unfold owner_matches. rewrite String.eqb_eq. apply lower_eq_iff.
Qed.

Lemma uploaded_by_iff e f : uploaded_by e f = true <-> owned_by e f.
Proof.
  unfold uploaded_by, owned_by. rewrite existsb_exists.
  split; intros [o [Hin Ho]]; exists o; split; trivial;
    now apply owner_matches_iff.
Qed.

Lemma found_iff r e :
  found r e = true <-> exists f, In f (records_returned r) /\ owned_by e f.
Proof.
  unfold found. rewrite existsb_exists.
  split; intros [f [Hin Hf]]; exists f; split; trivial;
    now apply uploaded_by_iff.
Qed.

End CaseInsensitive.

(* ================================================================= *)
(** ** The trace projections and the steps of a run *)

Lemma sends_app t u : sends (t ++ u) = sends t ++ sends u.
Proof. apply flat_map_app. Qed.

Lemma drive_calls_app t u : drive_calls (t ++ u) = drive_calls t ++ drive_calls u.
Proof. apply flat_map_app. Qed.

Ltac norm_trace := repeat rewrite <- app_assoc; simpl app.

Lemma send_email_eq w cfg recipient subj bdy t :
  let msg := mkMessage subj [recipient] bdy (MAIL_DEFAULT_SENDER cfg) in
  send_email w cfg recipient subj bdy t =
  match mail_send w (length (sends t)) msg with
  | None =>
      (Ret true,
       t ++ [MailSend msg None;
             Log INFO (Py.fstr ["Email sent to "; recipient; ": "; subj])])
  | Some e =>
      (Ret false, t ++ MailSend msg (Some e) :: failure_log recipient subj bdy e)
  end.
Proof.
  intros msg.
  unfold send_email, try_except, mail_instance_send, bind, get_trace, emit,
    logger, ret, raise.
  fold msg.
  destruct (mail_send w (length (sends t)) msg) as [e|]; simpl;
    norm_trace; reflexivity.
Qed.

Lemma find_existsb {A} (f : A -> bool) l :
  existsb f l = match find f l with Some _ => true | None => false end.
Proof.
  induction l as [|a l IH]; simpl; [reflexivity|].
  destruct (f a); simpl; auto.
Qed.

Lemma check_files_uploaded_today_eq w folder_id e t :
  let r := answer w folder_id (length (drive_calls t)) in
  check_files_uploaded_today w folder_id e t =
  (match r with
   | Raise (HttpError _) => Ret false
   | Raise x => Raise x
   | Ret _ => Ret (found r e)
   end,
   t ++ check_events folder_id w e r).
Proof.
  intros r. subst r.
  unfold check_files_uploaded_today, files_list_execute, try_except, bind,
    get_trace, emit, logger, ret, raise, answer, check_events, found.
  simpl.
  destruct (files_list w (length (drive_calls t)) _ _) as [l|x]; simpl.
  - rewrite find_existsb.
    destruct (find _ _); simpl; norm_trace; reflexivity.
  - destruct x; simpl; norm_trace; reflexivity.
Qed.

Lemma sends_check_events fid w e r : sends (check_events fid w e r) = [].
Proof.
  unfold check_events. simpl.
  destruct r as [l|[]]; simpl; trivial.
  destruct (find _ _); reflexivity.
Qed.

Lemma drive_calls_check_events fid w e r :
  drive_calls (check_events fid w e r) = [uploads_call w fid].
Proof.
  unfold check_events, uploads_call. simpl.
  destruct r as [l|[]]; simpl; trivial.
  destruct (find _ _); reflexivity.
Qed.

Lemma sends_dispatch_events w cfg p r :
  sends (dispatch_events w cfg p r) = [(reminder_message w cfg p, r)].
Proof. destruct r; reflexivity. Qed.

Lemma drive_calls_dispatch_events w cfg p r :
  drive_calls (dispatch_events w cfg p r) = [].
Proof. destruct r; reflexivity. Qed.

(** One turn of the loop, by the answer of the Drive and of the mail
    service. *)
Lemma check_participant_eq w self fid p c t :
  let r := answer w fid (length (drive_calls t)) in
  let t1 := t ++ check_events fid w (email p) r in
  let d := mail_send w (length (sends t)) (reminder_message w (app_config self) p) in
  check_participant w self fid p c t =
  if uncaught r then
    (match r with Raise x => Raise x | Ret _ => Ret c end, t1)
  else if found r (email p) then
    (Ret (mkCounters (reminders_sent c) (upload_count c + 1)),
     t1 ++ [has_uploaded_line p])
  else
    (Ret (match d with
          | None => mkCounters (reminders_sent c + 1) (upload_count c)
          | Some _ => c
          end),
     t1 ++ no_upload_line p :: dispatch_events w (app_config self) p d).
Proof.
  intros r t1 d.
  unfold check_participant, bind.
  rewrite check_files_uploaded_today_eq. fold r. fold t1.
  assert (Hs : length (sends (t1 ++ [no_upload_line p])) = length (sends t)).
  { unfold t1. now rewrite !sends_app, sends_check_events, !app_nil_r. }
  destruct r as [l|x] eqn:Er.
  - simpl uncaught. cbv iota.
    destruct (found (Ret l) (email p)); simpl.
    + unfold logger, emit, ret, has_uploaded_line. reflexivity.
    + unfold send_reminder_email, logger, emit.
      rewrite send_email_eq.
      change (t1 ++ [Log INFO _]) with (t1 ++ [no_upload_line p]).
      rewrite Hs.
      change (mkMessage _ _ _ _) with (reminder_message w (app_config self) p).
      fold d. unfold dispatch_events, ret.
      destruct d; norm_trace; reflexivity.
  - destruct x; try reflexivity.
    simpl.
    unfold send_reminder_email, logger, emit.
    rewrite send_email_eq.
    change (t1 ++ [Log INFO _]) with (t1 ++ [no_upload_line p]).
    rewrite Hs.
    change (mkMessage _ _ _ _) with (reminder_message w (app_config self) p).
    fold d. unfold dispatch_events, ret.
    destruct d; norm_trace; reflexivity.
Qed.

#[local] Arguments indexed : simpl never.

Lemma indexed_cons d p ps : indexed d (p :: ps) = (d, p) :: indexed (S d) ps.
Proof. reflexivity. Qed.

Lemma length_indexed d ps : length (indexed d ps) = length ps.
Proof.
  unfold indexed. rewrite length_combine, length_seq. apply Nat.min_id.
Qed.

(** The loop over the participants: [k] of them are checked before the
    loop ends or a listing call raises what the check does not catch;
    those among them without a matching record are sent one reminder each,
    in the order of the roster. *)
Lemma for_each_check_participant w self fid ps : forall c t r t',
  for_each (check_participant w self fid) ps c t = (r, t') ->
  exists k news,
    k <= length ps /\
    (forall j, j < k ->
       uncaught (answer w fid (length (drive_calls t) + j)) = false) /\
    sends t' = sends t ++ news /\
    map fst news =
      map (fun ip => reminder_message w (app_config self) (snd ip))
        (filter (not_found w fid)
           (firstn k (indexed (length (drive_calls t)) ps))) /\
    match r with
    | Ret c' =>
        k = length ps /\
        drive_calls t' = drive_calls t ++ repeat (uploads_call w fid) k /\
        upload_count c' =
          upload_count c +
          length (filter (was_found w fid) (indexed (length (drive_calls t)) ps)) /\
        reminders_sent c' = reminders_sent c + length (filter delivered news)
    | Raise x =>
        k < length ps /\
        answer w fid (length (drive_calls t) + k) = Raise x /\
        uncaught (Raise x) = true /\
        drive_calls t' = drive_calls t ++ repeat (uploads_call w fid) (S k)
    end.
Proof.
  induction ps as [|p ps IH]; intros c t r t' H.
  - injection H as <- <-. exists 0, []. simpl.
    rewrite !app_nil_r. repeat split; auto; intros; lia.
  - simpl in H. unfold bind in H. rewrite check_participant_eq in H.
    set (d := length (drive_calls t)) in *.
    assert (Hans : forall j, answer w fid (S d + j) = answer w fid (d + S j)).
    { intros j. f_equal. lia. }
    remember (answer w fid d) as r0 eqn:Er0.
    assert (Hnf : not_found w fid (d, p) = negb (found r0 (email p)))
      by (rewrite Er0; reflexivity).
    assert (Hwf : was_found w fid (d, p) = found r0 (email p))
      by (rewrite Er0; reflexivity).
    set (t1 := t ++ check_events fid w (email p) r0) in *.
    assert (Hst1 : sends t1 = sends t).
    { unfold t1. now rewrite sends_app, sends_check_events, app_nil_r. }
    assert (Hdc : forall u, drive_calls u = [] ->
                    drive_calls (t1 ++ u) = drive_calls t ++ [uploads_call w fid]).
    { intros u Hu. unfold t1.
      now rewrite !drive_calls_app, drive_calls_check_events, Hu, app_nil_r. }
    assert (Hd1 : forall u, drive_calls u = [] ->
                    length (drive_calls (t1 ++ u)) = S d).
    { intros u Hu. rewrite (Hdc u Hu), length_app. simpl. fold d. lia. }
    destruct (uncaught r0) eqn:Hu.
    + (* the listing call raises past the check *)
      destruct r0 as [l|x]; [discriminate|].
      injection H as <- <-.
      exists 0, []. rewrite Nat.add_0_r, app_nil_r. simpl.
      split; [lia|]. split; [intros; lia|]. split; [assumption|].
      split; [reflexivity|]. split; [lia|]. split; [now symmetry|].
      split; [assumption|].
      rewrite <- (app_nil_r t1). now apply Hdc.
    + destruct (found r0 (email p)) eqn:Hf.
      * (* a matching record: counted, no reminder *)
        apply IH in H. destruct H as (k & news & Hk & Hun & Hs & Hn & Hr).
        rewrite (Hd1 [has_uploaded_line p] eq_refl) in *.
        exists (S k), news. change (length (p :: ps)) with (S (length ps)).
        split; [lia|]. split.
        { intros [|j] Hj; [now rewrite Nat.add_0_r, <- Er0|].
          rewrite <- Hans. apply Hun. lia. }
        split.
        { rewrite Hs, sends_app, Hst1. simpl. now rewrite app_nil_r. }
        split.
        { rewrite Hn, indexed_cons. simpl firstn. simpl filter.
          now rewrite Hnf. }
        destruct r as [c'|x].
        -- destruct Hr as (-> & Hdr & Hup & Hrs).
           split; [reflexivity|]. split.
           { rewrite Hdr, (Hdc [has_uploaded_line p] eq_refl). norm_trace. reflexivity. }
           split.
           { rewrite Hup, indexed_cons. simpl filter.
             rewrite Hwf. simpl. lia. }
           { rewrite Hrs. reflexivity. }
        -- destruct Hr as (Hlt & Ha & Hux & Hdr).
           split; [lia|]. split; [now rewrite <- Hans|]. split; [assumption|].
           rewrite Hdr, (Hdc [has_uploaded_line p] eq_refl). norm_trace. reflexivity.
      * (* no matching record: one reminder *)
        set (dres := mail_send w (length (sends t))
                       (reminder_message w (app_config self) p)) in *.
        set (evs := no_upload_line p :: dispatch_events w (app_config self) p dres) in *.
        assert (Hevs : drive_calls evs = []).
        { unfold evs. simpl. apply drive_calls_dispatch_events. }
        apply IH in H. destruct H as (k & news & Hk & Hun & Hs & Hn & Hr).
        rewrite (Hd1 evs Hevs) in *.
        exists (S k), ((reminder_message w (app_config self) p, dres) :: news).
        change (length (p :: ps)) with (S (length ps)).
        split; [lia|]. split.
        { intros [|j] Hj; [now rewrite Nat.add_0_r, <- Er0|].
          rewrite <- Hans. apply Hun. lia. }
        split.
        { rewrite Hs, sends_app, Hst1. unfold evs. simpl sends at 2.
          rewrite sends_dispatch_events. norm_trace. reflexivity. }
        split.
        { rewrite indexed_cons. simpl firstn. simpl filter.
          rewrite Hnf. simpl. now rewrite Hn. }
        destruct r as [c'|x].
        -- destruct Hr as (-> & Hdr & Hup & Hrs).
           split; [reflexivity|]. split.
           { rewrite Hdr, (Hdc _ Hevs). norm_trace. reflexivity. }
           split.
           { rewrite Hup, indexed_cons. simpl filter.
             rewrite Hwf. destruct dres; simpl; lia. }
           { rewrite Hrs. simpl filter. unfold delivered at 2. simpl snd.
             destruct dres; simpl; lia. }
        -- destruct Hr as (Hlt & Ha & Hux & Hdr).
           split; [lia|]. split; [now rewrite <- Hans|]. split; [assumption|].
           rewrite Hdr, (Hdc _ Hevs). norm_trace. reflexivity.
Qed.

Lemma load_participants_eq w self t :
  exists evs,
    load_participants w self t =
      (Ret (loaded (read_excel w (participants_file self))), t ++ evs) /\
    sends evs = [] /\ drive_calls evs = [].
Proof.
  unfold load_participants, try_except, pd_read_excel, bind, emit, lift,
    logger, ret, loaded.
  destruct (read_excel w (participants_file self)) as [df|x].
  - destruct (has_required_columns df); simpl; norm_trace;
      eexists; (split; [reflexivity|split; reflexivity]).
  - destruct x; simpl; norm_trace;
      eexists; (split; [reflexivity|split; reflexivity]).
Qed.

Lemma get_drive_folder_id_eq w folder t :
  exists evs,
    get_drive_folder_id w folder t =
      (resolve (files_list w (length (drive_calls t)) (folder_query folder)
                  folder_fields),
       t ++ evs) /\
    sends evs = [] /\
    drive_calls evs = [(folder_query folder, folder_fields)].
Proof.
  unfold get_drive_folder_id, try_except, files_list_execute, bind, get_trace,
    emit, logger, ret, raise, resolve.
  destruct (files_list w (length (drive_calls t)) _ _) as [l|x].
  - destruct (get (files (results_page l)) []); simpl; norm_trace;
      eexists; (split; [reflexivity|split; reflexivity]).
  - destruct x; simpl; norm_trace;
      eexists; (split; [reflexivity|split; reflexivity]).
Qed.

(** Stepping through a computation. *)
Lemma bind_logger {B} lvl msg (k : unit -> M B) t :
  bind (logger lvl msg) k t = k tt (t ++ [Log lvl msg]).
Proof. reflexivity. Qed.

Lemma bind_ret_eq {A B} (m : M A) (k : A -> M B) t a t' :
  m t = (Ret a, t') -> bind m k t = k a t'.
Proof. intros H. unfold bind. now rewrite H. Qed.

Lemma bind_raise_eq {A B} (m : M A) (k : A -> M B) t e t' :
  m t = (Raise e, t') -> bind m k t = (Raise e, t').
Proof. intros H. unfold bind. now rewrite H. Qed.

Ltac log_step H := rewrite bind_logger in H; cbv beta in H.

Lemma sends_log lvl msg t : sends (Log lvl msg :: t) = sends t.
Proof. reflexivity. Qed.

Lemma drive_calls_log lvl msg t : drive_calls (Log lvl msg :: t) = drive_calls t.
Proof. reflexivity. Qed.

Lemma sends_nil : sends [] = [].
Proof. reflexivity. Qed.

Lemma drive_calls_nil : drive_calls [] = [].
Proof. reflexivity. Qed.

Create Rewrite HintDb trace_proj.
#[local] Hint Rewrite sends_app drive_calls_app sends_log drive_calls_log
  sends_nil drive_calls_nil app_nil_r app_nil_l : trace_proj.

Ltac proj_trace := autorewrite with trace_proj.

(** A run, by its guards: it stops at a guard with nothing sent, or the
    folder lookup raises, or it reaches the loop over the participants. *)
Lemma run_daily_check_spec w self folder r t :
  run_daily_check w self folder [] = (r, t) ->
  let ps := loaded (read_excel w (participants_file self)) in
  match ready self, ps with
  | false, _ | _, [] => r = Ret Aborted /\ sends t = [] /\ drive_calls t = []
  | true, _ :: _ =>
      match resolve (lookup w folder) with
      | Raise x =>
          r = Raise x /\ sends t = [] /\ drive_calls t = [folder_call folder]
      | Ret o =>
          if Py.truthy o then
            let fid := get o "" in
            exists k news,
              k <= length ps /\
              (forall j, j < k -> uncaught (answer w fid (1 + j)) = false) /\
              sends t = news /\
              map fst news =
                map (fun ip => reminder_message w (app_config self) (snd ip))
                  (filter (not_found w fid) (firstn k (indexed 1 ps))) /\
              match r with
              | Ret (Completed s) =>
                  k = length ps /\
                  drive_calls t =
                    folder_call folder :: repeat (uploads_call w fid) k /\
                  participants_with_uploads s =
                    length (filter (was_found w fid) (indexed 1 ps)) /\
                  reminder_emails_sent s = length (filter delivered news) /\
                  total_participants_checked s = length ps
              | Ret Aborted => False
              | Raise x =>
                  k < length ps /\
                  answer w fid (1 + k) = Raise x /\
                  uncaught (Raise x) = true /\
                  drive_calls t =
                    folder_call folder :: repeat (uploads_call w fid) (S k)
              end
          else
            r = Ret Aborted /\ sends t = [] /\ drive_calls t = [folder_call folder]
      end
  end.
Proof.
  intros H ps.
  unfold run_daily_check in H.
  do 3 log_step H.
  unfold ready.
  destruct (drive_service self); cbn [negb] in H.
  2:{ log_step H. injection H as <- <-. simpl. auto. }
  destruct (Py.truthy (MAIL_USERNAME (app_config self))); cbn [negb] in H.
  2:{ log_step H. injection H as <- <-. simpl. auto. }
  simpl andb. cbv iota.
  match type of H with bind _ _ ?t0 = _ =>
    destruct (load_participants_eq w self t0) as (ev1 & E1 & Hs1 & Hd1) end.
  rewrite (bind_ret_eq _ _ _ _ _ E1) in H. fold ps in H.
  destruct ps as [|p0 ps0] eqn:Eps.
  { log_step H. injection H as <- <-.
    proj_trace. rewrite Hs1, Hd1. auto. }
  log_step H.
  match type of H with bind _ _ ?t0 = _ =>
    destruct (get_drive_folder_id_eq w folder t0) as (ev2 & E2 & Hs2 & Hd2);
    assert (Ht0 : length (drive_calls t0) = 0)
      by (proj_trace; rewrite Hd1; reflexivity);
    rewrite Ht0 in E2
  end.
  fold (lookup w folder) in E2.
  destruct (resolve (lookup w folder)) as [o|x].
  2:{ rewrite (bind_raise_eq _ _ _ _ _ E2) in H. injection H as <- <-.
      proj_trace. rewrite Hs1, Hd1, Hs2, Hd2. auto. }
  rewrite (bind_ret_eq _ _ _ _ _ E2) in H.
  destruct (Py.truthy o); cbn [negb] in H.
  2:{ log_step H. injection H as <- <-.
      proj_trace. rewrite Hs1, Hd1, Hs2, Hd2. auto. }
  log_step H.
  set (fid := get o "") in *.
  match type of H with bind (for_each ?b ?l ?c) _ ?t0 = _ =>
    destruct (for_each b l c t0) as [rl tl] eqn:El;
    assert (Hdt0 : drive_calls t0 = [folder_call folder])
      by (proj_trace; rewrite Hd1, Hd2; reflexivity);
    assert (Hst0 : sends t0 = [])
      by (proj_trace; rewrite Hs1, Hs2; reflexivity)
  end.
  pose proof (for_each_check_participant _ _ _ _ _ _ _ _ El) as Hl.
  rewrite Hdt0, Hst0 in Hl. simpl length in Hl.
  destruct Hl as (k & news & Hk & Hun & Hs & Hn & Hr).
  exists k, news. simpl app in Hs.
  destruct rl as [c|x].
  - rewrite (bind_ret_eq _ _ _ _ _ El) in H.
    do 6 log_step H. injection H as <- <-.
    destruct Hr as (-> & Hdr & Hup & Hrs).
    proj_trace. rewrite Hs, Hdr.
    repeat split; auto.
  - rewrite (bind_raise_eq _ _ _ _ _ El) in H. injection H as <- <-.
    destruct Hr as (Hlt & Ha & Hux & Hdr).
    rewrite Hs, Hdr. repeat split; auto.
Qed.

(** The example of the spec: A has uploaded (the owner's identity differs
    in case), B has not, C is inactive. *)
Example spec_example_run :
  let rt := run_daily_check Example.spec_example Example.system
              "Survey Uploads" [] in
  fst rt = Ret (Completed (mkRunSummary 1 1 2)) /\
  reminded_identities (snd rt) = ["b@x.com"] /\
  In (has_uploaded_line Example.participant_a) (snd rt).
Proof.
  cbv zeta. split; [vm_compute; reflexivity|]. split; [vm_compute; reflexivity|].
  vm_compute. tauto.
Qed.

(* ================================================================= *)
(** ** The run over Python's own string functions *)

Section RunOverBuiltins.

Variable lower : string -> string.

Lemma owner_matches_with_iff e o :
  owner_matches_with lower e o = true <->
  lower (get (emailAddress o) "") = lower e.
Proof. unfold owner_matches_with. apply String.eqb_eq. Qed.

Lemma uploaded_by_with_iff e f :
  uploaded_by_with lower e f = true <-> owned_by_with lower e f.
Proof.
  unfold uploaded_by_with, owned_by_with. rewrite existsb_exists.
  split; intros [o [Hin Ho]]; exists o; split; trivial;
    now apply owner_matches_with_iff.
Qed.

Lemma found_with_iff r e :
  found_with lower r e = true <->
  exists f, In f (records_returned r) /\ owned_by_with lower e f.
Proof.
  unfold found_with. rewrite existsb_exists.
  split; intros [f [Hin Hf]]; exists f; split; trivial;
    now apply uploaded_by_with_iff.
Qed.

Lemma check_files_uploaded_today_with_eq w folder_id e t :
  let r := answer w folder_id (length (drive_calls t)) in
  check_files_uploaded_today_with lower w folder_id e t =
  (match r with
   | Raise (HttpError _) => Ret false
   | Raise x => Raise x
   | Ret _ => Ret (found_with lower r e)
   end,
   t ++ check_events_with lower folder_id w e r).
Proof.
  intros r. subst r.
  unfold check_files_uploaded_today_with, files_list_execute, try_except, bind,
    get_trace, emit, logger, ret, raise, answer, check_events_with, found_with.
  simpl.
  destruct (files_list w (length (drive_calls t)) _ _) as [l|x]; simpl.
  - rewrite find_existsb.
    destruct (find _ _); simpl; norm_trace; reflexivity.
  - destruct x; simpl; norm_trace; reflexivity.
Qed.

Lemma sends_check_events_with fid w e r : sends (check_events_with lower fid w e r) = [].
Proof.
  unfold check_events_with. simpl.
  destruct r as [l|[]]; simpl; trivial.
  destruct (find _ _); reflexivity.
Qed.

Lemma drive_calls_check_events_with fid w e r :
  drive_calls (check_events_with lower fid w e r) = [uploads_call w fid].
Proof.
  unfold check_events_with, uploads_call. simpl.
  destruct r as [l|[]]; simpl; trivial.
  destruct (find _ _); reflexivity.
Qed.

(** One turn of the loop, by the answer of the Drive and of the mail
    service. *)
Lemma check_participant_with_eq w self fid p c t :
  let r := answer w fid (length (drive_calls t)) in
  let t1 := t ++ check_events_with lower fid w (email p) r in
  let d := mail_send w (length (sends t)) (reminder_message w (app_config self) p) in
  check_participant_with lower w self fid p c t =
  if uncaught r then
    (match r with Raise x => Raise x | Ret _ => Ret c end, t1)
  else if found_with lower r (email p) then
    (Ret (mkCounters (reminders_sent c) (upload_count c + 1)),
     t1 ++ [has_uploaded_line p])
  else
    (Ret (match d with
          | None => mkCounters (reminders_sent c + 1) (upload_count c)
          | Some _ => c
          end),
     t1 ++ no_upload_line p :: dispatch_events w (app_config self) p d).
Proof.
  intros r t1 d.
  unfold check_participant_with, bind.
  rewrite check_files_uploaded_today_with_eq. fold r. fold t1.
  assert (Hs : length (sends (t1 ++ [no_upload_line p])) = length (sends t)).
  { unfold t1. now rewrite !sends_app, sends_check_events_with, !app_nil_r. }
  destruct r as [l|x] eqn:Er.
  - simpl uncaught. cbv iota.
    destruct (found_with lower (Ret l) (email p)); simpl.
    + unfold logger, emit, ret, has_uploaded_line. reflexivity.
    + unfold send_reminder_email, logger, emit.
      rewrite send_email_eq.
      change (t1 ++ [Log INFO _]) with (t1 ++ [no_upload_line p]).
      rewrite Hs.
      change (mkMessage _ _ _ _) with (reminder_message w (app_config self) p).
      fold d. unfold dispatch_events, ret.
      destruct d; norm_trace; reflexivity.
  - destruct x; try reflexivity.
    simpl.
    unfold send_reminder_email, logger, emit.
    rewrite send_email_eq.
    change (t1 ++ [Log INFO _]) with (t1 ++ [no_upload_line p]).
    rewrite Hs.
    change (mkMessage _ _ _ _) with (reminder_message w (app_config self) p).
    fold d. unfold dispatch_events, ret.
    destruct d; norm_trace; reflexivity.
Qed.

(** The loop over the participants: [k] of them are checked before the
    loop ends or a listing call raises what the check does not catch;
    those among them without a matching record are sent one reminder each,
    in the order of the roster. *)
Lemma for_each_check_participant_with w self fid ps : forall c t r t',
  for_each (check_participant_with lower w self fid) ps c t = (r, t') ->
  exists k news,
    k <= length ps /\
    (forall j, j < k ->
       uncaught (answer w fid (length (drive_calls t) + j)) = false) /\
    sends t' = sends t ++ news /\
    map fst news =
      map (fun ip => reminder_message w (app_config self) (snd ip))
        (filter (not_found_with lower w fid)
           (firstn k (indexed (length (drive_calls t)) ps))) /\
    match r with
    | Ret c' =>
        k = length ps /\
        drive_calls t' = drive_calls t ++ repeat (uploads_call w fid) k /\
        upload_count c' =
          upload_count c +
          length (filter (was_found_with lower w fid) (indexed (length (drive_calls t)) ps)) /\
        reminders_sent c' = reminders_sent c + length (filter delivered news)
    | Raise x =>
        k < length ps /\
        answer w fid (length (drive_calls t) + k) = Raise x /\
        uncaught (Raise x) = true /\
        drive_calls t' = drive_calls t ++ repeat (uploads_call w fid) (S k)
    end.
Proof.
  induction ps as [|p ps IH]; intros c t r t' H.
  - injection H as <- <-. exists 0, []. simpl.
    rewrite !app_nil_r. repeat split; auto; intros; lia.
  - simpl in H. unfold bind in H. rewrite check_participant_with_eq in H.
    set (d := length (drive_calls t)) in *.
    assert (Hans : forall j, answer w fid (S d + j) = answer w fid (d + S j)).
    { intros j. f_equal. lia. }
    remember (answer w fid d) as r0 eqn:Er0.
    assert (Hnf : not_found_with lower w fid (d, p) = negb (found_with lower r0 (email p)))
      by (rewrite Er0; reflexivity).
    assert (Hwf : was_found_with lower w fid (d, p) = found_with lower r0 (email p))
      by (rewrite Er0; reflexivity).
    set (t1 := t ++ check_events_with lower fid w (email p) r0) in *.
    assert (Hst1 : sends t1 = sends t).
    { unfold t1. now rewrite sends_app, sends_check_events_with, app_nil_r. }
    assert (Hdc : forall u, drive_calls u = [] ->
                    drive_calls (t1 ++ u) = drive_calls t ++ [uploads_call w fid]).
    { intros u Hu. unfold t1.
      now rewrite !drive_calls_app, drive_calls_check_events_with, Hu, app_nil_r. }
    assert (Hd1 : forall u, drive_calls u = [] ->
                    length (drive_calls (t1 ++ u)) = S d).
    { intros u Hu. rewrite (Hdc u Hu), length_app. simpl. fold d. lia. }
    destruct (uncaught r0) eqn:Hu.
    + (* the listing call raises past the check *)
      destruct r0 as [l|x]; [discriminate|].
      injection H as <- <-.
      exists 0, []. rewrite Nat.add_0_r, app_nil_r. simpl.
      split; [lia|]. split; [intros; lia|]. split; [assumption|].
      split; [reflexivity|]. split; [lia|]. split; [now symmetry|].
      split; [assumption|].
      rewrite <- (app_nil_r t1). now apply Hdc.
    + destruct (found_with lower r0 (email p)) eqn:Hf.
      * (* a matching record: counted, no reminder *)
        apply IH in H. destruct H as (k & news & Hk & Hun & Hs & Hn & Hr).
        rewrite (Hd1 [has_uploaded_line p] eq_refl) in *.
        exists (S k), news. change (length (p :: ps)) with (S (length ps)).
        split; [lia|]. split.
        { intros [|j] Hj; [now rewrite Nat.add_0_r, <- Er0|].
          rewrite <- Hans. apply Hun. lia. }
        split.
        { rewrite Hs, sends_app, Hst1. simpl. now rewrite app_nil_r. }
        split.
        { rewrite Hn, indexed_cons. simpl firstn. simpl filter.
          now rewrite Hnf. }
        destruct r as [c'|x].
        -- destruct Hr as (-> & Hdr & Hup & Hrs).
           split; [reflexivity|]. split.
           { rewrite Hdr, (Hdc [has_uploaded_line p] eq_refl). norm_trace. reflexivity. }
           split.
           { rewrite Hup, indexed_cons. simpl filter.
             rewrite Hwf. simpl. lia. }
           { rewrite Hrs. reflexivity. }
        -- destruct Hr as (Hlt & Ha & Hux & Hdr).
           split; [lia|]. split; [now rewrite <- Hans|]. split; [assumption|].
           rewrite Hdr, (Hdc [has_uploaded_line p] eq_refl). norm_trace. reflexivity.
      * (* no matching record: one reminder *)
        set (dres := mail_send w (length (sends t))
                       (reminder_message w (app_config self) p)) in *.
        set (evs := no_upload_line p :: dispatch_events w (app_config self) p dres) in *.
        assert (Hevs : drive_calls evs = []).
        { unfold evs. simpl. apply drive_calls_dispatch_events. }
        apply IH in H. destruct H as (k & news & Hk & Hun & Hs & Hn & Hr).
        rewrite (Hd1 evs Hevs) in *.
        exists (S k), ((reminder_message w (app_config self) p, dres) :: news).
        change (length (p :: ps)) with (S (length ps)).
        split; [lia|]. split.
        { intros [|j] Hj; [now rewrite Nat.add_0_r, <- Er0|].
          rewrite <- Hans. apply Hun. lia. }
        split.
        { rewrite Hs, sends_app, Hst1. unfold evs. simpl sends at 2.
          rewrite sends_dispatch_events. norm_trace. reflexivity. }
        split.
        { rewrite indexed_cons. simpl firstn. simpl filter.
          rewrite Hnf. simpl. now rewrite Hn. }
        destruct r as [c'|x].
        -- destruct Hr as (-> & Hdr & Hup & Hrs).
           split; [reflexivity|]. split.
           { rewrite Hdr, (Hdc _ Hevs). norm_trace. reflexivity. }
           split.
           { rewrite Hup, indexed_cons. simpl filter.
             rewrite Hwf. destruct dres; simpl; lia. }
           { rewrite Hrs. simpl filter. unfold delivered at 2. simpl snd.
             destruct dres; simpl; lia. }
        -- destruct Hr as (Hlt & Ha & Hux & Hdr).
           split; [lia|]. split; [now rewrite <- Hans|]. split; [assumption|].
           rewrite Hdr, (Hdc _ Hevs). norm_trace. reflexivity.
Qed.

(** A run, by its guards: it stops at a guard with nothing sent, or the
    folder lookup raises, or it reaches the loop over the participants. *)
Lemma run_daily_check_with_spec w self folder r t :
  run_daily_check_with lower w self folder [] = (r, t) ->
  let ps := loaded (read_excel w (participants_file self)) in
  match ready self, ps with
  | false, _ | _, [] => r = Ret Aborted /\ sends t = [] /\ drive_calls t = []
  | true, _ :: _ =>
      match resolve (lookup w folder) with
      | Raise x =>
          r = Raise x /\ sends t = [] /\ drive_calls t = [folder_call folder]
      | Ret o =>
          if Py.truthy o then
            let fid := get o "" in
            exists k news,
              k <= length ps /\
              (forall j, j < k -> uncaught (answer w fid (1 + j)) = false) /\
              sends t = news /\
              map fst news =
                map (fun ip => reminder_message w (app_config self) (snd ip))
                  (filter (not_found_with lower w fid) (firstn k (indexed 1 ps))) /\
              match r with
              | Ret (Completed s) =>
                  k = length ps /\
                  drive_calls t =
                    folder_call folder :: repeat (uploads_call w fid) k /\
                  participants_with_uploads s =
                    length (filter (was_found_with lower w fid) (indexed 1 ps)) /\
                  reminder_emails_sent s = length (filter delivered news) /\
                  total_participants_checked s = length ps
              | Ret Aborted => False
              | Raise x =>
                  k < length ps /\
                  answer w fid (1 + k) = Raise x /\
                  uncaught (Raise x) = true /\
                  drive_calls t =
                    folder_call folder :: repeat (uploads_call w fid) (S k)
              end
          else
            r = Ret Aborted /\ sends t = [] /\ drive_calls t = [folder_call folder]
      end
  end.
Proof.
  intros H ps.
  unfold run_daily_check_with in H.
  do 3 log_step H.
  unfold ready.
  destruct (drive_service self); cbn [negb] in H.
  2:{ log_step H. injection H as <- <-. simpl. auto. }
  destruct (Py.truthy (MAIL_USERNAME (app_config self))); cbn [negb] in H.
  2:{ log_step H. injection H as <- <-. simpl. auto. }
  simpl andb. cbv iota.
  match type of H with bind _ _ ?t0 = _ =>
    destruct (load_participants_eq w self t0) as (ev1 & E1 & Hs1 & Hd1) end.
  rewrite (bind_ret_eq _ _ _ _ _ E1) in H. fold ps in H.
  destruct ps as [|p0 ps0] eqn:Eps.
  { log_step H. injection H as <- <-.
    proj_trace. rewrite Hs1, Hd1. auto. }
  log_step H.
  match type of H with bind _ _ ?t0 = _ =>
    destruct (get_drive_folder_id_eq w folder t0) as (ev2 & E2 & Hs2 & Hd2);
    assert (Ht0 : length (drive_calls t0) = 0)
      by (proj_trace; rewrite Hd1; reflexivity);
    rewrite Ht0 in E2
  end.
  fold (lookup w folder) in E2.
  destruct (resolve (lookup w folder)) as [o|x].
  2:{ rewrite (bind_raise_eq _ _ _ _ _ E2) in H. injection H as <- <-.
      proj_trace. rewrite Hs1, Hd1, Hs2, Hd2. auto. }
  rewrite (bind_ret_eq _ _ _ _ _ E2) in H.
  destruct (Py.truthy o); cbn [negb] in H.
  2:{ log_step H. injection H as <- <-.
      proj_trace. rewrite Hs1, Hd1, Hs2, Hd2. auto. }
  log_step H.
  set (fid := get o "") in *.
  match type of H with bind (for_each ?b ?l ?c) _ ?t0 = _ =>
    destruct (for_each b l c t0) as [rl tl] eqn:El;
    assert (Hdt0 : drive_calls t0 = [folder_call folder])
      by (proj_trace; rewrite Hd1, Hd2; reflexivity);
    assert (Hst0 : sends t0 = [])
      by (proj_trace; rewrite Hs1, Hs2; reflexivity)
  end.
  pose proof (for_each_check_participant_with _ _ _ _ _ _ _ _ El) as Hl.
  rewrite Hdt0, Hst0 in Hl. simpl length in Hl.
  destruct Hl as (k & news & Hk & Hun & Hs & Hn & Hr).
  exists k, news. simpl app in Hs.
  destruct rl as [c|x].
  - rewrite (bind_ret_eq _ _ _ _ _ El) in H.
    do 6 log_step H. injection H as <- <-.
    destruct Hr as (-> & Hdr & Hup & Hrs).
    proj_trace. rewrite Hs, Hdr.
    repeat split; auto.
  - rewrite (bind_raise_eq _ _ _ _ _ El) in H. injection H as <- <-.
    destruct Hr as (Hlt & Ha & Hux & Hdr).
    rewrite Hs, Hdr. repeat split; auto.
Qed.

End RunOverBuiltins.

(** The program of the first part is the one of this section at
    [Py.lower], [Py.strip] and [Py.int]. *)
Lemma run_daily_check_at_ascii :
  run_daily_check = run_daily_check_with Py.lower.
Proof. reflexivity. Qed.

Lemma setup_flask_app_at_ascii s t :
  setup_flask_app s t = setup_flask_app_with Py.strip int_or_raise s t.
Proof.
  unfold setup_flask_app, setup_flask_app_with, int_or_raise, bind at 1.
  symmetry. unfold bind at 1.
  destruct (environ s "MAIL_PORT") as [v|]; [|reflexivity].
  unfold lift. destruct (Py.int v); reflexivity.
Qed.

Lemma main_at_ascii s polls :
  main s polls = main_with Py.lower Py.strip int_or_raise s polls.
Proof.
  unfold main, main_with, ImprovedDailyReminderSystem,
    ImprovedDailyReminderSystem_with.
  unfold bind at 1. symmetry. unfold bind at 1.
  unfold bind at 1. symmetry. unfold bind at 1.
  now rewrite setup_flask_app_at_ascii.
Qed.

(* ================================================================= *)
(** ** The Upload Checker and the pages of a result *)

(** The check reads the page [execute()] returned and nothing else. *)
Lemma check_reads_first_page_only w w' fid e t :
  now w = now w' ->
  (forall n q f,
     match files_list w n q f, files_list w' n q f with
     | Ret l, Ret l' => results_page l = results_page l'
     | Raise x, Raise x' => x = x'
     | _, _ => False
     end) ->
  check_files_uploaded_today w fid e t = check_files_uploaded_today w' fid e t.
Proof.
  intros Hnow Hsame.
  rewrite !check_files_uploaded_today_eq.
  unfold answer, check_events, found, records_returned. rewrite <- Hnow.
  specialize (Hsame (length (drive_calls t))
                (uploads_query fid (strftime_Ymd (now w))) uploads_fields).
  destruct (files_list w _ _ _) as [l|x], (files_list w' _ _ _) as [l'|x'];
    try contradiction.
  - now rewrite Hsame.
  - now subst.
Qed.

(** C1.  The service holds two pages for the uploads query and the only
    record owned by participant a@x.com (up to case) is on the second one:
    the check answers [False], the run counts nobody as having uploaded and
    mails a reminder to a@x.com.  The pages after the first are never
    asked for, so the claim that a match on any page classifies the
    participant as satisfied fails here. *)
Theorem upload_on_second_page_is_missed :
  (exists f, In f (records_held Example.two_pages) /\ owned_by "a@x.com" f) /\
  fst (check_files_uploaded_today Example.second_page "F1" "a@x.com" []) =
    Ret false /\
  fst (run_daily_check Example.second_page Example.system "Survey Uploads" []) =
    Ret (Completed (mkRunSummary 0 2 2)) /\
  reminded_identities
    (snd (run_daily_check Example.second_page Example.system "Survey Uploads" []))
  = ["a@x.com"; "b@x.com"].
Proof.
  split.
  - exists Example.diary_of_a. split.
    + simpl. auto.
    + exists (mkOwner (Some "A@X.com")). split; [simpl; auto|].
      apply lower_eq_iff. reflexivity.
  - repeat split; vm_compute; reflexivity.
Qed.

(* ================================================================= *)
(** ** Classification of a participant *)

Lemma single_page_records l :
  further_pages l = [] -> records_held l = get (files (results_page l)) [].
Proof.
  intros H. unfold records_held, all_pages. rewrite H. simpl.
  apply app_nil_r.
Qed.

Lemma found_with_single_page lower l e :
  further_pages l = [] ->
  found_with lower (Ret l) e = true <-> has_upload_record lower l e.
Proof.
  intros H. unfold has_upload_record. rewrite (single_page_records l H).
  apply found_with_iff.
Qed.

(** The turn of a participant for whom no upload is found. *)
Lemma turn_without_match lower w self fid p c t :
  uncaught (answer w fid (length (drive_calls t))) = false ->
  found_with lower (answer w fid (length (drive_calls t))) (email p) = false ->
  exists c' t',
    check_participant_with lower w self fid p c t = (Ret c', t') /\
    classified_reminded w (app_config self) p c c' t t' /\
    ~ classified_satisfied p c c' t t'.
Proof.
  intros Hu Hf. rewrite check_participant_with_eq, Hu, Hf.
  eexists _, _. split; [reflexivity|]. split.
  - split; [destruct (mail_send w _ _); reflexivity|].
    eexists _, _. rewrite <- app_assoc. split; [reflexivity|]. split.
    + rewrite sends_app, sends_check_events_with. cbn [app].
      unfold no_upload_line. rewrite sends_log.
      apply sends_dispatch_events.
    + apply in_or_app. right. simpl. auto.
  - intros [Hup _]. destruct (mail_send w _ _); simpl in Hup; lia.
Qed.

(** The turn of a participant for whom an upload is found. *)
Lemma turn_with_match lower w self fid p c t :
  uncaught (answer w fid (length (drive_calls t))) = false ->
  found_with lower (answer w fid (length (drive_calls t))) (email p) = true ->
  exists c' t',
    check_participant_with lower w self fid p c t = (Ret c', t') /\
    classified_satisfied p c c' t t' /\
    ~ classified_reminded w (app_config self) p c c' t t'.
Proof.
  intros Hu Hf. rewrite check_participant_with_eq, Hu, Hf.
  eexists _, _. split; [reflexivity|]. split.
  - split; [reflexivity|]. split; [reflexivity|].
    eexists. rewrite <- app_assoc. split; [reflexivity|]. split.
    + rewrite sends_app, sends_check_events_with. reflexivity.
    + apply in_or_app. right. simpl. auto.
  - intros [Hup _]. simpl in Hup. lia.
Qed.

(** C2, as the code has it.  The turn of a participant is decided by the
    answer to the listing query made for that participant, [lower] being
    Python's [str.lower].  When the query returns a result of a single
    page, the participant is classified as satisfied if and only if one
    of the upload records held for the date has an owner whose identity
    has the same lower-case form as the participant's, and as reminded
    otherwise; [check_files_uploaded_today] returns [True] in exactly
    that case.  When the query fails with [HttpError], the participant is
    classified as reminded.  When the query raises anything else, the
    participant is not classified: the exception leaves the turn, and
    nothing is sent. *)
Theorem classification_by_listing_answer (lower : string -> string)
    w self fid p c t :
  let r := answer w fid (length (drive_calls t)) in
  (forall l, r = Ret l -> further_pages l = [] ->
     exists c' t',
       check_participant_with lower w self fid p c t = (Ret c', t') /\
       (fst (check_files_uploaded_today_with lower w fid (email p) t) = Ret true
        <-> has_upload_record lower l (email p)) /\
       (classified_satisfied p c c' t t'
        <-> has_upload_record lower l (email p)) /\
       (classified_reminded w (app_config self) p c c' t t'
        <-> ~ has_upload_record lower l (email p))) /\
  (forall m, r = Raise (HttpError m) ->
     exists c' t',
       check_participant_with lower w self fid p c t = (Ret c', t') /\
       fst (check_files_uploaded_today_with lower w fid (email p) t) = Ret false /\
       classified_reminded w (app_config self) p c c' t t' /\
       ~ classified_satisfied p c c' t t') /\
  (forall x, r = Raise x -> (forall m, x <> HttpError m) ->
     exists t',
       check_participant_with lower w self fid p c t = (Raise x, t') /\
       sends t' = sends t).
Proof.
  intros r. split; [|split].
  - intros l Hl Hone.
    pose proof (found_with_single_page lower l (email p) Hone) as Hm.
    rewrite check_files_uploaded_today_with_eq. fold r. rewrite Hl. cbn [fst].
    destruct (found_with lower (Ret l) (email p)) eqn:Hf.
    + destruct (turn_with_match lower w self fid p c t) as (c' & t' & E & Hs & Hr).
      { fold r. now rewrite Hl. }
      { fold r. now rewrite Hl. }
      exists c', t'. split; [exact E|].
      assert (M : has_upload_record lower l (email p)) by now apply Hm.
      tauto.
    + destruct (turn_without_match lower w self fid p c t) as (c' & t' & E & Hr & Hs).
      { fold r. now rewrite Hl. }
      { fold r. now rewrite Hl. }
      exists c', t'. split; [exact E|].
      assert (M : ~ has_upload_record lower l (email p)).
      { intros M. apply Hm in M. discriminate. }
      split; [split; [discriminate|tauto]|]. tauto.
  - intros m Hr.
    destruct (turn_without_match lower w self fid p c t) as (c' & t' & E & H1 & H2).
    { fold r. now rewrite Hr. }
    { fold r. now rewrite Hr. }
    exists c', t'. split; [exact E|]. split; [|tauto].
    rewrite check_files_uploaded_today_with_eq. fold r. now rewrite Hr.
  - intros x Hr Hx. rewrite check_participant_with_eq. fold r. rewrite Hr.
    assert (Hu : uncaught (Raise (A := listing) x) = true).
    { destruct x; try reflexivity. now destruct (Hx msg). }
    rewrite Hu. eexists. split; [reflexivity|].
    now rewrite sends_app, sends_check_events_with, app_nil_r.
Qed.

Lemma classification_by_listing_answer_witness :
  (exists c' t',
     check_participant_with Py.lower Example.spec_example Example.system "F1"
       Example.participant_a (mkCounters 0 0) [] = (Ret c', t') /\
     classified_satisfied Example.participant_a (mkCounters 0 0) c' [] t') /\
  (exists c' t',
     check_participant_with Py.lower Example.drive_failing Example.system "F1"
       Example.participant_a (mkCounters 0 0) [] = (Ret c', t') /\
     classified_reminded Example.drive_failing Example.cfg Example.participant_a
       (mkCounters 0 0) c' [] t').
Proof.
  split.
  - destruct (proj1 (classification_by_listing_answer Py.lower
                       Example.spec_example Example.system "F1"
                       Example.participant_a (mkCounters 0 0) [])
                (mkListing (mkPage (Some [Example.diary_of_a])) [])
                eq_refl eq_refl)
      as (c' & t' & E & _ & Hs & _).
    exists c', t'. split; [exact E|].
    apply Hs. exists Example.diary_of_a. split; [simpl; auto|].
    exists (mkOwner (Some "A@X.com")). split; [simpl; auto|reflexivity].
  - destruct (proj1 (proj2 (classification_by_listing_answer Py.lower
                              Example.drive_failing Example.system "F1"
                              Example.participant_a (mkCounters 0 0) []))
                "503 backend error" eq_refl)
      as (c' & t' & E & _ & Hr & _).
    exists c', t'. split; [exact E|exact Hr].
Defined.

(** C2 as stated fails.  The listing query made for a@x.com fails with an
    HTTP error while the service holds a record of that day owned by
    A@X.com, which it returns to the very next query of the run: a@x.com
    is classified as reminded, nobody as satisfied. *)
Lemma reminded_although_an_upload_record_exists :
  let w := Cases.a_call_fails in
  let run := run_daily_check w Example.system "Survey Uploads" [] in
  answer w "F1" 1 = Raise (HttpError "503 backend error") /\
  In Example.diary_of_a (records_returned (answer w "F1" 2)) /\
  owned_by "a@x.com" Example.diary_of_a /\
  fst run = Ret (Completed (mkRunSummary 0 2 2)) /\
  reminded_identities (snd run) = ["a@x.com"; "b@x.com"].
Proof.
  cbv zeta. split; [reflexivity|]. split; [simpl; auto|]. split.
  - exists (mkOwner (Some "A@X.com")). split; [simpl; auto|].
    apply lower_eq_iff. reflexivity.
  - split; vm_compute; reflexivity.
Qed.

(* ================================================================= *)
(** ** Who is reminded *)

Lemma loaded_cons r p ps :
  loaded r = p :: ps ->
  exists df, r = Ret df /\ has_required_columns df = true /\
             p :: ps = map participant_of (active_rows df).
Proof.
  unfold loaded. destruct r as [df|x]; [|intros H; discriminate H].
  destruct (has_required_columns df) eqn:Hc; [|intros H; discriminate H].
  intros H. exists df. rewrite H. repeat split. exact Hc.
Qed.

Lemma truthy_some o : Py.truthy o = true -> exists s, o = Some s /\ s <> "".
Proof.
  destruct o as [s|]; [|discriminate]. simpl.
  intros H. exists s. split; [reflexivity|].
  intros ->. discriminate.
Qed.


Lemma StronglySorted_map_S idx :
  StronglySorted lt idx -> StronglySorted lt (map S idx).
Proof.
  induction 1 as [|i idx _ IH Hall]; simpl; constructor; trivial.
  apply Forall_map. eapply Forall_impl; [|exact Hall].
  intros j Hj. simpl. lia.
Qed.

(** The participants a predicate selects among the first [k], with their
    positions in the list: the positions increase. *)
Lemma selected_positions (P : nat * participant -> bool) ps : forall d k,
  exists idx,
    StronglySorted lt idx /\
    Forall2 (fun i ip => i < k /\ fst ip = d + i /\
                         nth_error ps i = Some (snd ip) /\ P ip = true)
      idx (filter P (firstn k (indexed d ps))).
Proof.
  induction ps as [|p ps IH]; intros d k.
  - exists []. split; [constructor|].
    unfold indexed. simpl. rewrite firstn_nil. constructor.
  - destruct k as [|k].
    { exists []. split; constructor. }
    rewrite indexed_cons. cbn [firstn filter].
    destruct (IH (S d) k) as (idx & Hsorted & Hall).
    assert (Hshift :
      Forall2 (fun i ip => i < S k /\ fst ip = d + i /\
                           nth_error (p :: ps) i = Some (snd ip) /\ P ip = true)
        (map S idx) (filter P (firstn k (indexed (S d) ps)))).
    { clear - Hall.
      induction Hall as [|i ip idx' l' (Hi & Hf & Hn & HP) _ IHall];
        simpl; constructor; trivial.
      repeat split; trivial; lia. }
    destruct (P (d, p)) eqn:HP.
    + exists (0 :: map S idx). split.
      * constructor; [now apply StronglySorted_map_S|].
        apply Forall_map, Forall_forall. intros; simpl; lia.
      * constructor; [|exact Hshift].
        cbn [fst snd nth_error]. repeat split; trivial; lia.
    + exists (map S idx). split; [now apply StronglySorted_map_S|exact Hshift].
Qed.

Lemma Forall2_through_map {A B C D} (Q : A -> B -> Prop) (g : B -> D)
    (h : C -> D) idx L : forall news,
  Forall2 Q idx L -> map h news = map g L ->
  Forall2 (fun i s => exists ip, Q i ip /\ h s = g ip) idx news.
Proof.
  intros news H. revert news.
  induction H as [|i ip idx L Hq _ IH]; intros [|s news] E;
    try discriminate; constructor.
  - injection E as Es _. eauto.
  - injection E as _ En. now apply IH.
Qed.

Lemma loaded_rows w self p :
  In p (loaded (read_excel w (participants_file self))) ->
  exists df row,
    read_excel w (participants_file self) = Ret df /\
    In row (rows df) /\ row_active row = 1%Z /\ p = participant_of row.
Proof.
  intros Hp. unfold loaded in Hp.
  destruct (read_excel w (participants_file self)) as [df|x]; [|contradiction].
  destruct (has_required_columns df); [|contradiction].
  apply in_map_iff in Hp as (row & <- & Hrow).
  apply filter_In in Hrow as [Hin Hact]. apply Z.eqb_eq in Hact.
  exists df, row. auto.
Qed.

(** C3, as the code has it.  In every run the reminders answer active
    rows of the roster, in the order of the roster and at most one for
    each row: reminder by reminder there is a row, at an increasing
    position [i] among the rows whose active flag is 1, to whose identity
    and name the message is addressed; and the listing query made for
    that row (Drive call [1 + i] of the run) either failed with
    [HttpError] or returned a result which, when it has a single page,
    holds no record with an owner whose identity has the same lower-case
    form as the row's ([lower] being Python's [str.lower]).  The
    participants [load_participants] hands to the run all come from rows
    whose flag is 1, so that a row with another flag is neither
    classified nor reminded. *)
Theorem reminders_answer_active_rows (lower : string -> string) w self folder :
  let t := snd (run_daily_check_with lower w self folder []) in
  (exists positions,
     StronglySorted lt positions /\
     Forall2 (reminder_for_row lower w self folder) positions (sends t)) /\
  (forall t0 ps, fst (load_participants w self t0) = Ret ps ->
     forall p, In p ps ->
       exists df row,
         read_excel w (participants_file self) = Ret df /\
         In row (rows df) /\ row_active row = 1%Z /\ p = participant_of row).
Proof.
  intros t. split.
  - subst t.
    destruct (run_daily_check_with lower w self folder []) as [r t] eqn:E.
    apply run_daily_check_with_spec in E. cbn [snd].
    assert (Hnone : sends t = [] ->
              exists positions,
                StronglySorted lt positions /\
                Forall2 (reminder_for_row lower w self folder) positions (sends t)).
    { intros ->. exists []. split; constructor. }
    destruct (ready self); [|now apply Hnone].
    destruct (loaded _) as [|p0 ps0] eqn:Eps; [now apply Hnone|].
    apply loaded_cons in Eps as (df & Hdf & _ & Eps).
    destruct (resolve (lookup w folder)) as [o|x] eqn:Hres; [|now apply Hnone].
    destruct (Py.truthy o) eqn:Ho; [|now apply Hnone].
    apply truthy_some in Ho as (fid & -> & _). cbn [get] in E.
    destruct E as (k & news & _ & Hun & Hsn & Hn & _).
    rewrite Hsn.
    destruct (selected_positions (not_found_with lower w fid) (p0 :: ps0) 1 k)
      as (idx & Hsorted & Hall).
    exists idx. split; [exact Hsorted|].
    pose proof (Forall2_through_map _ _ _ _ _ _ Hall Hn) as Hnews.
    eapply Forall2_impl; [|exact Hnews].
    intros i s ([n p] & (Hi & Hfst & Hnth & Hnf) & Hmsg).
    cbn [fst snd] in Hfst, Hnth, Hmsg. subst n.
    rewrite Eps, nth_error_map in Hnth.
    destruct (nth_error (active_rows df) i) as [row|] eqn:Hrow; [|discriminate].
    injection Hnth as <-.
    pose proof (nth_error_In _ _ Hrow) as Hin.
    apply filter_In in Hin as [Hin Hact]. apply Z.eqb_eq in Hact.
    exists df, fid, row. repeat split; trivial.
    unfold not_found_with in Hnf. cbn [fst snd] in Hnf.
    change (email (participant_of row)) with (row_email row) in Hnf.
    apply negb_true_iff in Hnf.
    specialize (Hun i Hi). unfold no_upload_seen.
    destruct (answer w fid (1 + i)) as [l|x] eqn:Ha.
    + right. exists l. split; [reflexivity|].
      intros Hone Hm.
      apply (found_with_single_page lower l _ Hone) in Hm.
      rewrite Hm in Hnf. discriminate.
    + left. destruct x; try discriminate. eauto.
  - intros t0 ps Hps p Hp.
    destruct (load_participants_eq w self t0) as (evs & E & _).
    rewrite E in Hps. injection Hps as <-. now apply loaded_rows.
Qed.

Lemma reminders_answer_active_rows_witness :
  exists df row,
    read_excel Example.spec_example "participants.xlsx" = Ret df /\
    In row (rows df) /\ row_active row = 1%Z /\
    Example.participant_b = participant_of row.
Proof.
  apply (proj2 (reminders_answer_active_rows Py.lower Example.spec_example
                  Example.system "Survey Uploads"))
    with (t0 := []) (ps := [Example.participant_a; Example.participant_b]).
  - reflexivity.
  - simpl. auto.
Defined.

(** C3 as stated fails, in both of its parts.  A participant listed in
    two active rows of the roster is sent two reminders in one run.  And a
    participant whose listing query fails with an HTTP error is sent a
    reminder although a record of that day names them as owner. *)
Lemma reminded_twice_and_despite_an_upload :
  let twice :=
    snd (run_daily_check More.repeated_row Example.system "Survey Uploads" []) in
  let failing :=
    snd (run_daily_check Cases.a_call_fails Example.system "Survey Uploads" []) in
  map row_email (active_rows More.roster_with_repeat) =
    ["b@x.com"; "a@x.com"; "b@x.com"] /\
  reminded_identities twice = ["b@x.com"; "b@x.com"] /\
  ~ (forall e, count_occ string_dec (reminded_identities twice) e <= 1) /\
  reminded_identities failing = ["a@x.com"; "b@x.com"] /\
  In Example.diary_of_a (records_returned (answer Cases.a_call_fails "F1" 2)) /\
  owned_by "a@x.com" Example.diary_of_a.
Proof.
  cbv zeta.
  assert (E : reminded_identities
                (snd (run_daily_check More.repeated_row Example.system
                        "Survey Uploads" [])) = ["b@x.com"; "b@x.com"])
    by (vm_compute; reflexivity).
  rewrite E.
  split; [reflexivity|]. split; [reflexivity|]. split.
  - intros H. specialize (H "b@x.com"). simpl in H. lia.
  - split; [vm_compute; reflexivity|]. split; [simpl; auto|].
    exists (mkOwner (Some "A@X.com")). split; [simpl; auto|].
    apply lower_eq_iff. reflexivity.
Qed.

(* ================================================================= *)
(** ** The counts of a completed run *)

Lemma filter_all_iff {A} (f : A -> bool) l :
  length (filter f l) = length l <-> forall x, In x l -> f x = true.
Proof.
  split.
  - intros H x Hx. apply filter_length_forallb in H.
    rewrite forallb_forall in H. now apply H.
  - intros H. induction l as [|a l IH]; [reflexivity|].
    simpl. rewrite (H a (or_introl eq_refl)). simpl. f_equal.
    apply IH. intros x Hx. apply H. now right.
Qed.

Lemma found_split w fid (l : list (nat * participant)) :
  length (filter (was_found w fid) l) + length (filter (not_found w fid) l)
  = length l.
Proof. apply (filter_length (was_found w fid)). Qed.

(** What a completed run has gone through. *)
Lemma completed_run w self folder s t :
  run_daily_check w self folder [] = (Ret (Completed s), t) ->
  exists df fid,
    read_excel w (participants_file self) = Ret df /\
    resolve (lookup w folder) = Ret (Some fid) /\
    let ps := map participant_of (active_rows df) in
    map fst (sends t) =
      map (fun ip => reminder_message w (app_config self) (snd ip))
        (filter (not_found w fid) (indexed 1 ps)) /\
    drive_calls t = folder_call folder :: repeat (uploads_call w fid) (length ps) /\
    participants_with_uploads s = length (filter (was_found w fid) (indexed 1 ps)) /\
    reminder_emails_sent s = length (filter delivered (sends t)) /\
    total_participants_checked s = length ps.
Proof.
  intros E. apply run_daily_check_spec in E.
  destruct (ready self); [|now destruct E].
  destruct (loaded _) as [|p0 ps0] eqn:Eps; [now destruct E|].
  apply loaded_cons in Eps as (df & Hdf & _ & Eps).
  destruct (resolve (lookup w folder)) as [o|x]; [|now destruct E].
  destruct (Py.truthy o) eqn:Ho; [|now destruct E].
  apply truthy_some in Ho as (fid & -> & _). cbn [get] in E.
  destruct E as (k & news & _ & _ & Hs & Hn & -> & Hd & Hu & Hr & Ht).
  rewrite <- (length_indexed 1), firstn_all in Hn.
  exists df, fid. rewrite <- Eps, Hs. auto 10.
Qed.

(** C4, as the code has it.  In a completed run the total checked is the
    number of active rows of the roster, and it is the satisfied count plus
    the number of reminders handed to the mail service; the reminder count
    of the summary counts the dispatches that succeeded, so the satisfied
    and the reminder count add up to at most the total, and to the total
    exactly when no dispatch of the run failed. *)
Theorem summary_counts w self folder s t :
  run_daily_check w self folder [] = (Ret (Completed s), t) ->
  exists df,
    read_excel w (participants_file self) = Ret df /\
    total_participants_checked s = length (active_rows df) /\
    total_participants_checked s = participants_with_uploads s + length (sends t) /\
    reminder_emails_sent s = length (filter delivered (sends t)) /\
    participants_with_uploads s + reminder_emails_sent s
      <= total_participants_checked s /\
    (participants_with_uploads s + reminder_emails_sent s
       = total_participants_checked s
     <-> forall d, In d (sends t) -> delivered d = true).
Proof.
  intros E. apply completed_run in E.
  destruct E as (df & fid & Hdf & _ & Hs & _ & Hu & Hr & Ht).
  exists df. split; [exact Hdf|].
  apply (f_equal (@length _)) in Hs. rewrite !length_map in Hs.
  rewrite length_map in Ht.
  pose proof (found_split w fid (indexed 1 (map participant_of (active_rows df))))
    as Hsplit.
  rewrite length_indexed, length_map in Hsplit.
  pose proof (filter_length_le delivered (sends t)) as Hle.
  split; [exact Ht|]. split; [lia|]. split; [exact Hr|]. split; [lia|].
  rewrite <- filter_all_iff. lia.
Qed.

Lemma summary_counts_witness :
  exists df,
    read_excel Example.mail_down "participants.xlsx" = Ret df /\
    2 = length (active_rows df) /\
    1 + 0 <= 2.
Proof.
  destruct (summary_counts Example.mail_down Example.system "Survey Uploads"
              (mkRunSummary 1 0 2)
              (snd (run_daily_check Example.mail_down Example.system
                      "Survey Uploads" []))
              eq_refl)
    as (df & Hdf & Ht & _ & _ & Hle & _).
  exists df. repeat split; assumption.
Defined.

(** C4 as stated fails: one active participant without an upload and a
    mail service that refuses the message; the run completes with total 1,
    satisfied 0 and reminded 0. *)
Lemma summary_sum_fails_when_dispatch_fails :
  let outcome :=
    fst (run_daily_check Example.b_alone_mail_down Example.system
           "Survey Uploads" []) in
  outcome = Ret (Completed (mkRunSummary 0 0 1)) /\
  length (active_rows Example.only_b) = 1 /\
  ~ (forall s, outcome = Ret (Completed s) ->
       total_participants_checked s
         = participants_with_uploads s + reminder_emails_sent s).
Proof.
  assert (E : fst (run_daily_check Example.b_alone_mail_down Example.system
                     "Survey Uploads" []) = Ret (Completed (mkRunSummary 0 0 1)))
    by (vm_compute; reflexivity).
  cbv zeta. rewrite E.
  split; [reflexivity|]. split; [reflexivity|].
  intros H. specialize (H _ eq_refl). discriminate H.
Qed.

(* ================================================================= *)
(** ** The listing queries of a run *)

Lemma uploads_calls_kept w fid n :
  map fst (filter is_uploads_call (repeat (uploads_call w fid) n)) =
  repeat (uploads_query fid (strftime_Ymd (now w))) n.
Proof.
  induction n as [|n IH]; [reflexivity|].
  cbn [repeat filter].
  change (is_uploads_call (uploads_call w fid)) with true.
  cbv iota. cbn [map]. rewrite IH. reflexivity.
Qed.

Lemma listing_queries_of_calls t folder w fid n :
  drive_calls t = folder_call folder :: repeat (uploads_call w fid) n ->
  listing_queries t = repeat (uploads_query fid (strftime_Ymd (now w))) n.
Proof.
  intros H. unfold listing_queries. rewrite H.
  cbn [filter]. change (is_uploads_call (folder_call folder)) with false.
  cbv iota. apply uploads_calls_kept.
Qed.




(* ================================================================= *)
(** ** Failing dispatches *)





(* ================================================================= *)
(** ** Per-run errors *)

Lemma load_participants_failure w self t0 :
  (exists x, read_excel w (participants_file self) = Raise x) \/
  (exists df, read_excel w (participants_file self) = Ret df /\
              has_required_columns df = false) ->
  exists evs msg,
    load_participants w self t0 = (Ret [], t0 ++ evs) /\
    In (Log ERROR msg) evs.
Proof.
  unfold load_participants, try_except, pd_read_excel, bind, emit, lift,
    logger, ret.
  intros [[x H]|[df [H Hc]]]; rewrite H.
  - destruct x; simpl; norm_trace; eexists _, _;
      (split; [reflexivity|]); simpl; eauto.
  - rewrite Hc. simpl. norm_trace. eexists _, _.
    split; [reflexivity|]. simpl. eauto.
Qed.

Lemma scheduler_loop_due self folder w rest t0 r t :
  run_daily_check w self folder [] = (Ret r, t) ->
  scheduler_loop self folder (Due w :: rest) t0 =
  scheduler_loop self folder rest (t0 ++ t).
Proof.
  intros E. cbn [scheduler_loop]. unfold bind, in_fresh_trace.
  now rewrite E.
Qed.

Lemma field_missing df col :
  In col ["email"; "name"; "active"] -> ~ In col (columns df) ->
  has_required_columns df = false.
Proof.
  intros Hreq Hcol. unfold has_required_columns.
  destruct (forallb _ required_columns) eqn:E; [|reflexivity].
  rewrite forallb_forall in E. specialize (E col Hreq).
  apply existsb_exists in E as (c & Hin & Hc).
  apply String.eqb_eq in Hc. subst c. contradiction.
Qed.

Lemma all_fields_present df :
  (forall col, In col ["email"; "name"; "active"] -> In col (columns df)) ->
  has_required_columns df = true.
Proof.
  intros H. unfold has_required_columns. apply forallb_forall.
  intros col Hcol. apply existsb_exists. exists col.
  split; [now apply H|apply String.eqb_refl].
Qed.

Lemma no_active_row df :
  (forall r, In r (rows df) -> row_active r <> 1%Z) -> active_rows df = [].
Proof.
  unfold active_rows. induction (rows df) as [|r rs IH]; intros H;
    [reflexivity|].
  simpl. destruct (Z.eqb_spec (row_active r) 1) as [E|_].
  - destruct (H r (or_introl eq_refl) E).
  - apply IH. intros r' Hr'. apply H. now right.
Qed.

Lemma loaded_of_active w self :
  has_active_participant w self ->
  exists p ps, loaded (read_excel w (participants_file self)) = p :: ps.
Proof.
  intros (df & row & Hdf & Hcols & Hin & Hact).
  unfold loaded. rewrite Hdf, (all_fields_present df Hcols).
  assert (Hrow : In row (active_rows df)).
  { apply filter_In. split; [exact Hin|]. now apply Z.eqb_eq. }
  destruct (active_rows df) as [|r rs]; [contradiction|].
  simpl. eauto.
Qed.

Lemma nothing_held_nothing_returned l :
  records_held l = [] -> get (files (results_page l)) [] = [].
Proof.
  unfold records_held, all_pages. simpl. intros H.
  now apply app_eq_nil in H as [H _].
Qed.

Lemma per_run_error_stops w self folder :
  per_run_error w self folder ->
  loaded (read_excel w (participants_file self)) = [] \/
  resolve (lookup w folder) = Ret None.
Proof.
  intros [m H|x H|df col H Hreq Hcol|df H Ha|l H Hf|m H].
  - left. now rewrite H.
  - left. now rewrite H.
  - left. rewrite H. simpl. now rewrite (field_missing df col).
  - left. rewrite H. simpl. rewrite (no_active_row df Ha).
    now destruct (has_required_columns df).
  - right. rewrite H. simpl. now rewrite (nothing_held_nothing_returned l Hf).
  - right. now rewrite H.
Qed.

(** A run that stops at a guard. *)
Lemma stopped_run w self folder :
  ready self = false \/
  loaded (read_excel w (participants_file self)) = [] \/
  (exists o, resolve (lookup w folder) = Ret o /\ Py.truthy o = false) ->
  exists t,
    run_daily_check w self folder [] = (Ret Aborted, t) /\
    sends t = [] /\ listing_queries t = [].
Proof.
  intros Hstop.
  destruct (run_daily_check w self folder []) as [r t] eqn:E.
  apply run_daily_check_spec in E.
  assert (Hq : forall c, drive_calls t = c -> c = [] \/ c = [folder_call folder] ->
                 listing_queries t = []).
  { intros c Hc [->| ->]; unfold listing_queries; now rewrite Hc. }
  exists t.
  destruct (ready self).
  2:{ destruct E as (-> & Hs & Hd). eauto. }
  destruct (loaded _) as [|p0 ps0].
  { destruct E as (-> & Hs & Hd). eauto. }
  destruct Hstop as [Hstop|[Hstop|(o & Ho & Hfalse)]]; try discriminate.
  rewrite Ho, Hfalse in E.
  destruct E as (-> & Hs & Hd). eauto.
Qed.

Lemma scheduler_loop_raising self folder w rest t0 x t :
  run_daily_check w self folder [] = (Raise x, t) ->
  scheduler_loop self folder (Due w :: rest) t0 = (Raise x, t0 ++ t).
Proof.
  intros E. cbn [scheduler_loop]. unfold bind, in_fresh_trace.
  now rewrite E.
Qed.

(** C7, as the code has it.  A run that meets a per-run error (the roster
    source is missing, cannot be parsed or lacks one of the fields
    [email], [name], [active]; no row of the roster is active; the service
    holds no folder of the monitored name, or the folder lookup fails with
    [HttpError]) returns early with no reminder sent and no listing query
    issued, and the scheduler loop goes on with the triggers that follow;
    in its failure cases the Roster Loader returns the empty list after
    logging an error.  A folder lookup that raises anything but
    [HttpError], in a run that has passed its guards and loaded an active
    participant, is not such an error: the exception leaves the run with
    nothing sent and ends the scheduler loop, the triggers that follow are
    not served. *)
Theorem per_run_error_aborts_the_run_only w self folder rest :
  (per_run_error w self folder ->
   exists t,
     run_daily_check w self folder [] = (Ret Aborted, t) /\
     sends t = [] /\ listing_queries t = [] /\
     forall t0,
       scheduler_loop self folder (Due w :: rest) t0 =
       scheduler_loop self folder rest (t0 ++ t)) /\
  (roster_failure w self ->
   forall t0, exists evs msg,
     load_participants w self t0 = (Ret [], t0 ++ evs) /\
     In (Log ERROR msg) evs) /\
  (forall x,
     ready self = true -> has_active_participant w self ->
     lookup w folder = Raise x -> (forall m, x <> HttpError m) ->
     exists t,
       run_daily_check w self folder [] = (Raise x, t) /\
       sends t = [] /\ listing_queries t = [] /\
       forall t0,
         scheduler_loop self folder (Due w :: rest) t0 = (Raise x, t0 ++ t)).
Proof.
  split; [|split].
  - intros Herr.
    destruct (stopped_run w self folder) as (t & E & Hs & Hq).
    { right. destruct (per_run_error_stops w self folder Herr) as [H|H].
      - now left.
      - right. exists None. now split. }
    exists t. repeat split; trivial.
    intros t0. now apply (scheduler_loop_due self folder w rest t0 Aborted).
  - intros Hfail t0. apply load_participants_failure.
    destruct Hfail as [Hx|(df & col & Hdf & Hreq & Hcol)]; [now left|].
    right. exists df. split; [exact Hdf|]. now apply (field_missing df col).
  - intros x Hready Hactive Hl Hx.
    destruct (loaded_of_active w self Hactive) as (p & ps & Hps).
    destruct (run_daily_check w self folder []) as [r t] eqn:E.
    pose proof (run_daily_check_spec _ _ _ _ _ E) as H.
    rewrite Hready, Hps, Hl in H.
    assert (Hres : resolve (Raise x) = Raise x).
    { destruct x; try reflexivity. now destruct (Hx msg). }
    rewrite Hres in H. destruct H as (-> & Hs & Hd).
    exists t. split; [reflexivity|]. split; [exact Hs|]. split.
    + unfold listing_queries. now rewrite Hd.
    + intros t0. now apply scheduler_loop_raising.
Qed.

Lemma per_run_error_aborts_the_run_only_witness :
  (exists t,
     run_daily_check Cases.no_active_column Example.system "Survey Uploads" []
       = (Ret Aborted, t) /\
     sends t = [] /\
     scheduler_loop Example.system "Survey Uploads"
       [Due Cases.no_active_column; Due Example.spec_example] [] =
     scheduler_loop Example.system "Survey Uploads" [Due Example.spec_example] t) /\
  (exists t,
     run_daily_check More.lookup_breaks Example.system "Survey Uploads" []
       = (Raise (OtherException "timed out"), t) /\
     scheduler_loop Example.system "Survey Uploads"
       [Due More.lookup_breaks; Due Example.spec_example] [] =
     (Raise (OtherException "timed out"), t)).
Proof.
  split.
  - destruct (proj1 (per_run_error_aborts_the_run_only
                       Cases.no_active_column Example.system "Survey Uploads"
                       [Due Example.spec_example]))
      as (t & E & Hs & _ & Hloop).
    + apply (roster_field_missing _ _ _
               (mkDataFrame ["email"; "name"] [mkRow "a@x.com" "A" 1]) "active").
      * reflexivity.
      * simpl. auto.
      * simpl. intros [H|[H|[]]]; discriminate.
    + exists t. split; [exact E|]. split; [exact Hs|]. exact (Hloop []).
  - destruct (proj2 (proj2 (per_run_error_aborts_the_run_only
                              More.lookup_breaks Example.system "Survey Uploads"
                              [Due Example.spec_example]))
                (OtherException "timed out"))
      as (t & E & _ & _ & Hloop).
    + reflexivity.
    + exists Example.roster, (mkRow "a@x.com" "A" 1).
      split; [reflexivity|]. split; [|split; [simpl; auto|reflexivity]].
      simpl. intros col [<-|[<-|[<-|[]]]]; auto.
    + reflexivity.
    + discriminate.
    + exists t. split; [exact E|exact (Hloop [])].
Defined.

(** C7 as stated fails for a folder that cannot be resolved because the
    lookup breaks below HTTP: the run does not abort but raises, the
    scheduler loop ends with the exception instead of serving the next
    trigger, and the process exits with code 1. *)
Lemma broken_lookup_ends_the_scheduler_loop :
  let w := More.lookup_breaks in
  lookup w "Survey Uploads" = Raise (OtherException "timed out") /\
  fst (get_drive_folder_id w "Survey Uploads" []) =
    Raise (OtherException "timed out") /\
  fst (run_daily_check w Example.system "Survey Uploads" []) =
    Raise (OtherException "timed out") /\
  fst (scheduler_loop Example.system "Survey Uploads"
         [Due w; Due Example.spec_example] []) =
    Raise (OtherException "timed out") /\
  sends (snd (scheduler_loop Example.system "Survey Uploads"
                [Due w; Due Example.spec_example] [])) = [] /\
  sends (snd (scheduler_loop Example.system "Survey Uploads"
                [Due Example.spec_example] [])) <> [] /\
  fst (main More.all_set_up [Due w; Due Example.spec_example]) = Exited 1.
Proof.
  cbv zeta. repeat split; try (vm_compute; reflexivity).
  vm_compute. discriminate.
Qed.

(* ================================================================= *)
(** ** Folder resolution *)

(** C9, as the code has it.  When the service holds no folder of the
    name, or the lookup fails with [HttpError], folder resolution returns
    no identifier and the run aborts with nothing sent.  When the service
    lists one or several folders of the name, folder resolution returns
    the identifier of the first one listed; if that identifier is not
    empty, a run that has passed its guards and loaded an active
    participant does not abort: it goes on to the upload checks, every
    listing query of the run naming that folder, and at least one being
    issued; if the identifier is empty the run aborts as for an absent
    folder. *)
Theorem folder_resolution_takes_first_match w self folder :
  ((exists l, lookup w folder = Ret l /\ records_held l = []) \/
   (exists m, lookup w folder = Raise (HttpError m)) ->
   fst (get_drive_folder_id w folder []) = Ret None /\
   exists t, run_daily_check w self folder [] = (Ret Aborted, t) /\ sends t = []) /\
  (forall l item0 others,
     lookup w folder = Ret l ->
     get (files (results_page l)) [] = item0 :: others ->
     fst (get_drive_folder_id w folder []) = Ret (Some (file_id item0)) /\
     (file_id item0 <> "" ->
      ready self = true -> has_active_participant w self ->
      exists r t n,
        run_daily_check w self folder [] = (r, t) /\
        r <> Ret Aborted /\
        listing_queries t =
          repeat (uploads_query (file_id item0) (strftime_Ymd (now w))) (S n)) /\
     (file_id item0 = "" ->
      exists t,
        run_daily_check w self folder [] = (Ret Aborted, t) /\ sends t = [])).
Proof.
  destruct (get_drive_folder_id_eq w folder []) as (evs & E & _).
  cbn [drive_calls flat_map length] in E. fold (lookup w folder) in E.
  rewrite E. cbn [fst]. split.
  - intros H.
    assert (Hres : resolve (lookup w folder) = Ret None).
    { destruct H as [(l & -> & Hf)|(m & ->)]; simpl; [|reflexivity].
      now rewrite (nothing_held_nothing_returned l Hf). }
    split; [exact Hres|].
    destruct (stopped_run w self folder) as (t & Et & Hs & _); [|eauto].
    right; right. exists None. now split.
  - intros l item0 others Hl Hf.
    assert (Hres : resolve (lookup w folder) = Ret (Some (file_id item0))).
    { rewrite Hl. simpl. now rewrite Hf. }
    split; [exact Hres|]. split.
    + intros Hne Hready Hactive.
      destruct (loaded_of_active w self Hactive) as (p & ps & Hps).
      destruct (run_daily_check w self folder []) as [r t] eqn:Er.
      pose proof (run_daily_check_spec _ _ _ _ _ Er) as H.
      rewrite Hready, Hps, Hres in H.
      assert (Ht : Py.truthy (Some (file_id item0)) = true).
      { simpl. destruct (String.eqb_spec (file_id item0) "");
          [contradiction|reflexivity]. }
      rewrite Ht in H. cbn [get] in H.
      destruct H as (k & news & _ & _ & _ & _ & Hr).
      destruct r as [[|s]|x].
      * contradiction.
      * destruct Hr as (-> & Hd & _).
        exists (Ret (Completed s)), t, (length ps).
        split; [reflexivity|]. split; [discriminate|].
        now apply (listing_queries_of_calls _ folder).
      * destruct Hr as (_ & _ & _ & Hd).
        exists (Raise x), t, k.
        split; [reflexivity|]. split; [discriminate|].
        now apply (listing_queries_of_calls _ folder).
    + intros Hempty.
      destruct (stopped_run w self folder) as (t & Et & Hs & _); [|eauto].
      right; right. exists (Some (file_id item0)). split; [exact Hres|].
      now rewrite Hempty.
Qed.

Lemma folder_resolution_takes_first_match_witness :
  fst (get_drive_folder_id Example.no_folder "Survey Uploads" []) = Ret None /\
  fst (get_drive_folder_id Example.two_folders "Survey Uploads" []) =
    Ret (Some "F1") /\
  (exists r t n,
     run_daily_check Example.two_folders Example.system "Survey Uploads" [] = (r, t) /\
     r <> Ret Aborted /\
     listing_queries t = repeat (uploads_query "F1" "2025-03-07") (S n)) /\
  (exists t,
     run_daily_check Cases.blank_identifier Example.system "Survey Uploads" [] =
       (Ret Aborted, t) /\ sends t = []).
Proof.
  split; [|split; [|split]].
  - apply (proj1 (folder_resolution_takes_first_match Example.no_folder
                    Example.system "Survey Uploads")).
    left. eexists. split; reflexivity.
  - apply (proj2 (folder_resolution_takes_first_match Example.two_folders
                    Example.system "Survey Uploads")
             (mkListing (mkPage (Some [Example.survey_folder; Example.other_folder])) [])
             Example.survey_folder [Example.other_folder]); reflexivity.
  - apply (proj2 (folder_resolution_takes_first_match Example.two_folders
                    Example.system "Survey Uploads")
             (mkListing (mkPage (Some [Example.survey_folder; Example.other_folder])) [])
             Example.survey_folder [Example.other_folder]); try reflexivity.
    + discriminate.
    + exists Example.roster, (mkRow "a@x.com" "A" 1).
      split; [reflexivity|]. split; [|split; [simpl; auto|reflexivity]].
      simpl. intros col [<-|[<-|[<-|[]]]]; auto.
  - apply (proj2 (folder_resolution_takes_first_match Cases.blank_identifier
                    Example.system "Survey Uploads")
             (mkListing (mkPage (Some [Cases.blank_folder; Example.survey_folder])) [])
             Cases.blank_folder [Example.survey_folder]); reflexivity.
Defined.

(** C9 as stated fails: two folders carry the monitored name, folder
    resolution returns the identifier of the first and the run goes
    through. *)
Lemma ambiguous_folder_resolves_to_first_match :
  length (records_returned (lookup Example.two_folders "Survey Uploads")) = 2 /\
  fst (get_drive_folder_id Example.two_folders "Survey Uploads" []) =
    Ret (Some "F1") /\
  fst (run_daily_check Example.two_folders Example.system "Survey Uploads" []) =
    Ret (Completed (mkRunSummary 1 1 2)).
Proof. repeat split; vm_compute; reflexivity. Qed.

(* ================================================================= *)
(** ** A failing listing query *)

(** C10.  When the listing call made for a participant raises
    [HttpError], [check_files_uploaded_today] logs the error and returns
    [False] instead of raising, and the turn of the loop goes on to hand a
    reminder for that participant to the mail service, although no record
    was inspected. *)
Theorem listing_error_counts_as_no_upload w self fid p c t m :
  answer w fid (length (drive_calls t)) = Raise (HttpError m) ->
  check_files_uploaded_today w fid (email p) t =
    (Ret false,
     t ++ [ FilesList (uploads_query fid (strftime_Ymd (now w))) uploads_fields;
            Log ERROR (Py.fstr ["An error occurred while checking files: "; m]) ]) /\
  exists c' t',
    check_participant w self fid p c t = (Ret c', t') /\
    classified_reminded w (app_config self) p c c' t t'.
Proof.
  intros Ha. split.
  - rewrite check_files_uploaded_today_eq, Ha. reflexivity.
  - rewrite check_participant_eq, Ha. cbn [uncaught].
    change (found (Raise (HttpError m)) (email p)) with false. cbv iota.
    eexists _, _. split; [reflexivity|]. split.
    + destruct (mail_send w _ _); reflexivity.
    + eexists _, _. rewrite <- app_assoc. split; [reflexivity|]. split.
      * rewrite sends_app, sends_check_events. cbn [app].
        unfold no_upload_line. rewrite sends_log.
        apply sends_dispatch_events.
      * apply in_or_app. right. simpl. auto.
Qed.

Lemma listing_error_counts_as_no_upload_witness :
  fst (check_files_uploaded_today Example.drive_failing "F1" "a@x.com" []) =
    Ret false /\
  exists c' t',
    check_participant Example.drive_failing Example.system "F1"
      Example.participant_a (mkCounters 0 0) [] = (Ret c', t') /\
    classified_reminded Example.drive_failing Example.cfg Example.participant_a
      (mkCounters 0 0) c' [] t'.
Proof.
  destruct (listing_error_counts_as_no_upload
              Example.drive_failing Example.system "F1" Example.participant_a
              (mkCounters 0 0) [] "503 backend error" eq_refl)
    as (Hc & Hp).
  split; [|exact Hp].
  change (email Example.participant_a) with "a@x.com" in Hc.
  now rewrite Hc.
Defined.

(* ================================================================= *)
(** ** Start-up and the scheduler loop *)

Lemma run_without_drive_service w self folder :
  drive_service self = false ->
  exists t, run_daily_check w self folder [] = (Ret Aborted, t) /\ sends t = [].
Proof.
  intros H. destruct (run_daily_check w self folder []) as [r t] eqn:E.
  apply run_daily_check_spec in E. unfold ready in E. rewrite H in E.
  destruct E as (-> & Hs & _). eauto.
Qed.

Lemma scheduler_without_drive_service self folder :
  drive_service self = false ->
  forall polls t0, exists st t,
    scheduler_loop self folder polls t0 = (Ret st, t) /\ sends t = sends t0.
Proof.
  intros H. induction polls as [|[|w|] polls IH]; intros t0.
  - exists Polling, t0. split; reflexivity.
  - apply IH.
  - destruct (run_without_drive_service w self folder H) as (t & E & Hs).
    rewrite (scheduler_loop_due self folder w polls t0 Aborted t E).
    destruct (IH (t0 ++ t)) as (st & t' & E' & Hs').
    exists st, t'. split; [exact E'|].
    now rewrite Hs', sends_app, Hs, app_nil_r.
  - eexists Stopped, _. split; [reflexivity|].
    now rewrite sends_app, app_nil_r.
Qed.

Lemma main_eq s polls :
  main s polls =
  match ImprovedDailyReminderSystem s [] with
  | (Ret self, t) =>
      match start_scheduler self "01:00" "Survey Uploads" polls t with
      | (Ret Polling, t') => (Scheduling, t')
      | (Ret Stopped, t') => (Exited 0, t')
      | (Raise e, t') => (Exited 1, t' ++ [startup_error_line e])
      end
  | (Raise e, t) => (Exited 1, t ++ [startup_error_line e])
  end.
Proof.
  unfold main, bind.
  destruct (ImprovedDailyReminderSystem s []) as [[self|e] t]; reflexivity.
Qed.

Lemma setup_google_services_unusable s token t :
  credentials_unusable s token ->
  exists msg,
    setup_google_services s token t = (Ret false, t ++ [Log ERROR msg]).
Proof.
  unfold setup_google_services, try_except, bind, lift, logger, emit, ret.
  intros [Hp|c Hp Hc Hv Hr|c m Hp Hc Hok Hb].
  - rewrite Hp. eauto.
  - rewrite Hp, Hc, Hv, Hr. eauto.
  - rewrite Hp, Hc, Hb.
    destruct Hok as [Hv|[Hr Hrf]].
    + rewrite Hv. simpl. eauto.
    + rewrite Hr, Hrf. destruct (valid c); simpl; eauto.
Qed.

Lemma start_scheduler_without_drive_service self check_time folder polls t0 :
  drive_service self = false ->
  exists st t, start_scheduler self check_time folder polls t0 = (Ret st, t).
Proof.
  intros H. unfold start_scheduler.
  rewrite !bind_logger.
  destruct (scheduler_without_drive_service self folder H polls
              (((((t0 ++ [Log INFO (Py.fstr ["Daily check scheduled for: "; check_time])])
                  ++ [Log INFO (Py.fstr ["Monitoring folder: "; folder])])
                 ++ [Log INFO (Py.fstr ["Email sender: ";
                                        MAIL_DEFAULT_SENDER (app_config self)])])
                ++ [Log INFO rule50])
               ++ [Log INFO "Press Ctrl+C to stop the scheduler"]))
    as (st & t & E & _).
  exists st, t. exact E.
Qed.

Lemma setup_google_services_raises s token e t :
  credentials_raise s token e ->
  setup_google_services s token t = (Raise e, t).
Proof.
  unfold setup_google_services, try_except, bind, lift, logger, emit, ret.
  intros [Hp Hc|c Hp Hc Hv Hr Hrf|c Hp Hc Hok Hb Hne].
  - now rewrite Hp, Hc.
  - now rewrite Hp, Hc, Hv, Hr, Hrf.
  - rewrite Hp, Hc, Hb.
    destruct Hok as [Hv|[Hr Hrf]].
    + rewrite Hv. destruct e; try reflexivity. now destruct (Hne msg).
    + rewrite Hr, Hrf.
      destruct (valid c); destruct e; try reflexivity; now destruct (Hne msg).
Qed.

(** C8, as the code has it.  A set-up step that raises an exception is
    fatal: [main] logs it and the process exits with code 1 without
    entering the scheduler loop; so it is for a token file that cannot be
    read, a token refresh that fails, and a service build that fails
    otherwise than by an HTTP error.  Unusable Drive credentials that raise
    nothing (no token file, credentials neither valid nor refreshable, a
    service build refused with an HTTP error) are logged by
    [setup_google_services] and are not fatal: the system is built without
    a Drive service, the process enters the scheduler loop and never exits
    with code 1, and every run stops at its first guard with nothing
    sent. *)
Theorem startup_failure_outcomes s polls :
  (forall e t,
     ImprovedDailyReminderSystem s [] = (Raise e, t) ->
     main s polls =
       (Exited 1,
        t ++ [Log ERROR (Py.fstr ["Failed to start daily reminder system: ";
                                  exn_str e])])) /\
  (forall cfg t1 e,
     credentials_raise s "token.json" e ->
     setup_flask_app s [] = (Ret cfg, t1) ->
     main s polls =
       (Exited 1,
        t1 ++ [Log ERROR (Py.fstr ["Failed to start daily reminder system: ";
                                   exn_str e])])) /\
  (forall cfg t1,
     credentials_unusable s "token.json" ->
     setup_flask_app s [] = (Ret cfg, t1) ->
     let self := mkSystem "participants.xlsx" "token.json" false cfg in
     (exists msg,
        ImprovedDailyReminderSystem s [] = (Ret self, t1 ++ [Log ERROR msg])) /\
     (fst (main s polls) = Scheduling \/ fst (main s polls) = Exited 0) /\
     (forall w folder, exists t,
        run_daily_check w self folder [] = (Ret Aborted, t) /\ sends t = [])).
Proof.
  split; [|split].
  - intros e t E. rewrite main_eq, E. reflexivity.
  - intros cfg t1 e Hcred Hflask.
    assert (E : ImprovedDailyReminderSystem s [] = (Raise e, t1)).
    { unfold ImprovedDailyReminderSystem.
      rewrite (bind_ret_eq _ _ _ _ _ Hflask).
      now rewrite (bind_raise_eq _ _ _ _ _
                     (setup_google_services_raises s "token.json" e t1 Hcred)). }
    rewrite main_eq, E. reflexivity.
  - intros cfg t1 Hcred Hflask self.
    destruct (setup_google_services_unusable s "token.json" t1 Hcred)
      as (msg & Hg).
    assert (E : ImprovedDailyReminderSystem s [] = (Ret self, t1 ++ [Log ERROR msg])).
    { unfold ImprovedDailyReminderSystem.
      rewrite (bind_ret_eq _ _ _ _ _ Hflask).
      rewrite (bind_ret_eq _ _ _ _ _ Hg). reflexivity. }
    split; [now exists msg|]. split.
    + rewrite main_eq, E.
      destruct (start_scheduler_without_drive_service self "01:00"
                  "Survey Uploads" polls (t1 ++ [Log ERROR msg]) eq_refl)
        as (st & t & Es).
      rewrite Es. destruct st; cbn [fst]; auto.
    + intros w folder. now apply run_without_drive_service.
Qed.

Lemma startup_failure_outcomes_witness :
  fst (main Example.broken_token [Due Example.spec_example]) = Exited 1 /\
  (fst (main Example.nothing_set_up [Due Example.spec_example]) = Scheduling \/
   fst (main Example.nothing_set_up [Due Example.spec_example]) = Exited 0).
Proof.
  split.
  - rewrite (proj1 (proj2 (startup_failure_outcomes Example.broken_token
                             [Due Example.spec_example]))
               Example.no_mail_cfg
               (snd (setup_flask_app Example.broken_token []))
               (ValueError "Invalid token file")
               (token_unreadable Example.broken_token "token.json" _
                  eq_refl eq_refl)
               eq_refl).
    reflexivity.
  - apply (proj2 (proj2 (startup_failure_outcomes Example.nothing_set_up
                           [Due Example.spec_example]))
             Example.no_mail_cfg
             (snd (setup_flask_app Example.nothing_set_up []))).
    + apply token_missing. reflexivity.
    + reflexivity.
Defined.

(** C8 as stated fails: without [token.json] the missing set-up is logged,
    but the process enters the scheduler loop, runs the daily check (which
    stops at its first guard), and ends with code 0 on an interrupt. *)
Lemma missing_credentials_are_not_fatal :
  path_exists Example.nothing_set_up "token.json" = false /\
  In (Log ERROR
        "Please run the setup_oauth.py script first to authenticate with Google APIs")
     (snd (main Example.nothing_set_up [])) /\
  fst (main Example.nothing_set_up []) = Scheduling /\
  fst (main Example.nothing_set_up [Due Example.spec_example]) = Scheduling /\
  In (Log ERROR "Google Drive service not initialized. Exiting.")
     (snd (main Example.nothing_set_up [Due Example.spec_example])) /\
  fst (main Example.nothing_set_up [Due Example.spec_example; Interrupt]) =
    Exited 0.
Proof.
  split; [reflexivity|]. split.
  - vm_compute. tauto.
  - split; [reflexivity|]. split; [reflexivity|]. split.
    + vm_compute. tauto.
    + reflexivity.
Qed.

(* ================================================================= *)
(** ** email_utils.py: what a dispatch does in every case *)

(** X1.  [send_email] never raises: it hands exactly one message to the
    mail service, addressed to the one recipient, with the subject, the
    body and the configured sender, touches nothing else, and its value is
    [True] exactly when the mail service raised nothing. *)
Theorem send_email_always_returns w cfg recipient subj bdy t :
  exists ok evs outcome,
    send_email w cfg recipient subj bdy t = (Ret ok, t ++ evs) /\
    sends evs =
      [(mkMessage subj [recipient] bdy (MAIL_DEFAULT_SENDER cfg), outcome)] /\
    drive_calls evs = [] /\
    (ok = true <-> outcome = None).
Proof.
  rewrite send_email_eq.
  destruct (mail_send w _ _) as [e|].
  - eexists false, _, (Some e). split; [reflexivity|].
    repeat split; try reflexivity; discriminate.
  - eexists true, _, None. split; [reflexivity|].
    repeat split; reflexivity.
Qed.

(* ================================================================= *)
(** ** The Upload Checker on unusual answers *)

Lemma lower_empty e : Py.lower e = "" -> e = "".
Proof. destruct e; [reflexivity|discriminate]. Qed.

(** X2.  The check reads the participant's identity only through its
    lower-case form: two spellings to which Python's [str.lower] gives the
    same value get the same answer from the check, whatever the Drive
    returns. *)
Theorem check_same_lower_case_form (lower : string -> string) w fid e e' t :
  lower e = lower e' ->
  fst (check_files_uploaded_today_with lower w fid e t) =
  fst (check_files_uploaded_today_with lower w fid e' t).
Proof.
  intros H. rewrite !check_files_uploaded_today_with_eq. cbn [fst].
  destruct (answer w fid (length (drive_calls t))) as [l|x]; [|reflexivity].
  unfold found_with, uploaded_by_with, owner_matches_with. now rewrite H.
Qed.

Lemma check_same_lower_case_form_witness :
  fst (check_files_uploaded_today_with Py.lower Example.spec_example "F1"
         "a@x.com" []) =
  fst (check_files_uploaded_today_with Py.lower Example.spec_example "F1"
         "A@x.COM" []).
Proof.
  apply check_same_lower_case_form. reflexivity.
Defined.

(** X3.  Records that name no owner address never count for a participant
    with a non-empty identity: when every owner entry of every file
    returned lacks [emailAddress] (files without an [owners] key and an
    answer without a [files] key included), the check answers [False]. *)
Theorem records_without_owner_address_match_nobody w fid e t l :
  answer w fid (length (drive_calls t)) = Ret l ->
  e <> "" ->
  (forall f o, In f (get (files (results_page l)) []) ->
               In o (get (owners f) []) -> emailAddress o = None) ->
  fst (check_files_uploaded_today w fid e t) = Ret false.
Proof.
  intros Ha He Hnone.
  rewrite check_files_uploaded_today_eq, Ha. cbn [fst]. f_equal.
  destruct (found (Ret l) e) eqn:Hf; [|reflexivity].
  apply found_iff in Hf as (f & Hin & o & Ho & Heq).
  rewrite (Hnone f o Hin Ho) in Heq. apply lower_eq_iff in Heq.
  simpl in Heq. symmetry in Heq. apply lower_empty in Heq. contradiction.
Qed.

Lemma records_without_owner_address_match_nobody_witness :
  fst (check_files_uploaded_today More.unowned_uploads "F1" "a@x.com" []) =
  Ret false.
Proof.
  apply (records_without_owner_address_match_nobody More.unowned_uploads "F1"
           "a@x.com" []
           (mkListing (mkPage (Some [More.orphan; More.anonymous])) [])).
  - reflexivity.
  - discriminate.
  - intros f o [<-|[<-|[]]]; simpl; [contradiction|].
    intros [<-|[]]. reflexivity.
Defined.

(** X4.  The answer of the check depends on which records are returned,
    not on their order or number of copies, and more records never lose a
    match: if every record of one answer occurs in another, a participant
    found in the first is found in the second. *)
Theorem check_monotone_in_records w w' fid fid' e t t' l l' :
  answer w fid (length (drive_calls t)) = Ret l ->
  answer w' fid' (length (drive_calls t')) = Ret l' ->
  incl (get (files (results_page l)) []) (get (files (results_page l')) []) ->
  fst (check_files_uploaded_today w fid e t) = Ret true ->
  fst (check_files_uploaded_today w' fid' e t') = Ret true.
Proof.
  intros Ha Ha' Hincl.
  rewrite !check_files_uploaded_today_eq, Ha, Ha'. cbn [fst].
  intros H. injection H as H. f_equal.
  apply found_iff in H as (f & Hin & Hf).
  apply found_iff. exists f. split; [now apply Hincl|exact Hf].
Qed.

Lemma check_monotone_in_records_witness :
  fst (check_files_uploaded_today More.busy_uploads "F1" "a@x.com" []) =
  Ret true.
Proof.
  apply (check_monotone_in_records Example.spec_example More.busy_uploads
           "F1" "F1" "a@x.com" [] []
           (mkListing (mkPage (Some [Example.diary_of_a])) [])
           (mkListing (mkPage (Some [Example.notes_of_z; More.orphan;
                                     Example.diary_of_a])) []));
    try reflexivity.
  intros f [<-|[]]. simpl. auto.
Defined.

(* ================================================================= *)
(** ** What a run touches *)

(** X5.  When the Drive service is missing, or the mail user name is
    absent or empty, a run does nothing but log: the roster is not read,
    the Drive is not called, nothing is sent; its whole trace is the three
    heading lines and one error line.  The mail password plays no part in
    this guard. *)
Theorem unready_run_only_logs w self folder :
  ready self = false ->
  exists line,
    run_daily_check w self folder [] =
      (Ret Aborted,
       [ Log INFO rule70;
         Log INFO (Py.fstr ["Running daily reminder check at ";
                            strftime_YmdHMS (now w)]);
         Log INFO rule70;
         Log ERROR line ]).
Proof.
  unfold ready, run_daily_check. intros H.
  do 3 rewrite bind_logger; cbv beta.
  destruct (drive_service self); cbn [negb andb] in *.
  - rewrite H. cbn [negb]. rewrite bind_logger. eexists. reflexivity.
  - rewrite bind_logger. eexists. reflexivity.
Qed.

Lemma unready_run_only_logs_witness :
  (exists line,
     run_daily_check Example.spec_example More.blank_mail_user "Survey Uploads" []
     = (Ret Aborted,
        [ Log INFO rule70;
          Log INFO "Running daily reminder check at 2025-03-07 01:00:05";
          Log INFO rule70;
          Log ERROR line ])).
Proof.
  exact (unready_run_only_logs Example.spec_example More.blank_mail_user
           "Survey Uploads" eq_refl).
Defined.

(** X6.  An exception of the folder lookup other than [HttpError] is not
    caught: it leaves [run_daily_check] with nothing sent and no listing
    query issued. *)
Theorem lookup_exception_leaves_the_run w self folder x p ps :
  ready self = true ->
  loaded (read_excel w (participants_file self)) = p :: ps ->
  lookup w folder = Raise x ->
  (forall m, x <> HttpError m) ->
  exists t,
    run_daily_check w self folder [] = (Raise x, t) /\
    sends t = [] /\ drive_calls t = [folder_call folder].
Proof.
  intros Hready Hps Hl Hx.
  destruct (run_daily_check w self folder []) as [r t] eqn:E.
  pose proof (run_daily_check_spec _ _ _ _ _ E) as H.
  rewrite Hready, Hps, Hl in H.
  assert (Hres : resolve (Raise x) = Raise x).
  { destruct x; try reflexivity. now destruct (Hx msg). }
  rewrite Hres in H. destruct H as (-> & Hs & Hd).
  exists t. repeat split; trivial.
Qed.

Lemma lookup_exception_leaves_the_run_witness :
  exists t,
    run_daily_check More.lookup_breaks Example.system "Survey Uploads" [] =
      (Raise (OtherException "timed out"), t) /\
    sends t = [].
Proof.
  destruct (lookup_exception_leaves_the_run More.lookup_breaks Example.system
              "Survey Uploads" (OtherException "timed out")
              Example.participant_a [Example.participant_b]
              eq_refl eq_refl eq_refl)
    as (t & E & Hs & _).
  - discriminate.
  - exists t. split; assumption.
Defined.



(** X8.  The external calls of a run are bounded by the roster: whatever
    happens, a run makes at most one Drive call more than there are
    participants loaded, hands at most one message per participant to the
    mail service, and the participants loaded are no more than the rows of
    the spreadsheet. *)
Theorem run_call_bounds w self folder :
  let t := snd (run_daily_check w self folder []) in
  let ps := loaded (read_excel w (participants_file self)) in
  length (drive_calls t) <= 1 + length ps /\
  length (sends t) <= length ps /\
  (forall t0, fst (load_participants w self t0) = Ret ps) /\
  (forall df, read_excel w (participants_file self) = Ret df ->
              length ps <= length (rows df)).
Proof.
  intros t ps. subst t.
  assert (Hload : forall t0, fst (load_participants w self t0) = Ret ps).
  { intros t0. destruct (load_participants_eq w self t0) as (evs & E & _).
    now rewrite E. }
  assert (Hrows : forall df, read_excel w (participants_file self) = Ret df ->
                             length ps <= length (rows df)).
  { intros df Hdf. subst ps. rewrite Hdf. unfold loaded.
    destruct (has_required_columns df); [|simpl; lia].
    rewrite length_map. apply filter_length_le. }
  destruct (run_daily_check w self folder []) as [r t] eqn:E. cbn [snd].
  apply run_daily_check_spec in E. fold ps in E.
  assert (Hsmall : sends t = [] ->
            (drive_calls t = [] \/ drive_calls t = [folder_call folder]) ->
            length (drive_calls t) <= 1 + length ps /\
            length (sends t) <= length ps).
  { intros -> [-> | ->]; simpl; lia. }
  assert (Hgoal : length (drive_calls t) <= 1 + length ps /\
                  length (sends t) <= length ps).
  { destruct (ready self); [|destruct E as (_ & Hs & Hd); auto].
    destruct ps as [|p0 ps0] eqn:Eps; [destruct E as (_ & Hs & Hd); auto|].
    rewrite <- Eps in *.
    destruct (resolve (lookup w folder)) as [o|x];
      [|destruct E as (_ & Hs & Hd); auto].
    destruct (Py.truthy o); [|destruct E as (_ & Hs & Hd); auto].
    destruct E as (k & news & Hk & _ & Hs & Hn & Hr).
    assert (Hnews : length news <= k).
    { apply (f_equal (@length _)) in Hn. rewrite !length_map in Hn.
      rewrite Hn. etransitivity; [apply filter_length_le|].
      rewrite length_firstn. apply Nat.le_min_l. }
    rewrite Hs. split; [|lia].
    destruct r as [[|s]|x].
    - contradiction.
    - destruct Hr as (_ & -> & _). simpl. rewrite repeat_length. lia.
    - destruct Hr as (Hlt & _ & _ & ->). simpl. rewrite repeat_length. lia. }
  tauto.
Qed.




(* ================================================================= *)
(** ** The scheduler loop and the end of the process *)

Lemma scheduler_loop_effective self folder polls :
  forall t, scheduler_loop self folder polls t =
            scheduler_loop self folder (effective polls) t.
Proof.
  induction polls as [|[|w|] polls IH]; intros t; cbn [effective].
  - reflexivity.
  - cbn [scheduler_loop]. apply IH.
  - cbn [scheduler_loop]. unfold bind.
    destruct (in_fresh_trace _ t) as [[r|e] t']; [apply IH|reflexivity].
  - reflexivity.
Qed.

Lemma start_scheduler_effective self check_time folder polls t :
  start_scheduler self check_time folder polls t =
  start_scheduler self check_time folder (effective polls) t.
Proof.
  unfold start_scheduler. rewrite !bind_logger.
  apply scheduler_loop_effective.
Qed.

(** X10.  Polls at which nothing is due leave no trace, and nothing that
    comes after the first interrupt is looked at: the process behaves on a
    list of polls as on its due polls up to the first interrupt. *)
Theorem main_sees_effective_polls s polls :
  main s polls = main s (effective polls).
Proof.
  rewrite !main_eq.
  destruct (ImprovedDailyReminderSystem s []) as [[self|e] t]; [|reflexivity].
  now rewrite start_scheduler_effective.
Qed.

Lemma scheduler_loop_returning self folder polls :
  Forall (returns self folder) polls ->
  forall t, exists t',
    scheduler_loop self folder polls t =
      (Ret (if existsb is_interrupt polls then Stopped else Polling), t').
Proof.
  induction 1 as [|p polls Hp _ IH]; intros t.
  - exists t. reflexivity.
  - destruct p as [|w|]; cbn [existsb is_interrupt orb].
    + cbn [scheduler_loop]. apply IH.
    + destruct Hp as (r & tr & E).
      rewrite (scheduler_loop_due self folder w polls t r tr E). apply IH.
    + cbn [scheduler_loop]. rewrite bind_logger. eexists. reflexivity.
Qed.

(** X11.  Runs that return, completed or aborted, never end the process:
    once the system is constructed, if every due run returns, the process
    is still scheduling after the polls, or has exited with code 0 when an
    interrupt was among them; it has not exited with code 1. *)
Theorem returning_runs_never_end_the_process s self t0 polls :
  ImprovedDailyReminderSystem s [] = (Ret self, t0) ->
  Forall (returns self "Survey Uploads") polls ->
  fst (main s polls) =
    if existsb is_interrupt polls then Exited 0 else Scheduling.
Proof.
  intros E Hret. rewrite main_eq, E.
  unfold start_scheduler. rewrite !bind_logger.
  match goal with |- context [scheduler_loop _ _ _ ?t] =>
    destruct (scheduler_loop_returning self "Survey Uploads" polls Hret t)
      as (t' & ->) end.
  destruct (existsb is_interrupt polls); reflexivity.
Qed.

Lemma scheduler_loop_app self folder pre rest :
  forall t t',
    scheduler_loop self folder pre t = (Ret Polling, t') ->
    scheduler_loop self folder (pre ++ rest) t =
    scheduler_loop self folder rest t'.
Proof.
  induction pre as [|[|w|] pre IH]; intros t t' H.
  - injection H as <-. reflexivity.
  - cbn [scheduler_loop app] in *. now apply IH.
  - cbn [scheduler_loop app] in *. unfold bind in *.
    destruct (in_fresh_trace _ t) as [[r|e] t1]; [now apply IH|discriminate].
  - cbn [scheduler_loop] in H. rewrite bind_logger in H. discriminate.
Qed.

Lemma main_scheduling s self t0 pre :
  ImprovedDailyReminderSystem s [] = (Ret self, t0) ->
  fst (main s pre) = Scheduling ->
  start_scheduler self "01:00" "Survey Uploads" pre t0 =
    (Ret Polling, snd (main s pre)).
Proof.
  intros E. rewrite main_eq, E.
  destruct (start_scheduler self "01:00" "Survey Uploads" pre t0)
    as [[[|]|e] t1]; cbn [fst snd]; intros H; try discriminate.
  reflexivity.
Qed.

(** X12.  A run that raises ends the process: when the process is still
    scheduling after some polls and the run of the next due poll raises,
    [main] logs the failure as its last line and exits with code 1; the
    polls that follow are not looked at. *)
Theorem raising_run_ends_the_process s self t0 pre w post x t :
  ImprovedDailyReminderSystem s [] = (Ret self, t0) ->
  fst (main s pre) = Scheduling ->
  run_daily_check w self "Survey Uploads" [] = (Raise x, t) ->
  main s (pre ++ Due w :: post) =
    (Exited 1,
     snd (main s pre) ++ t ++
     [Log ERROR (Py.fstr ["Failed to start daily reminder system: "; exn_str x])]).
Proof.
  intros E Hpre Hrun.
  pose proof (main_scheduling s self t0 pre E Hpre) as Hs.
  rewrite main_eq, E.
  unfold start_scheduler in *. rewrite !bind_logger in *.
  rewrite (scheduler_loop_app _ _ _ _ _ _ Hs).
  cbn [scheduler_loop]. unfold bind, in_fresh_trace. rewrite Hrun.
  unfold startup_error_line. now rewrite <- app_assoc.
Qed.

Lemma returning_runs_never_end_the_process_witness :
  fst (main More.all_set_up
         [Due Example.spec_example; NotDue; Due Example.no_roster; Interrupt])
  = Exited 0.
Proof.
  rewrite (returning_runs_never_end_the_process More.all_set_up Example.system
             (snd (ImprovedDailyReminderSystem More.all_set_up []))).
  - reflexivity.
  - reflexivity.
  - repeat constructor; simpl; eexists _, _; vm_compute; reflexivity.
Defined.

Lemma raising_run_ends_the_process_witness :
  fst (main More.all_set_up
         ([Due Example.spec_example] ++ Due More.lookup_breaks ::
          [Due Example.spec_example; Interrupt]))
  = Exited 1.
Proof.
  rewrite (raising_run_ends_the_process More.all_set_up Example.system
             (snd (ImprovedDailyReminderSystem More.all_set_up []))
             [Due Example.spec_example] More.lookup_breaks
             [Due Example.spec_example; Interrupt]
             (OtherException "timed out")
             (snd (run_daily_check More.lookup_breaks Example.system
                     "Survey Uploads" []))).
  - reflexivity.
  - reflexivity.
  - reflexivity.
  - reflexivity.
Defined.

(* ================================================================= *)
(** ** gmail_credentials.txt *)

Lemma split_lines_single a : no_newline a = true -> Py.split_lines a = [a].
Proof.
  induction a as [|c a IH]; simpl; [reflexivity|].
  intros H. apply andb_prop in H as [Hc Ha].
  apply negb_true_iff in Hc. rewrite Hc, (IH Ha). reflexivity.
Qed.

Lemma split_lines_line a b :
  no_newline a = true ->
  Py.split_lines (a ++ line_feed ++ b)%string = a :: Py.split_lines b.
Proof.
  unfold line_feed.
  induction a as [|c a IH]; simpl in *; [reflexivity|].
  intros H. apply andb_prop in H as [Hc Ha].
  apply negb_true_iff in Hc. rewrite Hc, (IH Ha). reflexivity.
Qed.

Lemma split_lines_head a rest :
  no_newline a = true ->
  rest = "" \/ (exists more, rest = (line_feed ++ more)%string) ->
  exists others, Py.split_lines (a ++ rest)%string = a :: others.
Proof.
  intros Ha [->|(more & ->)].
  - exists []. rewrite <- (split_lines_single a Ha). f_equal.
    clear Ha. induction a as [|c a IH]; simpl; [reflexivity|now rewrite IH].
  - eexists. now apply split_lines_line.
Qed.

(** X13.  Of [gmail_credentials.txt] the first two lines count and no
    other: when the content, stripped, starts with a line [a], a line
    feed and a line [b] (the end of the content or another line feed
    following), the user name becomes [a] stripped and the password [b]
    stripped, whatever comes after; the other settings stay as they were
    and one info line is logged.  [strip] is Python's [str.strip]. *)
Theorem credentials_file_first_two_lines (strip : string -> string)
    s cfg t content a b rest :
  open_read s "gmail_credentials.txt" = Ret content ->
  strip content = (a ++ line_feed ++ b ++ rest)%string ->
  no_newline a = true -> no_newline b = true ->
  rest = "" \/ (exists more, rest = (line_feed ++ more)%string) ->
  load_mail_config_from_file_with strip s cfg t =
    (Ret (with_password (with_username cfg (strip a)) (strip b)),
     t ++ [Log INFO "Email credentials loaded from file"]).
Proof.
  intros Hopen Hstrip Ha Hb Hrest.
  unfold load_mail_config_from_file_with. rewrite Hopen, Hstrip.
  rewrite (split_lines_line a _ Ha).
  destruct (split_lines_head b rest Hb Hrest) as (others & ->).
  reflexivity.
Qed.

Lemma credentials_file_first_two_lines_witness :
  load_mail_config_from_file_with Py.strip
    (Files.with_file Files.three_lines) Example.no_mail_cfg [] =
  (Ret Example.cfg, [Log INFO "Email credentials loaded from file"]).
Proof.
  apply (credentials_file_first_two_lines Py.strip
           (Files.with_file Files.three_lines) Example.no_mail_cfg []
           Files.three_lines
           ("lateowl-survey@gmail.com" ++ carriage_return)%string
           "app-password"
           (line_feed ++ "# kept for the record")%string);
    try reflexivity.
  right. eexists. reflexivity.
Defined.

(** X14.  A credentials file of a single line does not count as valid,
    yet its line is taken: when the content, stripped, holds no line
    feed, the user name of the configuration is replaced by that line
    (stripped once more), the password is left as it was, an error is
    logged and nothing is raised. *)
Theorem credentials_file_with_one_line (strip : string -> string)
    s cfg t content :
  open_read s "gmail_credentials.txt" = Ret content ->
  no_newline (strip content) = true ->
  load_mail_config_from_file_with strip s cfg t =
    (Ret (with_username cfg (strip (strip content))),
     t ++ [Log ERROR "Invalid format in gmail_credentials.txt"]).
Proof.
  intros Hopen Hline.
  unfold load_mail_config_from_file_with. rewrite Hopen.
  rewrite (split_lines_single _ Hline). reflexivity.
Qed.

Lemma credentials_file_with_one_line_witness :
  load_mail_config_from_file_with Py.strip (Files.with_file "  ") Example.cfg [] =
  (Ret (with_username Example.cfg ""),
   [Log ERROR "Invalid format in gmail_credentials.txt"]).
Proof.
  apply (credentials_file_with_one_line Py.strip (Files.with_file "  ")
           Example.cfg [] "  "); reflexivity.
Defined.

(* ================================================================= *)
(** ** The configuration of the mail service *)

Lemma setup_flask_app_eq s t :
  setup_flask_app s t =
  match env_port s with
  | Raise e => (Raise e, t)
  | Ret port =>
      let cfg0 := env_config s port in
      match (if negb (Py.truthy (MAIL_USERNAME cfg0))
                || negb (Py.truthy (MAIL_PASSWORD cfg0))
             then load_mail_config_from_file s cfg0 t
             else (Ret cfg0, t)) with
      | (Ret cfg, t') => (Ret cfg, t' ++ flask_lines cfg)
      | (Raise e, t') => (Raise e, t')
      end
  end.
Proof.
  unfold setup_flask_app, env_port, bind at 1.
  destruct (environ s "MAIL_PORT") as [v|].
  - destruct (Py.int v) as [n|]; [|reflexivity].
    unfold ret at 1. cbv beta iota zeta. fold (env_config s n).
    unfold bind at 1.
    destruct (negb _ || negb _).
    + destruct (load_mail_config_from_file s (env_config s n) t)
        as [[cfg|e] t']; [|reflexivity].
      rewrite !bind_logger. unfold ret, flask_lines. norm_trace. reflexivity.
    + unfold ret at 1. rewrite !bind_logger. unfold ret, flask_lines.
      norm_trace. reflexivity.
  - unfold ret at 1. cbv beta iota zeta. fold (env_config s 587%Z).
    unfold bind at 1.
    destruct (negb _ || negb _).
    + destruct (load_mail_config_from_file s (env_config s 587%Z) t)
        as [[cfg|e] t']; [|reflexivity].
      rewrite !bind_logger. unfold ret, flask_lines. norm_trace. reflexivity.
    + unfold ret at 1. rewrite !bind_logger. unfold ret, flask_lines.
      norm_trace. reflexivity.
Qed.

Lemma setup_flask_app_with_eq (strip : string -> string)
    (int : string -> result Z) s t :
  setup_flask_app_with strip int s t =
  match env_port_with int s with
  | Raise e => (Raise e, t)
  | Ret port =>
      let cfg0 := env_config s port in
      match (if negb (Py.truthy (MAIL_USERNAME cfg0))
                || negb (Py.truthy (MAIL_PASSWORD cfg0))
             then load_mail_config_from_file_with strip s cfg0 t
             else (Ret cfg0, t)) with
      | (Ret cfg, t') => (Ret cfg, t' ++ flask_lines cfg)
      | (Raise e, t') => (Raise e, t')
      end
  end.
Proof.
  assert (Hport : forall port,
    (let cfg0 := env_config s port in
     bind (if negb (Py.truthy (MAIL_USERNAME cfg0))
              || negb (Py.truthy (MAIL_PASSWORD cfg0))
           then load_mail_config_from_file_with strip s cfg0
           else ret cfg0)
       (fun cfg =>
          logger INFO "Flask app configured successfully" ;;;
          logger INFO (Py.fstr ["Email server: "; MAIL_SERVER cfg]) ;;;
          logger INFO (Py.fstr ["Email username: "; str_opt (MAIL_USERNAME cfg)]) ;;;
          ret cfg) t) =
    (let cfg0 := env_config s port in
     match (if negb (Py.truthy (MAIL_USERNAME cfg0))
               || negb (Py.truthy (MAIL_PASSWORD cfg0))
            then load_mail_config_from_file_with strip s cfg0 t
            else (Ret cfg0, t)) with
     | (Ret cfg, t') => (Ret cfg, t' ++ flask_lines cfg)
     | (Raise e, t') => (Raise e, t')
     end)).
  { intros port. cbv zeta. unfold bind at 1.
    destruct (negb _ || negb _).
    - destruct (load_mail_config_from_file_with strip s (env_config s port) t)
        as [[cfg|e] t']; [|reflexivity].
      rewrite !bind_logger. unfold ret, flask_lines. norm_trace. reflexivity.
    - unfold ret at 1. rewrite !bind_logger. unfold ret, flask_lines.
      norm_trace. reflexivity. }
  unfold setup_flask_app_with, env_port_with, bind at 1.
  destruct (environ s "MAIL_PORT") as [v|].
  - unfold lift. destruct (int v) as [n|e]; [|reflexivity].
    apply (Hport n).
  - unfold ret at 1. apply (Hport 587%Z).
Qed.

(** X15.  Credentials given in the environment win: when both
    [MAIL_USERNAME] and [MAIL_PASSWORD] are set to non-empty values and the
    port can be read, the configuration holds exactly the settings of the
    environment, whatever [gmail_credentials.txt] contains or whether it
    exists at all, and only the three lines of [setup_flask_app] are
    logged.  [strip] and [int] are Python's. *)
Theorem environment_credentials_win (strip : string -> string)
    (int : string -> result Z) s t port :
  Py.truthy (environ s "MAIL_USERNAME") = true ->
  Py.truthy (environ s "MAIL_PASSWORD") = true ->
  env_port_with int s = Ret port ->
  setup_flask_app_with strip int s t =
    (Ret (env_config s port),
     t ++ [ Log INFO "Flask app configured successfully";
            Log INFO (Py.fstr ["Email server: ";
                               get (environ s "MAIL_SERVER") "smtp.gmail.com"]);
            Log INFO (Py.fstr ["Email username: ";
                               str_opt (environ s "MAIL_USERNAME")]) ]).
Proof.
  intros Hu Hp Hport. rewrite setup_flask_app_with_eq, Hport.
  cbv zeta. cbn [MAIL_USERNAME MAIL_PASSWORD env_config].
  rewrite Hu, Hp. reflexivity.
Qed.

Lemma environment_credentials_win_witness :
  fst (setup_flask_app_with Py.strip int_or_raise More.all_set_up []) =
    Ret Example.cfg.
Proof.
  rewrite (environment_credentials_win Py.strip int_or_raise More.all_set_up
             [] 587%Z eq_refl eq_refl eq_refl).
  reflexivity.
Defined.

Lemma load_mail_config_keeps_settings (strip : string -> string) s cfg t cfg' t' :
  load_mail_config_from_file_with strip s cfg t = (Ret cfg', t') ->
  MAIL_SERVER cfg' = MAIL_SERVER cfg /\ MAIL_PORT cfg' = MAIL_PORT cfg /\
  MAIL_USE_TLS cfg' = MAIL_USE_TLS cfg /\
  MAIL_DEFAULT_SENDER cfg' = MAIL_DEFAULT_SENDER cfg.
Proof.
  unfold load_mail_config_from_file_with, bind, logger, emit, ret, raise.
  destruct (open_read s "gmail_credentials.txt") as [content|e].
  - destruct (nth_error _ 0); [destruct (nth_error _ 1)|];
      intros H; injection H as <- _; auto.
  - destruct e; intros H; try discriminate; injection H as <- _; auto.
Qed.

(** X16.  Server, port, TLS flag and sender never come from the
    credentials file: whenever [setup_flask_app] returns, the server and
    the sender are those of the environment or the built-in defaults, the
    port is the value [int] gives for [MAIL_PORT], or 587 when the variable
    is unset, and TLS is on exactly when [MAIL_USE_TLS] is unset or is the
    string [True] letter for letter. *)
Theorem settings_come_from_the_environment (strip : string -> string)
    (int : string -> result Z) s t cfg t' :
  setup_flask_app_with strip int s t = (Ret cfg, t') ->
  MAIL_SERVER cfg = get (environ s "MAIL_SERVER") "smtp.gmail.com" /\
  MAIL_DEFAULT_SENDER cfg =
    get (environ s "MAIL_DEFAULT_SENDER") "Survey Team <lateowl-survey@gmail.com>" /\
  env_port_with int s = Ret (MAIL_PORT cfg) /\
  (MAIL_USE_TLS cfg = true <->
   environ s "MAIL_USE_TLS" = None \/ environ s "MAIL_USE_TLS" = Some "True").
Proof.
  rewrite setup_flask_app_with_eq.
  destruct (env_port_with int s) as [port|e]; [|discriminate].
  cbv zeta.
  assert (Htls : MAIL_USE_TLS (env_config s port) = true <->
                 environ s "MAIL_USE_TLS" = None \/
                 environ s "MAIL_USE_TLS" = Some "True").
  { cbn [MAIL_USE_TLS env_config].
    destruct (environ s "MAIL_USE_TLS") as [v|]; cbn [get].
    - rewrite String.eqb_eq. split.
      + intros ->. now right.
      + intros [H|H]; [discriminate|now injection H].
    - split; [now left|reflexivity]. }
  destruct (negb _ || negb _).
  - destruct (load_mail_config_from_file_with strip s (env_config s port) t)
      as [[cfg1|e] t1] eqn:E; [|discriminate].
    intros H. injection H as <- _.
    apply load_mail_config_keeps_settings in E as (Hs & Hp & Ht & Hd).
    rewrite Hs, Hp, Ht, Hd. auto.
  - intros H. injection H as <- _. auto.
Qed.

Lemma settings_come_from_the_environment_witness :
  exists cfg,
    fst (setup_flask_app_with Py.strip int_or_raise
           Files.tls_in_small_letters []) = Ret cfg /\
    MAIL_USE_TLS cfg = false /\ MAIL_SERVER cfg = "smtp.gmail.com".
Proof.
  destruct (settings_come_from_the_environment Py.strip int_or_raise
              Files.tls_in_small_letters []
              (with_password (with_username
                 (env_config Files.tls_in_small_letters 587%Z)
                 "lateowl-survey@gmail.com") "app-password")
              (snd (setup_flask_app_with Py.strip int_or_raise
                      Files.tls_in_small_letters []))
              eq_refl)
    as (Hs & _ & _ & Ht).
  eexists. split; [reflexivity|]. split; [|exact Hs].
  destruct (MAIL_USE_TLS _) eqn:Hv; [|reflexivity].
  destruct (proj1 Ht eq_refl) as [H|H]; discriminate H.
Defined.

(** X17.  A [MAIL_PORT] for which [int()] raises is fatal before anything
    else happens: [main] exits with code 1 and the only line logged is the
    start-up failure with the message of that exception; no credentials
    are looked at, no run takes place. *)
Theorem malformed_port_is_fatal (lower strip : string -> string)
    (int : string -> result Z) s polls v e :
  environ s "MAIL_PORT" = Some v ->
  int v = Raise e ->
  main_with lower strip int s polls = (Exited 1, [startup_error_line e]).
Proof.
  intros Hv Hint. unfold main_with, ImprovedDailyReminderSystem_with.
  unfold bind at 1. unfold bind at 1.
  rewrite setup_flask_app_with_eq. unfold env_port_with. rewrite Hv, Hint.
  reflexivity.
Qed.

Lemma malformed_port_is_fatal_witness :
  main_with Py.lower Py.strip int_or_raise Files.bad_port
    [Due Example.spec_example] =
  (Exited 1,
   [startup_error_line
      (ValueError "invalid literal for int() with base 10: 'smtp'")]).
Proof.
  exact (malformed_port_is_fatal Py.lower Py.strip int_or_raise Files.bad_port
           [Due Example.spec_example] "smtp" _ eq_refl eq_refl).
Defined.

(* ================================================================= *)
(** ** Construction of the system *)

Lemma unready_run w self folder :
  ready self = false ->
  exists t,
    run_daily_check w self folder [] = (Ret Aborted, t) /\
    sends t = [] /\ drive_calls t = [].
Proof.
  intros H. destruct (run_daily_check w self folder []) as [r t] eqn:E.
  apply run_daily_check_spec in E. rewrite H in E.
  destruct E as (-> & Hs & Hd). eauto.
Qed.

Lemma unready_polls self folder polls :
  ready self = false -> Forall (returns self folder) polls.
Proof.
  intros H. apply Forall_forall. intros [|w|] _; simpl; trivial.
  destruct (unready_run w self folder H) as (t & E & _). eauto.
Qed.

Ltac appended :=
  first [ now (exists []; rewrite app_nil_r)
        | now (eexists; reflexivity)
        | now (eexists; rewrite <- app_assoc; reflexivity) ].

Lemma setup_google_services_appends s token t :
  exists evs, snd (setup_google_services s token t) = t ++ evs.
Proof.
  unfold setup_google_services, try_except, bind, lift, logger, emit, ret.
  destruct (path_exists s token); [|appended].
  destruct (from_authorized_user_file s token) as [c|e]; [|appended].
  destruct (valid c).
  - destruct (build s) as [[]|e]; [appended|destruct e; appended].
  - destruct (expired c && Py.truthy (refresh_token c)); [|appended].
    destruct (refresh s) as [[]|e]; [|appended].
    destruct (build s) as [[]|e]; [appended|destruct e; appended].
Qed.

Lemma constructor_config s self t0 :
  ImprovedDailyReminderSystem s [] = (Ret self, t0) ->
  exists t1 evs,
    setup_flask_app s [] = (Ret (app_config self), t1) /\ t0 = t1 ++ evs.
Proof.
  unfold ImprovedDailyReminderSystem, bind at 1.
  destruct (setup_flask_app s []) as [[cfg|e] t1]; [|discriminate].
  unfold bind.
  destruct (setup_google_services_appends s "token.json" t1) as (evs & Hevs).
  destruct (setup_google_services s "token.json" t1) as [[b|e] t2];
    [|discriminate].
  cbn [snd] in Hevs. unfold ret. intros H. injection H as <- <-.
  exists t1, evs. split; [reflexivity|exact Hevs].
Qed.

Lemma main_of_returning_polls s self t0 polls :
  ImprovedDailyReminderSystem s [] = (Ret self, t0) ->
  Forall (returns self "Survey Uploads") polls ->
  fst (main s polls) =
    if existsb is_interrupt polls then Exited 0 else Scheduling.
Proof.
  intros E Hret. rewrite main_eq, E.
  unfold start_scheduler. rewrite !bind_logger.
  match goal with |- context [scheduler_loop _ _ _ ?t] =>
    destruct (scheduler_loop_returning self "Survey Uploads" polls Hret t)
      as (t' & ->) end.
  destruct (existsb is_interrupt polls); reflexivity.
Qed.

(** X18.  Missing mail credentials are not fatal at start-up: with no
    usable [MAIL_USERNAME] in the environment and no
    [gmail_credentials.txt], the constructor logs the missing file and
    goes on; the system it builds keeps the user name of the environment,
    the process never exits with code 1, and every run stops at a guard
    without calling the Drive or sending anything. *)
Theorem missing_mail_credentials_are_not_fatal s self t0 m :
  Py.truthy (environ s "MAIL_USERNAME") = false ->
  open_read s "gmail_credentials.txt" = Raise (FileNotFoundError m) ->
  ImprovedDailyReminderSystem s [] = (Ret self, t0) ->
  In (Log ERROR "gmail_credentials.txt not found!") t0 /\
  MAIL_USERNAME (app_config self) = environ s "MAIL_USERNAME" /\
  (forall polls,
     fst (main s polls) =
       if existsb is_interrupt polls then Exited 0 else Scheduling) /\
  (forall w folder, exists t,
     run_daily_check w self folder [] = (Ret Aborted, t) /\
     sends t = [] /\ drive_calls t = []).
Proof.
  intros Hu Hopen E.
  destruct (constructor_config s self t0 E) as (t1 & evs & Hflask & ->).
  rewrite setup_flask_app_eq in Hflask.
  destruct (env_port s) as [port|e]; [|discriminate].
  cbv zeta in Hflask. cbn [MAIL_USERNAME env_config] in Hflask.
  rewrite Hu in Hflask. cbn [negb orb] in Hflask.
  unfold load_mail_config_from_file in Hflask. rewrite Hopen in Hflask.
  rewrite bind_logger in Hflask. unfold ret in Hflask.
  injection Hflask as Hcfg <-.
  assert (Hname : MAIL_USERNAME (app_config self) = environ s "MAIL_USERNAME")
    by now rewrite <- Hcfg.
  assert (Hready : ready self = false).
  { unfold ready. rewrite Hname, Hu. apply andb_false_r. }
  split; [|split; [exact Hname|split]].
  - apply in_or_app. left. simpl. auto.
  - intros polls.
    apply (main_of_returning_polls s self _ polls E).
    now apply unready_polls.
  - intros w folder. now apply unready_run.
Qed.

Lemma missing_mail_credentials_are_not_fatal_witness :
  fst (main Files.no_mail_credentials [Due Example.spec_example; Interrupt]) =
    Exited 0 /\
  exists t,
    run_daily_check Example.spec_example More.no_mail_user "Survey Uploads" [] =
      (Ret Aborted, t) /\ sends t = [] /\ drive_calls t = [].
Proof.
  destruct (missing_mail_credentials_are_not_fatal Files.no_mail_credentials
              More.no_mail_user
              (snd (ImprovedDailyReminderSystem Files.no_mail_credentials []))
              "gmail_credentials.txt" eq_refl eq_refl eq_refl)
    as (_ & _ & Hmain & Hrun).
  split.
  - exact (Hmain [Due Example.spec_example; Interrupt]).
  - exact (Hrun Example.spec_example "Survey Uploads").
Defined.

Lemma setup_google_services_usable s token t :
  credentials_usable s token ->
  setup_google_services s token t =
    (Ret true, t ++ [Log INFO "Google Drive service initialized successfully"]).
Proof.
  intros (Hp & c & Hc & Hok & Hb).
  unfold setup_google_services, try_except, bind, lift, logger, emit, ret.
  rewrite Hp, Hc, Hb.
  destruct Hok as [Hv|[Hr Hrf]].
  - now rewrite Hv.
  - rewrite Hr, Hrf. now destruct (valid c).
Qed.

(** The three states of the Drive credentials leave no fourth. *)
Lemma credentials_cases s token :
  credentials_usable s token \/ credentials_unusable s token \/
  exists e, credentials_raise s token e.
Proof.
  destruct (path_exists s token) eqn:Hp.
  2:{ right; left. now apply token_missing. }
  destruct (from_authorized_user_file s token) as [c|e] eqn:Hc.
  2:{ right; right. exists e. now apply token_unreadable. }
  assert (Hbuild :
    valid c = true \/
    (expired c && Py.truthy (refresh_token c) = true /\ refresh s = Ret tt) ->
    credentials_usable s token \/
    credentials_unusable s token \/ exists e, credentials_raise s token e).
  { intros Hok. destruct (build s) as [[]|e] eqn:Hb.
    - left. split; [exact Hp|]. exists c. auto.
    - assert (Hcase : (exists m, e = HttpError m) \/ forall m, e <> HttpError m).
      { destruct e; try (right; intros m; discriminate). left. eauto. }
      destruct Hcase as [[m ->]|Hne].
      + right; left. now apply (service_build_rejected s token c m).
      + right; right. exists e. now apply (service_build_failed s token e c). }
  destruct (valid c) eqn:Hv; [now apply Hbuild; left|].
  destruct (expired c && Py.truthy (refresh_token c)) eqn:Hr.
  2:{ right; left. now apply (token_not_refreshable s token c). }
  destruct (refresh s) as [[]|e] eqn:Hrf.
  - apply Hbuild. right. auto.
  - right; right. exists e. now apply (refresh_failed s token e c).
Qed.

(** X19.  [setup_google_services] ends in exactly one of three ways, each
    decided by the state of the credentials.  It returns with a Drive
    service, after one info line, if and only if the token file exists and
    can be read, its credentials are valid or are expired with a refresh
    token and refreshed with success, and the service builds.  It returns
    without a service, after one error line, if and only if the
    credentials are unusable: no token file, credentials neither valid
    nor refreshable, or a service build refused with [HttpError].  It
    raises [e], with nothing logged, if and only if reading the token
    file, the refresh, or a build failing otherwise than by [HttpError]
    raises [e]. *)
Theorem setup_google_services_outcomes s token t :
  (credentials_usable s token <->
   setup_google_services s token t =
     (Ret true, t ++ [Log INFO "Google Drive service initialized successfully"])) /\
  (credentials_usable s token <->
   exists t', setup_google_services s token t = (Ret true, t')) /\
  (credentials_unusable s token <->
   exists msg, setup_google_services s token t = (Ret false, t ++ [Log ERROR msg])) /\
  (credentials_unusable s token <->
   exists t', setup_google_services s token t = (Ret false, t')) /\
  (forall e,
     credentials_raise s token e <->
     setup_google_services s token t = (Raise e, t)) /\
  (forall e,
     credentials_raise s token e <->
     exists t', setup_google_services s token t = (Raise e, t')).
Proof.
  assert (Hcases : forall r t', setup_google_services s token t = (r, t') ->
            match r with
            | Ret true => credentials_usable s token
            | Ret false => credentials_unusable s token
            | Raise e => credentials_raise s token e
            end).
  { intros r t' E.
    destruct (credentials_cases s token) as [H|[H|[e H]]].
    - rewrite (setup_google_services_usable s token t H) in E.
      injection E as <- _. exact H.
    - destruct (setup_google_services_unusable s token t H) as (msg & E').
      rewrite E' in E. injection E as <- _. exact H.
    - rewrite (setup_google_services_raises s token e t H) in E.
      injection E as <- _. exact H. }
  split; [|split; [|split; [|split; [|split]]]].
  - split; [now apply setup_google_services_usable|].
    intros E. exact (Hcases _ _ E).
  - split.
    + intros H. eexists. now apply setup_google_services_usable.
    + intros (t' & E). exact (Hcases _ _ E).
  - split; [now apply setup_google_services_unusable|].
    intros (msg & E). exact (Hcases _ _ E).
  - split.
    + intros H.
      destruct (setup_google_services_unusable s token t H) as (msg & E).
      eauto.
    + intros (t' & E). exact (Hcases _ _ E).
  - intros e. split; [now apply setup_google_services_raises|].
    intros E. exact (Hcases _ _ E).
  - intros e. split.
    + intros H. exists t. now apply setup_google_services_raises.
    + intros (t' & E). exact (Hcases _ _ E).
Qed.

Lemma setup_google_services_outcomes_witness :
  setup_google_services Files.expired_token "token.json" [] =
    (Ret true, [Log INFO "Google Drive service initialized successfully"]) /\
  credentials_unusable Example.nothing_set_up "token.json" /\
  credentials_raise Example.broken_token "token.json"
    (ValueError "Invalid token file").
Proof.
  split; [|split].
  - apply (proj1 (proj1 (setup_google_services_outcomes
                           Files.expired_token "token.json" []))).
    split; [reflexivity|].
    exists (mkCredentials false true (Some "refresh-token")).
    split; [reflexivity|]. split; [|reflexivity].
    right. split; reflexivity.
  - apply (proj2 (proj1 (proj2 (proj2 (proj2 (setup_google_services_outcomes
                           Example.nothing_set_up "token.json" [])))))).
    exists [Log ERROR
              "Please run the setup_oauth.py script first to authenticate with Google APIs"].
    reflexivity.
  - apply (proj2 (proj1 (proj2 (proj2 (proj2 (proj2
             (setup_google_services_outcomes
                Example.broken_token "token.json" []))))) _)).
    reflexivity.
Defined.

(* ================================================================= *)
(** ** setup_oauth.py: the one-time authentication *)

Lemma test_apis_returns w t :
  exists b evs,
    OAuth.test_apis w t = (Ret b, t ++ evs) /\
    (b = true <-> OAuth.apis_answer w) /\
    (forall e, In e evs -> OAuth.touches_credentials e = false).
Proof.
  assert (Hin : forall evs : list OAuth.oauth_event,
            forallb (fun e => negb (OAuth.touches_credentials e)) evs = true ->
            forall e, In e evs -> OAuth.touches_credentials e = false).
  { intros evs H e He. rewrite forallb_forall in H.
    apply H in He. now apply negb_true_iff in He. }
  unfold OAuth.test_apis, OAuth.otry, OAuth.obind, OAuth.print, OAuth.act,
    OAuth.oret, OAuth.oraise, OAuth.apis_answer.
  destruct (OAuth.build_service w "drive") as [[]|e1]; cbv beta iota.
  2:{ eexists false, _. rewrite <- !app_assoc. split; [reflexivity|].
      split; [|now apply Hin].
      split; [discriminate|]. intros (H & _). discriminate H. }
  destruct (OAuth.build_service w "gmail") as [[]|e2]; cbv beta iota.
  2:{ eexists false, _. rewrite <- !app_assoc. split; [reflexivity|].
      split; [|now apply Hin].
      split; [discriminate|]. intros (_ & H & _). discriminate H. }
  destruct (OAuth.list_one_file w) as [[]|e3]; cbv beta iota.
  2:{ eexists false, _. rewrite <- !app_assoc. split; [reflexivity|].
      split; [|now apply Hin].
      split; [discriminate|]. intros (_ & _ & H & _). discriminate H. }
  destruct (OAuth.get_profile w) as [[address|]|e4]; cbv beta iota.
  - eexists true, _. rewrite <- !app_assoc. split; [reflexivity|].
    split; [|now apply Hin]. split; [|reflexivity]. eauto 6.
  - eexists false, _. rewrite <- !app_assoc. split; [reflexivity|].
    split; [|now apply Hin].
    split; [discriminate|]. intros (_ & _ & _ & a & H). discriminate H.
  - eexists false, _. rewrite <- !app_assoc. split; [reflexivity|].
    split; [|now apply Hin].
    split; [discriminate|]. intros (_ & _ & _ & a & H). discriminate H.
Qed.

(** X20.  [setup_oauth] reports success only for credentials that work:
    whatever way the credentials were obtained, its value is [True] only
    if both services were built, the Drive listing answered and the Gmail
    profile carried an address. *)
Theorem setup_oauth_succeeds_only_if_apis_answer w t :
  fst (OAuth.setup_oauth w t) = Ret true -> OAuth.apis_answer w.
Proof.
  assert (Htest : forall t0, fst (OAuth.test_apis w t0) = Ret true ->
                             OAuth.apis_answer w).
  { intros t0 H. destruct (test_apis_returns w t0) as (b & evs & E & Hb & _).
    rewrite E in H. injection H as ->. now apply Hb. }
  unfold OAuth.setup_oauth, OAuth.save_token, OAuth.obind, OAuth.act, OAuth.oret.
  repeat first
    [ apply Htest
    | discriminate
    | match goal with
      | |- context [if ?b then _ else _] => destruct b
      | |- context [match ?x with _ => _ end] => destruct x
      end ].
Qed.

Lemma setup_oauth_succeeds_only_if_apis_answer_witness :
  OAuth.apis_answer OAuth.already_set_up.
Proof.
  apply (setup_oauth_succeeds_only_if_apis_answer OAuth.already_set_up []).
  reflexivity.
Defined.

(** X21.  Valid stored credentials are left alone: with a token file
    whose credentials are valid, [setup_oauth] refreshes nothing, starts no
    login and writes no file; it goes straight to the API test, never
    raises, and its value is [True] exactly when every call of the test
    answers. *)
Theorem valid_token_is_left_alone w c :
  OAuth.exists_path w "token.json" = true ->
  OAuth.authorized_user_file w "token.json" = Ret c ->
  valid c = true ->
  exists b t,
    OAuth.setup_oauth w [] = (Ret b, t) /\
    (b = true <-> OAuth.apis_answer w) /\
    (forall e, In e t -> OAuth.touches_credentials e = false).
Proof.
  intros Hp Hc Hv.
  unfold OAuth.setup_oauth, OAuth.obind, OAuth.oret. rewrite Hp, Hc, Hv.
  destruct (test_apis_returns w []) as (b & evs & E & Hb & Hevs).
  exists b, evs. rewrite E. auto.
Qed.

Lemma valid_token_is_left_alone_witness :
  exists t,
    OAuth.setup_oauth OAuth.already_set_up [] = (Ret true, t) /\
    (forall e, In e t -> OAuth.touches_credentials e = false).
Proof.
  destruct (valid_token_is_left_alone OAuth.already_set_up
              (mkCredentials true false (Some "refresh-token"))
              eq_refl eq_refl eq_refl)
    as (b & t & E & Hb & Ht).
  exists t. split; [|exact Ht].
  assert (b = true) as ->; [|exact E].
  apply Hb. repeat split; try reflexivity. eexists. reflexivity.
Defined.

(** X22.  With nothing to start from, nothing is attempted: when there
    are no usable stored credentials (no token file, or credentials
    neither valid nor refreshable) and no [credentials.json],
    [setup_oauth] prints the seven lines of instructions and returns
    [False]; no login is started, no file written, no API called. *)
Theorem setup_oauth_without_client_secrets w :
  OAuth.exists_path w "token.json" = false \/
  (exists c, OAuth.exists_path w "token.json" = true /\
             OAuth.authorized_user_file w "token.json" = Ret c /\
             valid c = false /\
             expired c && Py.truthy (refresh_token c) = false) ->
  OAuth.exists_path w "credentials.json" = false ->
  OAuth.setup_oauth w [] =
    (Ret false, map OAuth.Print (OAuth.instructions "credentials.json")).
Proof.
  intros Htoken Hsecrets.
  unfold OAuth.setup_oauth, OAuth.obind, OAuth.oret.
  destruct Htoken as [Hp|(c & Hp & Hc & Hv & Hr)].
  - rewrite Hp, Hsecrets. reflexivity.
  - rewrite Hp, Hc, Hv, Hr, Hsecrets. reflexivity.
Qed.

Lemma setup_oauth_without_client_secrets_witness :
  fst (OAuth.setup_oauth OAuth.empty_folder []) = Ret false.
Proof.
  rewrite (setup_oauth_without_client_secrets OAuth.empty_folder).
  - reflexivity.
  - now left.
  - reflexivity.
Defined.

(** X23.  The token is saved before it is tested: after a login that
    succeeds, the credentials obtained are written to [token.json] first
    and tested afterwards, so the file is written also when the test
    fails and [setup_oauth] returns [False]; from there on nothing is
    raised, and the value is [True] exactly when every call of the test
    answers. *)
Theorem login_saves_token_before_test w c :
  OAuth.exists_path w "token.json" = false ->
  OAuth.exists_path w "credentials.json" = true ->
  OAuth.client_secrets_file w "credentials.json" = Ret tt ->
  OAuth.run_local_server w = Ret c ->
  OAuth.write_file w "token.json" (OAuth.to_json w c) = Ret tt ->
  exists b evs,
    OAuth.setup_oauth w [] =
      (Ret b,
       [OAuth.LoginFlow; OAuth.WriteToken "token.json" (OAuth.to_json w c)]
       ++ evs) /\
    (b = true <-> OAuth.apis_answer w) /\
    (forall e, In e evs -> OAuth.touches_credentials e = false).
Proof.
  intros Hp Hs Hcs Hl Hw.
  unfold OAuth.setup_oauth, OAuth.save_token, OAuth.obind, OAuth.act, OAuth.oret.
  rewrite Hp, Hs, Hcs, Hl, Hw. cbn [negb app].
  destruct (test_apis_returns w
              [OAuth.LoginFlow; OAuth.WriteToken "token.json" (OAuth.to_json w c)])
    as (b & evs & E & Hb & Hevs).
  exists b, evs. rewrite E. auto.
Qed.

Lemma login_saves_token_before_test_witness :
  exists evs,
    OAuth.setup_oauth OAuth.gmail_disabled [] =
      (Ret false,
       [OAuth.LoginFlow; OAuth.WriteToken "token.json" "{token}"] ++ evs).
Proof.
  destruct (login_saves_token_before_test OAuth.gmail_disabled
              (mkCredentials true false (Some "refresh-token"))
              eq_refl eq_refl eq_refl eq_refl eq_refl)
    as (b & evs & E & Hb & _).
  exists evs.
  assert (b = false) as ->; [|exact E].
  destruct b; [|reflexivity].
  destruct (proj1 Hb eq_refl) as (_ & _ & _ & a & H). discriminate H.
Defined.

(** X24.  Expired credentials with a refresh token are refreshed, not
    replaced: [setup_oauth] starts no login, even when [credentials.json]
    is missing, writes the refreshed credentials to [token.json] and then
    tests them. *)
Theorem expired_token_is_refreshed_and_saved w c c' :
  OAuth.exists_path w "token.json" = true ->
  OAuth.authorized_user_file w "token.json" = Ret c ->
  valid c = false ->
  expired c && Py.truthy (refresh_token c) = true ->
  OAuth.refreshed w c = Ret c' ->
  OAuth.write_file w "token.json" (OAuth.to_json w c') = Ret tt ->
  exists b evs,
    OAuth.setup_oauth w [] =
      (Ret b,
       [OAuth.RefreshToken; OAuth.WriteToken "token.json" (OAuth.to_json w c')]
       ++ evs) /\
    (b = true <-> OAuth.apis_answer w) /\
    (forall e, In e evs -> OAuth.touches_credentials e = false).
Proof.
  intros Hp Hc Hv Hr Hrf Hw.
  unfold OAuth.setup_oauth, OAuth.save_token, OAuth.obind, OAuth.act, OAuth.oret.
  rewrite Hp, Hc, Hv, Hr, Hrf, Hw. cbn [app].
  destruct (test_apis_returns w
              [OAuth.RefreshToken;
               OAuth.WriteToken "token.json" (OAuth.to_json w c')])
    as (b & evs & E & Hb & Hevs).
  exists b, evs. rewrite E. auto.
Qed.

Lemma expired_token_is_refreshed_and_saved_witness :
  OAuth.exists_path OAuth.expired_stored "credentials.json" = false /\
  exists b evs,
    OAuth.setup_oauth OAuth.expired_stored [] =
      (Ret b,
       [OAuth.RefreshToken; OAuth.WriteToken "token.json" "{refreshed}"] ++ evs) /\
    (forall e, In e evs -> OAuth.touches_credentials e = false).
Proof.
  split; [reflexivity|].
  destruct (expired_token_is_refreshed_and_saved OAuth.expired_stored
              (mkCredentials false true (Some "refresh-token"))
              (mkCredentials true false (Some "refresh-token"))
              eq_refl eq_refl eq_refl eq_refl eq_refl eq_refl)
    as (b & evs & E & _ & Hevs).
  exists b, evs. split; [exact E|exact Hevs].
Defined.

